(** * Saga benchmark scripts: load driver, chaos simulator, aggregation
      and statistical comparison

    Shallow embedding of the Python scripts under [test-scripts/]:

    - [backup-old-tests/simplified-academic-test.py] and
      [backup-old-tests/test-orchestrated-academic.py]  (percentile,
      latency distribution)
    - [test-orchestrated.py], [academic_test_suite_real_network.py]
      (batch aggregation, load loop, summary statistics)
    - [network_simulator.py]  (network / server-load simulation)
    - [load-test.py]  (create_order, the thread pool of run_load_test)
    - [statistical_analysis_optimized.py],
      [archived_files/statistical_analysis.py]  (metric extraction,
      two-sample comparison, summary)

    Python numbers are modelled as exact rationals [Q]: the development
    follows the order of the arithmetic operations of the source but not
    the rounding of binary64; [percentile] is also given on binary64
    numbers, to run its test vector.  Python exceptions are values of
    [exn] and a call that may raise returns a [result]. *)

From Stdlib Require Import String QArith ZArith List Bool Lia Lqa Sorted.
From Stdlib Require Import Qround Qabs Qminmax.
From Stdlib Require PrimFloat FloatOps SpecFloat.
Import ListNotations.

Open Scope Q_scope.

(** ** Python runtime: exceptions and results *)

Module Py.

(** The exception classes that the modelled scripts raise or catch.  All of
    them derive from [Exception]. *)
Inductive exn : Type :=
| IndexError
| ZeroDivisionError
| StatisticsError
| ValueError (msg : string)
| ConnectionError (msg : string)
| Timeout (msg : string)
| RuntimeError (msg : string).

Inductive result (A : Type) : Type :=
| Ok (a : A)
| Raise (e : exn).
Arguments Ok {A} a.
Arguments Raise {A} e.

Definition bind {A B} (r : result A) (k : A -> result B) : result B :=
  match r with
  | Ok a => k a
  | Raise e => Raise e
  end.

(** [str(e)] *)
Definition str (e : exn) : string :=
  match e with
  | IndexError => "list index out of range"
  | ZeroDivisionError => "division by zero"
  | StatisticsError => "mean requires at least one data point"
  | ValueError m | ConnectionError m | Timeout m | RuntimeError m => m
  end.

(** [int(k)] on a float: truncation towards zero. *)
Definition int (k : Q) : Z := Z.quot (Qnum k) (Zpos (Qden k)).

(** [l[i]]: negative indices count from the end, anything outside the list
    raises [IndexError]. *)
Definition index (l : list Q) (i : Z) : result Q :=
  let n := Z.of_nat (List.length l) in
  let j := if (i <? 0)%Z then (i + n)%Z else i in
  if ((j <? 0) || (n <=? j))%Z then Raise IndexError
  else Ok (nth (Z.to_nat j) l 0).

(** [x / y] on Python floats. *)
Definition truediv (x y : Q) : result Q :=
  if Qeq_bool y 0 then Raise ZeroDivisionError else Ok (x / y).

(** [sorted(data)]: a stable ascending sort. *)
Fixpoint insert (x : Q) (l : list Q) : list Q :=
  match l with
  | [] => [x]
  | y :: l' => if Qle_bool x y then x :: l else y :: insert x l'
  end.

Definition sorted (l : list Q) : list Q := fold_right insert [] l.

Definition len {A} (l : list A) : Q := inject_Z (Z.of_nat (List.length l)).

Definition sum (l : list Q) : Q := fold_left Qplus l 0.

Definition Qlt_bool (x y : Q) : bool := negb (Qle_bool y x).

(** [min(l)], [max(l)]: [ValueError] on an empty sequence; the first of
    several equal extrema is kept. *)
Definition min (l : list Q) : result Q :=
  match l with
  | [] => Raise (ValueError "min() arg is an empty sequence")
  | x :: l' => Ok (fold_left (fun m y => if Qlt_bool y m then y else m) l' x)
  end.

Definition max (l : list Q) : result Q :=
  match l with
  | [] => Raise (ValueError "max() arg is an empty sequence")
  | x :: l' => Ok (fold_left (fun m y => if Qlt_bool m y then y else m) l' x)
  end.

(** [max(a, b)], [min(a, b)] on two numbers. *)
Definition max2 (a b : Q) : Q := if Qlt_bool a b then b else a.
Definition min2 (a b : Q) : Q := if Qlt_bool b a then b else a.

(** The [statistics] module of the standard library. *)
Definition mean (l : list Q) : result Q :=
  match l with
  | [] => Raise StatisticsError
  | _ => Ok (sum l / len l)
  end.

Definition median (l : list Q) : result Q :=
  let data := sorted l in
  let n := List.length data in
  match n with
  | O => Raise StatisticsError
  | _ =>
    if Nat.even n
    then Ok ((nth (n / 2 - 1) data 0 + nth (n / 2) data 0) / 2)
    else Ok (nth (n / 2) data 0)
  end.

(** Sum of squared deviations from the mean, over [n - 1]. *)
Definition sample_variance (l : list Q) : Q :=
  let m := sum l / len l in
  sum (map (fun x => (x - m) * (x - m)) l) / (len l - 1).

Definition variance (l : list Q) : result Q :=
  match l with
  | [] | [_] => Raise StatisticsError
  | _ => Ok (sample_variance l)
  end.

(** A fixed-precision rational square root, used to run the model on
    concrete data: for [q = n/d], the integer square root of [n*d*10^24]
    over [d*10^12].  The development itself is parametric in the square
    root. *)
Definition Qsqrt (q : Q) : Q :=
  if Qle_bool q 0 then 0
  else Z.sqrt (Qnum q * Zpos (Qden q) * 10 ^ 24) # (Qden q * 10 ^ 12).

End Py.

Import Py.

Notation "x <- r ;; k" := (Py.bind r (fun x => k))
  (at level 61, r at next level, right associativity).

(** ** percentile  (simplified-academic-test.py:78, test-orchestrated-academic.py:66) *)

Module Percentile.

Definition percentile (data : list Q) (percent : Q) : result Q :=
  match data with
  | [] => Ok 0
  | _ =>
    let data_sorted := sorted data in
    let k := (len data_sorted - 1) * percent / 100 in
    let f := int k in
    let c := (f + 1)%Z in
    if (Z.of_nat (List.length data_sorted) <=? c)%Z then index data_sorted (-1)
    else
      d0 <- (x <- index data_sorted f ;; Ok (x * (inject_Z c - k))) ;;
      d1 <- (x <- index data_sorted c ;; Ok (x * (k - inject_Z f))) ;;
      Ok (d0 + d1)
  end.

End Percentile.

(** ** percentile on binary64

    The same function run on IEEE 754 double-precision numbers, the
    [float] of CPython, to check test vectors to the last bit.  The
    integers involved are below 2^53, so the integer product and true
    division of CPython agree with the float operations used here. *)

Module Binary64.

Import PrimFloat FloatOps SpecFloat.

Definition float_of_Z (z : Z) : float :=
  SF2Prim (binary_normalize prec emax z 0 false).

(** [int(x)] on a float: truncation towards zero. *)
Definition int (x : float) : Z :=
  match Prim2SF x with
  | S754_finite s m e =>
    let v :=
      if (0 <=? e)%Z then (Zpos m * 2 ^ e)%Z else Z.quot (Zpos m) (2 ^ (- e)) in
    if s then (- v)%Z else v
  | _ => 0%Z
  end.

Fixpoint insert (x : float) (l : list float) : list float :=
  match l with
  | [] => [x]
  | y :: l' => if PrimFloat.ltb y x then y :: insert x l' else x :: l
  end.

Definition sorted (l : list float) : list float := fold_right insert [] l.

Definition index (l : list float) (i : Z) : result float :=
  let n := Z.of_nat (List.length l) in
  let j := if (i <? 0)%Z then (i + n)%Z else i in
  if ((j <? 0) || (n <=? j))%Z then Raise IndexError
  else Ok (nth (Z.to_nat j) l PrimFloat.zero).

Definition percentile (data : list float) (percent : float) : result float :=
  match data with
  | [] => Ok PrimFloat.zero
  | _ =>
    let data_sorted := sorted data in
    let k :=
      (float_of_Z (Z.of_nat (List.length data_sorted) - 1) * percent / 100)%float in
    let f := int k in
    let c := (f + 1)%Z in
    if (Z.of_nat (List.length data_sorted) <=? c)%Z then index data_sorted (-1)
    else
      d0 <- (x <- index data_sorted f ;; Ok (x * (float_of_Z c - k))%float) ;;
      d1 <- (x <- index data_sorted c ;; Ok (x * (k - float_of_Z f))%float) ;;
      Ok (d0 + d1)%float
  end.

End Binary64.

(** ** State and exceptions

    Stateful code is a function from a store to a result and the store
    after the call.  A raised exception keeps the store as it was at the
    point of the [raise]: side effects are not undone. *)

Module Eff.

Definition M (S A : Type) : Type := S -> result A * S.

Definition ret {S A} (a : A) : M S A := fun s => (Ok a, s).

Definition raise {S A} (e : exn) : M S A := fun s => (Raise e, s).

Definition bind {S A B} (m : M S A) (k : A -> M S B) : M S B :=
  fun s =>
    match m s with
    | (Ok a, s') => k a s'
    | (Raise e, s') => (Raise e, s')
    end.

Definition get {S} : M S S := fun s => (Ok s, s).

Definition modify {S} (f : S -> S) : M S unit := fun s => (Ok tt, f s).

(** A pure computation that may raise. *)
Definition lift {S A} (r : result A) : M S A := fun s => (r, s).

(** [try: body  except Exception as e: handler e] *)
Definition try_except {S A} (body : M S A) (handler : exn -> M S A) : M S A :=
  fun s =>
    match body s with
    | (Ok a, s') => (Ok a, s')
    | (Raise e, s') => handler e s'
    end.

(** [if cond: body] *)
Definition when {S} (cond : bool) (body : M S unit) : M S unit :=
  if cond then body else ret tt.

End Eff.

Declare Scope eff_scope.
Delimit Scope eff_scope with eff.
Notation "x <~ m ; k" := (Eff.bind m (fun x => k))
  (at level 61, m at next level, right associativity) : eff_scope.
Notation "m ;; k" := (Eff.bind m (fun _ => k))
  (at level 61, right associativity) : eff_scope.

(** ** Per-attempt results

    The dictionary every driver builds for one attempt.  Keys that a given
    script does not set are [None]. *)

Record request_result : Type := mk_request_result {
  success : bool;
  status_code : option Z;
  duration_ms : Q;
  error : option string;
  real_network_applied : bool;
  network_scenario : option string
}.

(** ** Batch aggregation *)

Module Aggregation.

Record latency : Type := mk_latency {
  avg_ms : Q;
  median_ms : Q;
  std_dev_ms : option Q;
  min_ms : Q;
  max_ms : Q;
  p95_ms : Q;
  p99_ms : option Q
}.

Record metrics : Type := mk_metrics {
  total_requests : nat;
  successful_requests : nat;
  failed_requests : option nat;
  success_rate : Q;
  total_duration_s : Q;
  throughput_req_s : Q;
  latency_stats : latency
}.

(** *** analyze_performance (test-orchestrated.py:108)

    [success_rate] is the key [success_rate_percent] of the source and
    [throughput_req_s] its key [throughput_req_per_sec]. *)
Definition analyze_performance (results : list request_result)
    (total_duration : Q) : result metrics :=
  let successful := filter success results in
  let failed := filter (fun r => negb (success r)) results in
  lat <-
    match successful with
    | _ :: _ =>
      let durations := map duration_ms successful in
      avg_duration <- mean durations ;;
      median_duration <- median durations ;;
      min_duration <- Py.min durations ;;
      max_duration <- Py.max durations ;;
      p95_duration <-
        match durations with
        | _ :: _ => index (sorted durations) (int (len durations * (95 # 100)))
        | [] => Ok 0
        end ;;
      Ok (mk_latency avg_duration median_duration None min_duration
            max_duration p95_duration None)
    | [] => Ok (mk_latency 0 0 None 0 0 0 None)
    end ;;
  success_rate <-
    match results with
    | _ :: _ => r <- truediv (len successful) (len results) ;; Ok (r * 100)
    | [] => Ok 0
    end ;;
  throughput <-
    (if Qlt_bool 0 total_duration
     then truediv (len successful) total_duration
     else Ok 0) ;;
  Ok (mk_metrics (List.length results) (List.length successful)
        (Some (List.length failed)) success_rate total_duration throughput lat).

(** *** The metrics block of run_real_network_load_test
    (academic_test_suite_real_network.py:139-163)

    [sqrt] is the square root behind [statistics.stdev] and
    [np_percentile] is [numpy.percentile]. *)
Section RealNetwork.

Variable sqrt : Q -> Q.
Variable np_percentile : list Q -> Q -> Q.

Definition stdev (l : list Q) : result Q :=
  v <- variance l ;; Ok (sqrt v).

Definition load_test_metrics (results : list request_result)
    (total_duration : Q) : result metrics :=
  let successful_requests :=
    List.length (filter success results) in
  success_rate <-
    truediv (inject_Z (Z.of_nat successful_requests)) (len results) ;;
  let latencies := map duration_ms results in
  throughput <- truediv (len results) total_duration ;;
  mean_ms <- mean latencies ;;
  median_ms <- median latencies ;;
  std_dev_ms <-
    (if (1 <? List.length latencies)%nat then stdev latencies else Ok 0) ;;
  min_ms <- Py.min latencies ;;
  max_ms <- Py.max latencies ;;
  Ok (mk_metrics (List.length results) successful_requests None
        success_rate total_duration throughput
        (mk_latency mean_ms median_ms (Some std_dev_ms) min_ms max_ms
           (np_percentile latencies 95) (Some (np_percentile latencies 99)))).

End RealNetwork.

End Aggregation.

(** ** network_simulator.py *)

Module Simulator.

Import Eff.
Local Open Scope eff_scope.

Record network_profile : Type := mk_network_profile {
  np_name : string;
  base_latency_ms : Q;
  jitter_ms : Q;
  packet_loss_rate : Q;
  bandwidth_limit_mbps : Q;
  np_description : string
}.

Record load_profile : Type := mk_load_profile {
  lp_name : string;
  cpu_delay_ms : Q;
  memory_pressure : Q;
  io_delay_ms : Q;
  lp_description : string
}.

Record scenario : Type := mk_scenario {
  sc_name : string;
  sc_network_profile : string;
  sc_server_load : string;
  sc_description : string
}.

Definition profiles : list (string * network_profile) :=
  [ ("localhost", mk_network_profile "Localhost" 1 (1 # 2) (1 # 1000) 1000 "Local network");
    ("lan", mk_network_profile "Local Area Network" 5 2 (1 # 100) 100 "Corporate LAN");
    ("wan_good", mk_network_profile "Good WAN Connection" 50 10 (2 # 100) 50
       "Good internet connection");
    ("wan_average", mk_network_profile "Average WAN Connection" 100 25 (5 # 100) 20
       "Average internet connection");
    ("wan_poor", mk_network_profile "Poor WAN Connection" 200 50 (1 # 10) 5
       "Poor internet connection");
    ("mobile_4g", mk_network_profile "Mobile 4G Network" 80 30 (3 # 100) 25
       "Mobile 4G connection");
    ("mobile_3g", mk_network_profile "Mobile 3G Network" 150 60 (8 # 100) 3
       "Mobile 3G connection");
    ("satellite", mk_network_profile "Satellite Connection" 600 100 (15 # 100) 10
       "Satellite internet") ]%string.

Definition load_profiles : list (string * load_profile) :=
  [ ("light", mk_load_profile "Light Load" 5 (1 # 10) 10 "Low server load");
    ("moderate", mk_load_profile "Moderate Load" 20 (3 # 10) 50 "Moderate server load");
    ("heavy", mk_load_profile "Heavy Load" 100 (7 # 10) 200 "Heavy server load");
    ("overloaded", mk_load_profile "Overloaded" 500 (9 # 10) 1000 "Server overloaded") ]%string.

Definition scenarios : list (string * scenario) :=
  [ ("enterprise_lan", mk_scenario "Enterprise LAN" "lan" "light"
       "Corporate network with good infrastructure");
    ("cloud_datacenter", mk_scenario "Cloud Datacenter" "wan_good" "moderate"
       "Cloud deployment with good connectivity");
    ("remote_office", mk_scenario "Remote Office" "wan_average" "moderate"
       "Remote office with average internet");
    ("mobile_users", mk_scenario "Mobile Users" "mobile_4g" "heavy"
       "Mobile users on 4G network");
    ("poor_connectivity", mk_scenario "Poor Connectivity" "wan_poor" "heavy"
       "Poor network with overloaded server");
    ("disaster_recovery", mk_scenario "Disaster Recovery" "satellite" "overloaded"
       "Emergency satellite connection") ]%string.

(** [d[name]] guarded by [name in d]. *)
Fixpoint lookup {V} (name : string) (d : list (string * V)) : option V :=
  match d with
  | [] => None
  | (k, v) :: d' => if String.eqb name k then Some v else lookup name d'
  end.

(** What an HTTP call hands back: the status code and, when the object
    has a [content] attribute, the payload size in bytes. *)
Record response : Type := mk_response {
  resp_status_code : Z;
  resp_content_len : option nat
}.

(** What the process does that an observer can see. *)
Inductive event : Type :=
| Sleep (seconds : Q)
| Request.

(** The objects of the module ([real_world_sim] and its two parts) and the
    environment they run in.  [rng] is the stream of samples behind
    [random.random] and [random.normalvariate] (a uniform sample or a
    standard normal one, in the order they are asked for), [server] gives
    for the i-th call of the request function how long it takes in seconds
    and what it returns or raises; neither is changed by the code. *)
Record world : Type := mk_world {
  active_profile : option network_profile;
  active_load : option load_profile;
  active_scenario : option string;
  now : Q;
  rng : nat -> Q;
  rng_pos : nat;
  server : nat -> Q * result response;
  calls : nat;
  trace : list event
}.

Definition set_active_profile (p : option network_profile) (w : world) : world :=
  mk_world p (active_load w) (active_scenario w) (now w) (rng w) (rng_pos w)
    (server w) (calls w) (trace w).

Definition set_active_load (l : option load_profile) (w : world) : world :=
  mk_world (active_profile w) l (active_scenario w) (now w) (rng w) (rng_pos w)
    (server w) (calls w) (trace w).

Definition set_active_scenario (s : option string) (w : world) : world :=
  mk_world (active_profile w) (active_load w) s (now w) (rng w) (rng_pos w)
    (server w) (calls w) (trace w).

Definition Sim (A : Type) : Type := M world A.

(** [time.time()] *)
Definition time : Sim Q := fun w => (Ok (now w), w).

(** [time.sleep(d)] *)
Definition sleep (d : Q) : Sim unit :=
  modify (fun w =>
    mk_world (active_profile w) (active_load w) (active_scenario w)
      (now w + d) (rng w) (rng_pos w) (server w) (calls w)
      (trace w ++ [Sleep d])).

Definition next_sample : Sim Q :=
  fun w =>
    (Ok (rng w (rng_pos w)),
     mk_world (active_profile w) (active_load w) (active_scenario w)
       (now w) (rng w) (S (rng_pos w)) (server w) (calls w) (trace w)).

(** [random.random()] *)
Definition random : Sim Q := next_sample.

(** [random.normalvariate(mu, sigma)] *)
Definition normalvariate (mu sigma : Q) : Sim Q :=
  z <~ next_sample ; ret (mu + z * sigma).

(** One call of the wrapped request function. *)
Definition request_func : Sim response :=
  fun w =>
    let (elapsed, outcome) := server w (calls w) in
    (outcome,
     mk_world (active_profile w) (active_load w) (active_scenario w)
       (now w + elapsed) (rng w) (rng_pos w) (server w) (S (calls w))
       (trace w ++ [Request])).

(** *** NetworkSimulator *)

Definition apply_network_profile (profile_name : string) : Sim network_profile :=
  match lookup profile_name profiles with
  | None => raise (ValueError ("Unknown profile: " ++ profile_name))
  | Some p => modify (set_active_profile (Some p)) ;; ret p
  end.

Definition simulate_network_delay : Sim Q :=
  w <~ get ;
  match active_profile w with
  | None => ret 0
  | Some p =>
    let base_latency := base_latency_ms p in
    let jitter := jitter_ms p in
    noise <~ normalvariate 0 (jitter / 3) ;
    let actual_latency := base_latency + noise in
    ret (max2 0 actual_latency / 1000)
  end.

Definition simulate_packet_loss : Sim bool :=
  w <~ get ;
  match active_profile w with
  | None => ret false
  | Some p =>
    let loss_rate := packet_loss_rate p in
    u <~ random ;
    ret (Qlt_bool u loss_rate)
  end.

Definition simulate_bandwidth_limit (data_size_bytes : nat) : Sim Q :=
  w <~ get ;
  match active_profile w with
  | None => ret 0
  | Some p =>
    let bandwidth_bps := bandwidth_limit_mbps p * 1000000 in
    bandwidth_delay <~
      lift (truediv (inject_Z (Z.of_nat data_size_bytes) * 8) bandwidth_bps) ;
    variability <~ normalvariate 1 (1 # 10) ;
    ret (max2 0 (bandwidth_delay * variability))
  end.

(** The message of the injected failure, without the formatted rate. *)
Definition packet_loss_msg : string := "NETWORK_SIM: Packet loss".

Definition simulate_real_request : Sim response :=
  w <~ get ;
  match active_profile w with
  | None => request_func
  | Some _ =>
    lost <~ simulate_packet_loss ;
    if lost : bool then raise (ConnectionError packet_loss_msg)
    else
      network_delay <~ simulate_network_delay ;
      when (Qlt_bool 0 network_delay) (sleep network_delay) ;;
      response <~ request_func ;
      match resp_content_len response with
      | Some response_size =>
        bandwidth_delay <~ simulate_bandwidth_limit response_size ;
        when (Qlt_bool 0 bandwidth_delay) (sleep bandwidth_delay)
      | None => ret tt
      end ;;
      ret response
  end.

Definition clear_network_simulation : Sim unit :=
  modify (set_active_profile None).

(** *** ServerLoadSimulator *)

Definition apply_load_profile (profile_name : string) : Sim load_profile :=
  match lookup profile_name load_profiles with
  | None => raise (ValueError ("Unknown load profile: " ++ profile_name))
  | Some l => modify (set_active_load (Some l)) ;; ret l
  end.

Definition simulate_server_processing : Sim unit :=
  w <~ get ;
  match active_load w with
  | None => ret tt
  | Some l =>
    let cpu_delay := cpu_delay_ms l / 1000 in
    cpu_variation <~ normalvariate 1 (2 # 10) ;
    let actual_cpu_delay := max2 0 (cpu_delay * cpu_variation) in
    when (Qlt_bool 0 actual_cpu_delay) (sleep actual_cpu_delay) ;;
    let io_delay := io_delay_ms l / 1000 in
    io_variation <~ normalvariate 1 (5 # 10) ;
    let actual_io_delay := max2 0 (io_delay * io_variation) in
    when (Qlt_bool 0 actual_io_delay) (sleep actual_io_delay)
  end.

(** *** RealWorldSimulator *)

Record activation : Type := mk_activation {
  scenario_applied : string;
  config : scenario;
  network_simulation : network_profile;
  server_simulation : load_profile
}.

Definition apply_real_world_scenario (scenario_name : string) : Sim activation :=
  match lookup scenario_name scenarios with
  | None => raise (ValueError ("Unknown scenario: " ++ scenario_name))
  | Some sc =>
    network_result <~ apply_network_profile (sc_network_profile sc) ;
    server_result <~ apply_load_profile (sc_server_load sc) ;
    modify (set_active_scenario (Some scenario_name)) ;;
    ret (mk_activation scenario_name sc network_result server_result)
  end.

Definition simulate_real_world_request : Sim response :=
  simulate_server_processing ;;
  simulate_real_request.

Definition clear_simulation : Sim unit :=
  clear_network_simulation ;;
  modify (set_active_scenario None).

End Simulator.

(** ** Load drivers *)

Module LoadDriver.

Import Eff Simulator.
Local Open Scope eff_scope.

Definition is_not_none {A} (o : option A) : bool :=
  match o with Some _ => true | None => false end.

(** *** execute_real_network_request (academic_test_suite_real_network.py:67)

    The [psutil] probes and the ISO timestamp are reads of the host that
    do not take part in the control flow; the keys they fill are left
    out. *)
Definition execute_real_network_request : Sim request_result :=
  start_time <~ time ;
  try_except
    (response <~ simulate_real_world_request ;
     end_time <~ time ;
     let duration_ms := (end_time - start_time) * 1000 in
     w <~ get ;
     ret (mk_request_result
            ((resp_status_code response =? 200)%Z
             || (resp_status_code response =? 201)%Z)
            (Some (resp_status_code response))
            duration_ms
            None
            (is_not_none (active_scenario w))
            (active_scenario w)))
    (fun e =>
     end_time <~ time ;
     let duration_ms := (end_time - start_time) * 1000 in
     w <~ get ;
     ret (mk_request_result
            false
            (Some 0%Z)
            duration_ms
            (Some (str e))
            (is_not_none (active_scenario w))
            (active_scenario w))).

(** The request loop of run_real_network_load_test (lines 123-137):
    [results] as it stands after [num_requests] iterations, and the
    elapsed time of the loop. *)
Fixpoint request_loop (num_requests : nat) (results : list request_result)
    : Sim (list request_result) :=
  match num_requests with
  | O => ret results
  | S n =>
    r <~ execute_real_network_request ;
    sleep (1 # 10) ;;
    request_loop n (results ++ [r])
  end.

Section RealNetwork.

Variable sqrt : Q -> Q.
Variable np_percentile : list Q -> Q -> Q.

Definition run_real_network_load_test (num_requests : nat)
    : Sim Aggregation.metrics :=
  start_time <~ time ;
  results <~ request_loop num_requests [] ;
  end_time <~ time ;
  let total_duration := end_time - start_time in
  lift (Aggregation.load_test_metrics sqrt np_percentile results total_duration).

End RealNetwork.

(** *** SagaLoadTester.create_order (load-test.py:19) *)
Definition create_order : Sim request_result :=
  start_time <~ time ;
  try_except
    (response <~ request_func ;
     end_time <~ time ;
     let duration := (end_time - start_time) * 1000 in
     ret (mk_request_result
            (resp_status_code response =? 200)%Z
            (Some (resp_status_code response))
            duration None false None))
    (fun e =>
     end_time <~ time ;
     let duration := (end_time - start_time) * 1000 in
     ret (mk_request_result false None duration (Some (str e)) false None)).

End LoadDriver.

(** ** Two-sample comparison *)

Module Comparator.

Import Eff.
Local Open Scope eff_scope.

(** A numpy float64 scalar, as far as the comparators can tell one from
    another: dividing by zero gives an infinity or a NaN and a warning, not
    an exception. *)
Inductive npfloat : Type :=
| Fin (q : Q)
| PInf
| NInf
| NaN.

(** [x / y] when one operand is a numpy scalar. *)
Definition np_truediv (x y : Q) : npfloat :=
  if Qeq_bool y 0 then
    if Qeq_bool x 0 then NaN
    else if Qlt_bool 0 x then PInf else NInf
  else Fin (x / y).

Definition np_abs (x : npfloat) : npfloat :=
  match x with
  | Fin q => Fin (Qabs q)
  | PInf | NInf => PInf
  | NaN => NaN
  end.

(** [x * c] for a positive constant [c]. *)
Definition np_scale (x : npfloat) (c : Q) : npfloat :=
  match x with
  | Fin q => Fin (q * c)
  | other => other
  end.

(** [x < c]: every comparison with a NaN is false. *)
Definition np_ltb (x : npfloat) (c : Q) : bool :=
  match x with
  | Fin q => Qlt_bool q c
  | NInf => true
  | PInf | NaN => false
  end.

(** The calls into [scipy.stats], in the order they are made. *)
Inductive call : Type :=
| CallShapiro (data : list Q)
| CallLevene (a b : list Q)
| CallTTest (a b : list Q) (equal_var : bool)
| CallMannWhitney (a b : list Q).

Record normality : Type := mk_normality {
  nt_test : string;
  nt_statistic : option Q;
  nt_p_value : option Q;
  nt_error : option string;
  is_normal : bool;
  nt_sample_size : nat
}.

Record statistical_test : Type := mk_statistical_test {
  st_test : string;
  st_statistic : option Q;
  st_p_value : option Q;
  st_significant : option bool;
  st_levene_test : option (Q * Q);
  st_error : option string
}.

Inductive effect_size : Type :=
| EffectSize (cohens_d : npfloat) (interpretation : option string)
| EffectError (msg : string).

Inductive interval : Type :=
| Interval (lower upper confidence_level : Q)
| IntervalError (msg : string)
| NoInterval.

Record descriptive : Type := mk_descriptive {
  d_mean : Q;
  d_median : Q;
  d_std_dev : Q;
  d_min : option Q;
  d_max : option Q;
  d_sample_size : nat
}.

Record performance_analysis : Type := mk_performance_analysis {
  winner : string;
  improvement_percent : npfloat;
  statistically_significant : bool
}.

Record comparison : Type := mk_comparison {
  c_metric : string;
  c_orchestrated : descriptive;
  c_choreographed : descriptive;
  c_normality_orchestrated : normality;
  c_normality_choreographed : normality;
  c_statistical_test : statistical_test;
  c_effect_size : effect_size;
  c_confidence_interval : interval;
  c_performance : performance_analysis
}.

Inductive report : Type :=
| InsufficientData (metric : string) (orchestrated_samples choreographed_samples : nat)
| Compared (c : comparison).

Definition Stat (A : Type) : Type := M (list call) A.

Definition is_latency_metric (metric_name : string) : bool :=
  String.eqb metric_name "latencies" || String.eqb metric_name "p95_latencies".

Section Scipy.

(** [self.alpha] *)
Variable alpha : Q.

(** [scipy.stats]: each test returns the statistic and the p-value, or
    raises. *)
Variable shapiro : list Q -> result (Q * Q).
Variable levene : list Q -> list Q -> result (Q * Q).
Variable ttest_ind : list Q -> list Q -> bool -> result (Q * Q).
Variable mannwhitneyu : list Q -> list Q -> result (Q * Q).

Definition call_shapiro (data : list Q) : Stat (Q * Q) :=
  fun log => (shapiro data, log ++ [CallShapiro data]).

Definition call_levene (a b : list Q) : Stat (Q * Q) :=
  fun log => (levene a b, log ++ [CallLevene a b]).

Definition call_ttest_ind (a b : list Q) (equal_var : bool) : Stat (Q * Q) :=
  fun log => (ttest_ind a b equal_var, log ++ [CallTTest a b equal_var]).

(** Always called with [alternative='two-sided']. *)
Definition call_mannwhitneyu (a b : list Q) : Stat (Q * Q) :=
  fun log => (mannwhitneyu a b, log ++ [CallMannWhitney a b]).

(** test_normality is the same in both analyzers. *)
Definition test_normality (data : list Q) : Stat normality :=
  if (List.length data <? 3)%nat then
    ret (mk_normality "insufficient_data" None None None false (List.length data))
  else
    try_except
      (r <~ call_shapiro data ;
       let (statistic, p_value) := r : Q * Q in
       let is_normal := Qlt_bool alpha p_value in
       ret (mk_normality "shapiro_wilk" (Some statistic) (Some p_value) None
              is_normal (List.length data)))
      (fun e =>
       ret (mk_normality "error" None None (Some (str e)) false (List.length data))).

End Scipy.

Definition significant_or_false (t : statistical_test) : bool :=
  match st_significant t with Some b => b | None => false end.

(** *** StatisticalAnalyzer (archived_files/statistical_analysis.py) *)
Module Archived.

Section Analyzer.

Variable alpha : Q.

(** numpy and scipy: the square root, the four tests and the quantile
    function of Student's t. *)
Variable sqrt : Q -> Q.
Variable shapiro : list Q -> result (Q * Q).
Variable levene : list Q -> list Q -> result (Q * Q).
Variable ttest_ind : list Q -> list Q -> bool -> result (Q * Q).
Variable mannwhitneyu : list Q -> list Q -> result (Q * Q).
Variable t_ppf : Q -> Q -> Q.

Definition stdev (l : list Q) : result Q :=
  v <- variance l ;; Ok (sqrt v).

Definition calculate_cohens_d (group1 group2 : list Q) : result npfloat :=
  mean1 <- mean group1 ;;
  mean2 <- mean group2 ;;
  std1 <- stdev group1 ;;
  std2 <- stdev group2 ;;
  let n1 := len group1 in
  let n2 := len group2 in
  q <- truediv ((n1 - 1) * (std1 * std1) + (n2 - 1) * (std2 * std2)) (n1 + n2 - 2) ;;
  let pooled_std := sqrt q in
  Ok (np_truediv (mean1 - mean2) pooled_std).

Definition interpret_effect_size (cohens_d : npfloat) : string :=
  let abs_d := np_abs cohens_d in
  if np_ltb abs_d (2 # 10) then "negligible"
  else if np_ltb abs_d (5 # 10) then "small"
  else if np_ltb abs_d (8 # 10) then "medium"
  else "large".

Definition confidence_interval_difference (group1 group2 : list Q)
    (confidence : Q) : result (Q * Q) :=
  let alpha' := 1 - confidence in
  mean1 <- mean group1 ;;
  mean2 <- mean group2 ;;
  var1 <- variance group1 ;;
  var2 <- variance group2 ;;
  let n1 := len group1 in
  let n2 := len group2 in
  let se_diff := sqrt (var1 / n1 + var2 / n2) in
  df <- truediv ((var1 / n1 + var2 / n2) * (var1 / n1 + var2 / n2))
          ((var1 / n1) * (var1 / n1) / (n1 - 1)
           + (var2 / n2) * (var2 / n2) / (n2 - 1)) ;;
  let t_crit := t_ppf (1 - alpha' / 2) df in
  let diff := mean1 - mean2 in
  let margin_error := t_crit * se_diff in
  Ok (diff - margin_error, diff + margin_error).

Definition describe (data : list Q) : result descriptive :=
  m <- mean data ;;
  md <- median data ;;
  sd <- (if (1 <? List.length data)%nat then stdev data else Ok 0) ;;
  mn <- Py.min data ;;
  mx <- Py.max data ;;
  Ok (mk_descriptive m md sd (Some mn) (Some mx) (List.length data)).

Definition py_bool_str (b : bool) : string := if b then "True" else "False".

Definition compare_metrics (orch_data choreo_data : list Q)
    (metric_name : string) : Stat report :=
  if (List.length orch_data <? 3)%nat || (List.length choreo_data <? 3)%nat then
    ret (InsufficientData metric_name (List.length orch_data) (List.length choreo_data))
  else
    orch_stats <~ lift (describe orch_data) ;
    choreo_stats <~ lift (describe choreo_data) ;
    orch_normality <~ test_normality alpha shapiro orch_data ;
    choreo_normality <~ test_normality alpha shapiro choreo_data ;
    let both_normal := is_normal orch_normality && is_normal choreo_normality in
    t1 <~
      (if both_normal then
         try_except
           (lv <~ call_levene levene orch_data choreo_data ;
            let (levene_stat, levene_p) := lv : Q * Q in
            let equal_var := Qlt_bool alpha levene_p in
            tt <~ call_ttest_ind ttest_ind orch_data choreo_data equal_var ;
            let (statistic, p_value) := tt : Q * Q in
            ret (Some (mk_statistical_test
                         ("Independent t-test (equal_var=" ++ py_bool_str equal_var ++ ")")
                         (Some statistic) (Some p_value)
                         (Some (Qlt_bool p_value alpha))
                         (Some (levene_stat, levene_p)) None)))
           (fun e => ret None)
       else ret None) ;
    test <~
      match t1 with
      | Some t => ret t
      | None =>
        try_except
          (mw <~ call_mannwhitneyu mannwhitneyu orch_data choreo_data ;
           let (statistic, p_value) := mw : Q * Q in
           ret (mk_statistical_test "Mann-Whitney U test"
                  (Some statistic) (Some p_value)
                  (Some (Qlt_bool p_value alpha)) None None))
          (fun e =>
           ret (mk_statistical_test "error" None None None None (Some (str e))))
      end ;
    let effect :=
      match calculate_cohens_d orch_data choreo_data with
      | Ok d => EffectSize d (Some (interpret_effect_size d))
      | Raise e => EffectError (str e)
      end in
    let ci :=
      match confidence_interval_difference orch_data choreo_data (95 # 100) with
      | Ok (ci_lower, ci_upper) => Interval ci_lower ci_upper ((1 - alpha) * 100)
      | Raise e => IntervalError (str e)
      end in
    let orch_mean := d_mean orch_stats in
    let choreo_mean := d_mean choreo_stats in
    perf <~
      (if is_latency_metric metric_name then
         let winner :=
           (if Qlt_bool orch_mean choreo_mean then "orchestrated" else "choreographed")%string in
         r <~ lift (truediv (Qabs (orch_mean - choreo_mean)) (max2 orch_mean choreo_mean)) ;
         ret (winner, r * 100)
       else
         let winner :=
           (if Qlt_bool choreo_mean orch_mean then "orchestrated" else "choreographed")%string in
         r <~ lift (truediv (Qabs (orch_mean - choreo_mean)) (min2 orch_mean choreo_mean)) ;
         ret (winner, r * 100)) ;
    let (winner, improvement) := perf : string * Q in
    ret (Compared
           (mk_comparison metric_name orch_stats choreo_stats
              orch_normality choreo_normality test effect ci
              (mk_performance_analysis winner (Fin improvement)
                 (significant_or_false test)))).

End Analyzer.

End Archived.

(** *** OptimizedStatisticalAnalyzer (statistical_analysis_optimized.py)

    The samples have at least three values wherever [np_mean] and [np_std]
    are used, so neither divides by zero. *)
Module Optimized.

Section Analyzer.

Variable alpha : Q.
Variable sqrt : Q -> Q.
Variable shapiro : list Q -> result (Q * Q).
Variable ttest_ind : list Q -> list Q -> bool -> result (Q * Q).
Variable mannwhitneyu : list Q -> list Q -> result (Q * Q).

(** [np.mean(data)] *)
Definition np_mean (data : list Q) : Q := sum data / len data.

(** [np.std(data, ddof=1)] *)
Definition np_std (data : list Q) : Q := sqrt (sample_variance data).

(** [np.median(data)] *)
Definition np_median (data : list Q) : Q :=
  match median data with Ok m => m | Raise _ => 0 end.

Definition pooled_std (orch_data choreo_data : list Q) : Q :=
  sqrt (((len orch_data - 1) * (np_std orch_data * np_std orch_data)
         + (len choreo_data - 1) * (np_std choreo_data * np_std choreo_data))
        / (len orch_data + len choreo_data - 2)).

Definition cohens_d (orch_data choreo_data : list Q) : Q :=
  if Qlt_bool 0 (pooled_std orch_data choreo_data)
  then (np_mean orch_data - np_mean choreo_data) / pooled_std orch_data choreo_data
  else 0.

Definition compare_metrics (orch_data choreo_data : list Q)
    (metric_name : string) : Stat report :=
  if (List.length orch_data <? 3)%nat || (List.length choreo_data <? 3)%nat then
    ret (InsufficientData metric_name (List.length orch_data) (List.length choreo_data))
  else
    orch_normality <~ test_normality alpha shapiro orch_data ;
    choreo_normality <~ test_normality alpha shapiro choreo_data ;
    let both_normal := is_normal orch_normality && is_normal choreo_normality in
    t <~
      (if both_normal then
         r <~ call_ttest_ind ttest_ind orch_data choreo_data true ;
         ret (r, "Independent t-test"%string)
       else
         r <~ call_mannwhitneyu mannwhitneyu orch_data choreo_data ;
         ret (r, "Mann-Whitney U test"%string)) ;
    let '(statistic, p_value, test_name) := t : Q * Q * string in
    let cohens_d := cohens_d orch_data choreo_data in
    let orch_mean := np_mean orch_data in
    let choreo_mean := np_mean choreo_data in
    let winner :=
      (if is_latency_metric metric_name then
         if Qlt_bool orch_mean choreo_mean then "orchestrated" else "choreographed"
       else
         if Qlt_bool choreo_mean orch_mean then "orchestrated" else "choreographed")%string in
    let improvement :=
      np_scale
        (np_abs (np_truediv (orch_mean - choreo_mean) (max2 orch_mean choreo_mean)))
        100 in
    let test :=
      mk_statistical_test test_name (Some statistic) (Some p_value)
        (Some (Qlt_bool p_value alpha)) None None in
    ret (Compared
           (mk_comparison metric_name
              (mk_descriptive orch_mean (np_median orch_data) (np_std orch_data)
                 None None (List.length orch_data))
              (mk_descriptive choreo_mean (np_median choreo_data) (np_std choreo_data)
                 None None (List.length choreo_data))
              orch_normality choreo_normality test
              (EffectSize (Fin cohens_d) None) NoInterval
              (mk_performance_analysis winner improvement
                 (significant_or_false test)))).

End Analyzer.

End Optimized.

End Comparator.

(** ** Vocabulary of the statements

    Functions that the properties below compare the code with. *)

Module Expected.

Import Aggregation Simulator Comparator.

(** The latency block of analyze_performance as a function of the
    durations it is computed from. *)
Definition latency_of (durations : list Q) : result latency :=
  match durations with
  | _ :: _ =>
    avg_duration <- mean durations ;;
    median_duration <- median durations ;;
    min_duration <- Py.min durations ;;
    max_duration <- Py.max durations ;;
    p95_duration <- index (sorted durations) (int (len durations * (95 # 100))) ;;
    Ok (mk_latency avg_duration median_duration None min_duration
          max_duration p95_duration None)
  | [] => Ok (mk_latency 0 0 None 0 0 0 None)
  end.

Definition successful_durations (results : list request_result) : list Q :=
  map duration_ms (filter success results).

(** What a call into the simulator leaves untouched. *)
Definition same_setup (w w' : world) : Prop :=
  active_profile w' = active_profile w
  /\ active_load w' = active_load w
  /\ active_scenario w' = active_scenario w
  /\ rng w' = rng w
  /\ server w' = server w.

(** Whether test_normality finds a sample normal. *)
Definition passes_shapiro (alpha : Q) (shapiro : list Q -> result (Q * Q))
    (data : list Q) : bool :=
  match shapiro data with
  | Ok (_, p_value) => Qlt_bool alpha p_value
  | Raise _ => false
  end.

Definition lower_mean_wins (orch_mean choreo_mean : Q) : string :=
  if Qlt_bool orch_mean choreo_mean then "orchestrated" else "choreographed".

Definition higher_mean_wins (orch_mean choreo_mean : Q) : string :=
  if Qlt_bool choreo_mean orch_mean then "orchestrated" else "choreographed".

Section Archived.

Variable alpha : Q.
Variable shapiro : list Q -> result (Q * Q).
Variable levene : list Q -> list Q -> result (Q * Q).
Variable ttest_ind : list Q -> list Q -> bool -> result (Q * Q).
Variable mannwhitneyu : list Q -> list Q -> result (Q * Q).

(** The scipy tests the archived analyzer calls after the two normality
    tests. *)
Definition archived_test_calls (a b : list Q) : list call :=
  if passes_shapiro alpha shapiro a && passes_shapiro alpha shapiro b then
    match levene a b with
    | Ok (_, levene_p) =>
      CallLevene a b :: CallTTest a b (Qlt_bool alpha levene_p) ::
      match ttest_ind a b (Qlt_bool alpha levene_p) with
      | Ok _ => []
      | Raise _ => [CallMannWhitney a b]
      end
    | Raise _ => [CallLevene a b; CallMannWhitney a b]
    end
  else [CallMannWhitney a b].

(** The name of the test it reports. *)
Definition archived_test_name (a b : list Q) : string :=
  let fallback :=
    match mannwhitneyu a b with
    | Ok _ => "Mann-Whitney U test"
    | Raise _ => "error"
    end%string in
  if passes_shapiro alpha shapiro a && passes_shapiro alpha shapiro b then
    match levene a b with
    | Ok (_, levene_p) =>
      match ttest_ind a b (Qlt_bool alpha levene_p) with
      | Ok _ =>
        ("Independent t-test (equal_var="
           ++ Archived.py_bool_str (Qlt_bool alpha levene_p) ++ ")")%string
      | Raise _ => fallback
      end
    | Raise _ => fallback
    end
  else fallback.

End Archived.

(** The divisor of improvement_percent in the archived analyzer. *)
Definition archived_divisor (metric : string) (orch_mean choreo_mean : Q) : Q :=
  if is_latency_metric metric then max2 orch_mean choreo_mean
  else min2 orch_mean choreo_mean.

End Expected.

(** ** Sample inputs *)

Module Samples.

(** One attempt that succeeded in 100 ms and one that failed after 50 ms. *)
Definition attempt_ok : request_result :=
  mk_request_result true (Some 200%Z) 100 None true (Some "poor_connectivity"%string).

Definition attempt_failed : request_result :=
  mk_request_result false (Some 0%Z) 50 (Some "NETWORK_SIM: Packet loss"%string)
    true (Some "poor_connectivity"%string).

Definition wan_poor : Simulator.network_profile :=
  Simulator.mk_network_profile "Poor WAN Connection" 200 50 (1 # 10) 5
    "Poor internet connection".

(** A world with the wan_poor profile active whose next sample is 0. *)
Definition lossy_world : Simulator.world :=
  Simulator.mk_world (Some wan_poor) None None 0 (fun _ => 0) 0
    (fun _ => (0, Ok (Simulator.mk_response 200 None))) 0 [].

(** A fresh process: nothing applied, every normal sample is 0 (so every
    delay is its nominal value) and the server answers 200 at once with
    no [content]. *)
Definition fresh_world : Simulator.world :=
  Simulator.mk_world None None None 0 (fun _ => 0) 0
    (fun _ => (0, Ok (Simulator.mk_response 200 None))) 0 [].

(** A server that times out on the first call and answers 200 afterwards. *)
Definition flaky_world : Simulator.world :=
  Simulator.mk_world None None None 0 (fun _ => 0) 0
    (fun i => match i with
              | O => (30, Raise (Timeout "Read timed out."))
              | _ => (1 # 10, Ok (Simulator.mk_response 200 None))
              end) 0 [].

(** Two samples with a spread of 2 and of 80: any variance test tells
    them apart. *)
Definition tight_sample : list Q := [99; 100; 101].
Definition wide_sample : list Q := [60; 100; 140].

(** A Shapiro-Wilk stand-in that finds every sample normal (p = 0.5). *)
Definition shapiro_normal (data : list Q) : result (Q * Q) := Ok (97 # 100, 1 # 2).

Definition test_stub (a b : list Q) : result (Q * Q) := Ok (0, 1).

End Samples.

(** ** test_load  (test-orchestrated.py:8)

    The key [request_id] (the 1-based position of the attempt) is not a
    key of [request_result]; analyze_performance does not read it. *)

Module TestLoad.

Import Eff Simulator.
Local Open Scope eff_scope.

Fixpoint test_load_loop (num_requests : nat) (results : list request_result)
    : Sim (list request_result) :=
  match num_requests with
  | O => ret results
  | S n =>
    req_start <~ time ;
    r <~ try_except
           (response <~ request_func ;
            req_end <~ time ;
            let duration := (req_end - req_start) * 1000 in
            let success :=
              ((resp_status_code response =? 200)%Z
               || (resp_status_code response =? 201)%Z) in
            ret (mk_request_result success (Some (resp_status_code response))
                   duration None false None))
           (fun e =>
            req_end <~ time ;
            let duration := (req_end - req_start) * 1000 in
            ret (mk_request_result false None duration (Some (str e)) false None)) ;
    sleep (1 # 10) ;;
    test_load_loop n (results ++ [r])
  end.

Definition test_load (num_requests : nat) : Sim Aggregation.metrics :=
  start_time <~ time ;
  results <~ test_load_loop num_requests [] ;
  end_time <~ time ;
  let total_duration := end_time - start_time in
  lift (Aggregation.analyze_performance results total_duration).

End TestLoad.

(** ** RealWorldSimulator.get_scenario_list  (network_simulator.py:348) *)

Module Catalog.

Import Simulator.

(** [list(d.keys())]: the keys in insertion order. *)
Definition keys {V} (d : list (string * V)) : list string := map fst d.

Definition get_scenario_list : list string := keys scenarios.

End Catalog.

(** ** Vocabulary of the further statements *)

Module Terms.

Import Simulator.

(** The rank [k = (n-1)*p/100] of percentile [p] in a sample of [n]. *)
Definition rank_of (n : Z) (p : Q) : Q := (inject_Z n - 1) * p / 100.

(** An event that is not a sleep of zero or negative length. *)
Definition positive_sleep (e : event) : Prop :=
  match e with
  | Sleep d => 0 < d
  | Request => True
  end.

(** [w'] is a later state of the same set-up: the applied profiles, the
    sample stream and the server are those of [w], the clock has not gone
    back, no call was taken back, and the trace has grown by events that
    are requests or sleeps of positive length. *)
Definition later (w w' : world) : Prop :=
  Expected.same_setup w w'
  /\ now w <= now w'
  /\ (calls w <= calls w')%nat
  /\ exists events, trace w' = trace w ++ events /\ Forall positive_sleep events.

(** A server that never answers in negative time. *)
Definition causal_server (w : world) : Prop :=
  forall i, 0 <= fst (server w i).

(** A computation that only ever moves a world with a causal server to a
    later state. *)
Definition steady {A} (m : Sim A) : Prop :=
  forall w, causal_server w -> later w (snd (m w)).

End Terms.

(** ** StatisticalAnalyzer: extraction, comparison loop and summary
    (archived_files/statistical_analysis.py:45, 316, 356)

    A results file is read as nested records; a key that may be absent is
    an [option] and [d.get(key, default)] is [get].  The values under the
    keys read here are JSON numbers. *)

From Stdlib Require DecimalString.

Module ArchivedAnalysis.

Import Eff Comparator.
Local Open Scope eff_scope.

Record latency_stats : Type := mk_latency_stats {
  mean_ms : option Q;
  p95_ms : option Q
}.

Record load_test : Type := mk_load_test {
  lt_latency_stats : option latency_stats;
  throughput_req_s : option Q;
  lt_success_rate : option Q
}.

Record concurrent_test : Type := mk_concurrent_test {
  effective_throughput_req_s : option Q
}.

Record tests : Type := mk_tests {
  t_load_test : option load_test;
  t_concurrent_test : option concurrent_test
}.

Record scenario_data : Type := mk_scenario_data {
  sd_tests : option tests
}.

Record pattern_data : Type := mk_pattern_data {
  pd_scenarios : option (list (string * scenario_data))
}.

Record metrics : Type := mk_metrics {
  latencies : list Q;
  throughputs : list Q;
  success_rates : list Q;
  p95_latencies : list Q;
  concurrent_throughputs : list Q
}.

(** [d.get(key, default)] *)
Definition get {A} (o : option A) (default : A) : A :=
  match o with
  | Some v => v
  | None => default
  end.

(** The body of the loop over the scenarios. *)
Definition extract_scenario (m : metrics) (scenario : scenario_data) : metrics :=
  match sd_tests scenario with
  | None => m
  | Some ts =>
    let m1 :=
      match t_load_test ts with
      | None => m
      | Some lt =>
        let m0 :=
          match lt_latency_stats lt with
          | None => m
          | Some ls =>
            mk_metrics (latencies m ++ [get (mean_ms ls) 0]) (throughputs m)
              (success_rates m) (p95_latencies m ++ [get (p95_ms ls) 0])
              (concurrent_throughputs m)
          end in
        mk_metrics (latencies m0)
          (throughputs m0 ++ [get (throughput_req_s lt) 0])
          (success_rates m0 ++ [get (lt_success_rate lt) 0])
          (p95_latencies m0) (concurrent_throughputs m0)
      end in
    match t_concurrent_test ts with
    | None => m1
    | Some ct =>
      mk_metrics (latencies m1) (throughputs m1) (success_rates m1)
        (p95_latencies m1)
        (concurrent_throughputs m1 ++ [get (effective_throughput_req_s ct) 0])
    end
  end.

(** [[x for x in l if x > 0]] *)
Definition remove_zeros (l : list Q) : list Q := filter (Qlt_bool 0) l.

Definition extract_metrics (pattern : pattern_data) : metrics :=
  let m :=
    fold_left extract_scenario (map snd (get (pd_scenarios pattern) []))
      (mk_metrics [] [] [] [] []) in
  mk_metrics (remove_zeros (latencies m)) (remove_zeros (throughputs m))
    (remove_zeros (success_rates m)) (remove_zeros (p95_latencies m))
    (remove_zeros (concurrent_throughputs m)).

(** [metrics_to_compare], each name with the two lists it selects. *)
Definition metrics_to_compare (orch_metrics choreo_metrics : metrics)
    : list (string * list Q * list Q) :=
  [("latencies"%string, latencies orch_metrics, latencies choreo_metrics);
   ("throughputs"%string, throughputs orch_metrics, throughputs choreo_metrics);
   ("success_rates"%string, success_rates orch_metrics, success_rates choreo_metrics);
   ("p95_latencies"%string, p95_latencies orch_metrics, p95_latencies choreo_metrics)].

(** The truth value of a list. *)
Definition truthy {A} (l : list A) : bool :=
  match l with
  | [] => false
  | _ :: _ => true
  end.

(** [d[key] = v] on a dictionary kept in insertion order. *)
Fixpoint dict_set {V} (d : list (string * V)) (key : string) (v : V)
    : list (string * V) :=
  match d with
  | [] => [(key, v)]
  | (k, v0) :: rest =>
    if String.eqb k key then (k, v) :: rest else (k, v0) :: dict_set rest key v
  end.

Section Analyzer.

Variable alpha : Q.
Variable sqrt : Q -> Q.
Variable shapiro : list Q -> result (Q * Q).
Variable levene : list Q -> list Q -> result (Q * Q).
Variable ttest_ind : list Q -> list Q -> bool -> result (Q * Q).
Variable mannwhitneyu : list Q -> list Q -> result (Q * Q).
Variable t_ppf : Q -> Q -> Q.

(** The comparison loop of run_complete_analysis. *)
Fixpoint compare_each (todo : list (string * list Q * list Q))
    (comparisons : list (string * report)) : Stat (list (string * report)) :=
  match todo with
  | [] => ret comparisons
  | (metric, orch, choreo) :: rest =>
    if truthy orch && truthy choreo then
      comparison <~ Archived.compare_metrics alpha sqrt shapiro levene ttest_ind
                      mannwhitneyu t_ppf orch choreo metric ;
      compare_each rest (dict_set comparisons metric comparison)
    else compare_each rest comparisons
  end.

(** run_complete_analysis up to the call of generate_summary. *)
Definition run_comparisons (orchestrated_data choreographed_data : pattern_data)
    : Stat (list (string * report)) :=
  let orch_metrics := extract_metrics orchestrated_data in
  let choreo_metrics := extract_metrics choreographed_data in
  compare_each (metrics_to_compare orch_metrics choreo_metrics) [].

End Analyzer.

(** *** generate_summary

    The two counters are dictionaries with the keys 'orchestrated' and
    'choreographed'; incrementing any other key is a KeyError, which is
    not a class of [exn]: the summary has an outcome type of its own. *)

Inductive outcome (A : Type) : Type :=
| Done (a : A)
| KeyError (key : string).
Arguments Done {A} a.
Arguments KeyError {A} key.

Record tally : Type := mk_tally {
  orchestrated : nat;
  choreographed : nat
}.

(** [counter[winner] += 1] *)
Definition increment (counter : tally) (winner : string) : outcome tally :=
  if String.eqb winner "orchestrated" then
    Done (mk_tally (S (orchestrated counter)) (choreographed counter))
  else if String.eqb winner "choreographed" then
    Done (mk_tally (orchestrated counter) (S (choreographed counter)))
  else KeyError winner.

Record difference : Type := mk_difference {
  diff_metric : string;
  diff_winner : string;
  diff_improvement : npfloat;
  (** [None] stands for the default 'N/A' *)
  diff_p_value : option Q
}.

Record progress : Type := mk_progress {
  wins : tally;
  significant_wins : tally;
  significant_differences : list difference;
  effect_sizes : list (string * (npfloat * string))
}.

Record summary : Type := mk_summary {
  overall_winner : string;
  s_significant_wins : tally;
  s_total_wins : tally;
  s_significant_differences : list difference;
  s_effect_sizes : list (string * (npfloat * string));
  recommendations : list string
}.

(** One round of the loop over the comparisons. *)
Definition summarise (p : progress) (entry : string * report) : outcome progress :=
  let (metric, comparison) := entry in
  match comparison with
  | InsufficientData _ _ _ => Done p
  | Compared c =>
    let winner := winner (c_performance c) in
    match increment (wins p) winner with
    | KeyError k => KeyError k
    | Done wins' =>
      let counted :=
        if statistically_significant (c_performance c) then
          match increment (significant_wins p) winner with
          | KeyError k => KeyError k
          | Done significant_wins' =>
            Done (mk_progress wins' significant_wins'
                    (significant_differences p
                     ++ [mk_difference metric winner
                           (improvement_percent (c_performance c))
                           (st_p_value (c_statistical_test c))])
                    (effect_sizes p))
          end
        else
          Done (mk_progress wins' (significant_wins p) (significant_differences p)
                  (effect_sizes p)) in
      match counted with
      | KeyError k => KeyError k
      | Done p' =>
        match c_effect_size c with
        | EffectSize cohens_d (Some interpretation) =>
          Done (mk_progress (wins p') (significant_wins p')
                  (significant_differences p')
                  (dict_set (effect_sizes p') metric (cohens_d, interpretation)))
        | EffectSize _ None => KeyError "interpretation"
        | EffectError _ => Done p'
        end
      end
    end
  end.

Fixpoint summarise_all (comparisons : list (string * report)) (p : progress)
    : outcome progress :=
  match comparisons with
  | [] => Done p
  | entry :: rest =>
    match summarise p entry with
    | KeyError k => KeyError k
    | Done p' => summarise_all rest p'
    end
  end.

(** [str(n)] *)
Definition str_nat (n : nat) : string :=
  DecimalString.NilEmpty.string_of_uint (Nat.to_uint n).

Definition generate_summary (comparisons : list (string * report)) : outcome summary :=
  match summarise_all comparisons
          (mk_progress (mk_tally 0 0) (mk_tally 0 0) [] []) with
  | KeyError k => KeyError k
  | Done p =>
    let overall_winner :=
      (if (choreographed (significant_wins p) <? orchestrated (significant_wins p))%nat
       then "orchestrated"
       else if (orchestrated (significant_wins p) <? choreographed (significant_wins p))%nat
       then "choreographed"
       else "tie")%string in
    let first :=
      (if (0 <? List.length (significant_differences p))%nat then
         "Statistical analysis shows significant performance differences in "
         ++ str_nat (List.length (significant_differences p)) ++ " metrics"
       else
         "No statistically significant performance differences detected between patterns")%string in
    let second :=
      (if String.eqb overall_winner "tie" then []
       else ["Based on statistical evidence, " ++ overall_winner
             ++ " pattern shows superior performance"])%string in
    Done (mk_summary overall_winner (significant_wins p) (wins p)
            (significant_differences p) (effect_sizes p) (first :: second))
  end.

End ArchivedAnalysis.

(** ** Vocabulary of the statements on the analysis pipeline *)

Module SummaryTerms.

Import Comparator.

(** A comparison whose winner is one of the two patterns and whose Cohen's
    d, when there is one, comes with its interpretation. *)
Definition readable (r : report) : Prop :=
  match r with
  | InsufficientData _ _ _ => True
  | Compared c =>
    (winner (c_performance c) = "orchestrated"%string
     \/ winner (c_performance c) = "choreographed"%string)
    /\ match c_effect_size c with
       | EffectSize _ None => False
       | _ => True
       end
  end.

Definition is_compared (entry : string * report) : bool :=
  match snd entry with
  | Compared _ => true
  | InsufficientData _ _ _ => false
  end.

Definition is_significant (entry : string * report) : bool :=
  match snd entry with
  | Compared c => statistically_significant (c_performance c)
  | InsufficientData _ _ _ => false
  end.

End SummaryTerms.

Module SummarySamples.

Import Comparator.

(** A comparison as the archived analyzer returns it, with the given winner
    and significance. *)
Definition won_by (pattern : string) (significant : bool) : report :=
  Compared
    (mk_comparison "latencies"
       (mk_descriptive 100 100 1 (Some 99) (Some 101) 3)
       (mk_descriptive 120 120 1 (Some 119) (Some 121) 3)
       (mk_normality "shapiro_wilk" (Some (97 # 100)) (Some (1 # 2)) None true 3)
       (mk_normality "shapiro_wilk" (Some (97 # 100)) (Some (1 # 2)) None true 3)
       (mk_statistical_test "Mann-Whitney U test" (Some 0) (Some (1 # 100))
          (Some significant) None None)
       (EffectSize (Fin (-20)) (Some "large"%string))
       (Interval (-22) (-18) 95)
       (mk_performance_analysis pattern (Fin (50 # 3)) significant)).

(** Orchestrated wins two metrics without significance, choreographed one
    with it; a fourth metric had too few samples. *)
Definition two_to_one : list (string * report) :=
  [("latencies"%string, won_by "orchestrated" false);
   ("throughputs"%string, won_by "orchestrated" false);
   ("success_rates"%string, won_by "choreographed" true);
   ("p95_latencies"%string, InsufficientData "p95_latencies" 2 2)].

(** Orchestrated wins both compared metrics, neither significantly. *)
Definition unanimous : list (string * report) :=
  [("latencies"%string, won_by "orchestrated" false);
   ("throughputs"%string, won_by "orchestrated" false);
   ("p95_latencies"%string, InsufficientData "p95_latencies" 2 2)].

End SummarySamples.

(** ** OptimizedStatisticalAnalyzer: extraction and summary
    (statistical_analysis_optimized.py:41, 281)

    extract_metrics draws from numpy's global generator.  The generator is
    a stream of standard normal draws and a stream of indices, read at a
    position that every draw advances. *)

Module OptimizedAnalysis.

Import Eff Comparator.
Local Open Scope eff_scope.

Record generator : Type := mk_generator {
  normal_draws : nat -> Q;
  index_draws : nat -> nat;
  position : nat
}.

Definition Rand (A : Type) : Type := M generator A.

Definition advance (g : generator) : generator :=
  mk_generator (normal_draws g) (index_draws g) (S (position g)).

(** [np.random.normal(loc, scale)]: a negative [scale] raises. *)
Definition normal (loc scale : Q) : Rand Q :=
  fun g =>
    if Qlt_bool scale 0 then (Raise (ValueError "scale < 0"), g)
    else (Ok (loc + scale * normal_draws g (position g)), advance g).

(** [np.random.choice(a)] for a list [a]: an empty one raises. *)
Definition choice (a : list Q) : Rand Q :=
  fun g =>
    match a with
    | [] => (Raise (ValueError "a cannot be empty unless no samples are taken"), g)
    | _ :: _ =>
      (Ok (nth (index_draws g (position g) mod List.length a) a 0), advance g)
    end.

Record stats : Type := mk_stats {
  mean : option Q;
  std_dev : option Q
}.

(** [runs_count] is a JSON integer. *)
Record scenario_stats : Type := mk_scenario_stats {
  runs_count : option Z;
  latency_stats : option stats;
  success_rate_stats : option stats;
  p95_latency_stats : option stats
}.

Record pattern_data : Type := mk_pattern_data {
  summary_stats : option (list (string * scenario_stats))
}.

Record metrics : Type := mk_metrics {
  latencies : list Q;
  throughputs : list Q;
  success_rates : list Q;
  p95_latencies : list Q
}.

(** [d.get(key, default)] *)
Definition get {A} (o : option A) (default : A) : A :=
  match o with
  | Some v => v
  | None => default
  end.

(** [scenario_stats.get(key, {}).get(field, 0)] *)
Definition get_field (o : option stats) (field : stats -> option Q) : Q :=
  match o with
  | Some s => get (field s) 0
  | None => 0
  end.

(** [np.random.normal(0, std * 0.1) if std > 0 else 0] *)
Definition variation (std : Q) : Rand Q :=
  if Qlt_bool 0 std then normal 0 (std * (1 # 10)) else ret 0.

(** [for _ in range(n): values.append(point)], where [point] draws. *)
Fixpoint append_points (n : nat) (point : Rand Q) (values : list Q) : Rand (list Q) :=
  match n with
  | O => ret values
  | S n' =>
    v <~ point ;
    append_points n' point (values ++ [v])
  end.

(** [l[start:]] *)
Definition slice_from (l : list Q) (start : Z) : list Q :=
  let n := Z.of_nat (List.length l) in
  let i := if (start <? 0)%Z then Z.max 0 (n + start) else Z.min start n in
  skipn (Z.to_nat i) l.

(** The throughput loop over the latencies just added. *)
Fixpoint append_throughputs (recent : list Q) (throughputs : list Q) : list Q :=
  match recent with
  | [] => throughputs
  | latency :: rest =>
    if Qlt_bool 0 latency then
      append_throughputs rest (throughputs ++ [min2 100 (10000 / latency)])
    else append_throughputs rest throughputs
  end.

(** The body of the loop over the scenarios. *)
Definition extract_scenario (m : metrics) (s : scenario_stats) : Rand metrics :=
  let runs_count := get (runs_count s) 1%Z in
  let latency_mean := get_field (latency_stats s) mean in
  let latency_std := get_field (latency_stats s) std_dev in
  latencies' <~
    append_points (Z.to_nat runs_count)
      (latency_variation <~ variation latency_std ;
       ret (max2 0 (latency_mean + latency_variation)))
      (latencies m) ;
  let success_rate_mean := get_field (success_rate_stats s) mean in
  let success_rate_std := get_field (success_rate_stats s) std_dev in
  success_rates' <~
    append_points (Z.to_nat runs_count)
      (success_variation <~ variation success_rate_std ;
       ret (max2 0 (min2 1 (success_rate_mean + success_variation))))
      (success_rates m) ;
  let p95_mean := get_field (p95_latency_stats s) mean in
  let p95_std := get_field (p95_latency_stats s) std_dev in
  p95_latencies' <~
    append_points (Z.to_nat runs_count)
      (p95_variation <~ variation p95_std ;
       ret (max2 0 (p95_mean + p95_variation)))
      (p95_latencies m) ;
  let throughputs' :=
    append_throughputs (slice_from latencies' (- runs_count)) (throughputs m) in
  ret (mk_metrics latencies' throughputs' success_rates' p95_latencies').

Fixpoint extract_scenarios (scenarios : list (string * scenario_stats)) (m : metrics)
    : Rand metrics :=
  match scenarios with
  | [] => ret m
  | (_, s) :: rest =>
    m' <~ extract_scenario m s ;
    extract_scenarios rest m'
  end.

Definition min_samples : nat := 10.

(** [while len(values) < min_samples: ...]: every round appends one value,
    so the loop makes [min_samples - len(values)] rounds. *)
Fixpoint replicate (rounds : nat) (values : list Q) : Rand (list Q) :=
  match rounds with
  | O => ret values
  | S n =>
    match values with
    | _ :: _ =>
      base_value <~ choice values ;
      variation <~ normal 0 (Qabs base_value * (5 # 100)) ;
      replicate n (values ++ [max2 0 (base_value + variation)])
    | [] => replicate n (values ++ [0])
    end
  end.

Definition ensure_min_samples (values : list Q) : Rand (list Q) :=
  replicate (min_samples - List.length values) values.

Definition extract_metrics (pattern : pattern_data) : Rand metrics :=
  m <~ extract_scenarios (get (summary_stats pattern) [])
         (mk_metrics [] [] [] []) ;
  latencies' <~ ensure_min_samples (latencies m) ;
  throughputs' <~ ensure_min_samples (throughputs m) ;
  success_rates' <~ ensure_min_samples (success_rates m) ;
  p95_latencies' <~ ensure_min_samples (p95_latencies m) ;
  ret (mk_metrics latencies' throughputs' success_rates' p95_latencies').

(** [metrics_to_compare], each name with the two lists it selects. *)
Definition metrics_to_compare (orch_metrics choreo_metrics : metrics)
    : list (string * list Q * list Q) :=
  [("latencies"%string, latencies orch_metrics, latencies choreo_metrics);
   ("throughputs"%string, throughputs orch_metrics, throughputs choreo_metrics);
   ("success_rates"%string, success_rates orch_metrics, success_rates choreo_metrics);
   ("p95_latencies"%string, p95_latencies orch_metrics, p95_latencies choreo_metrics)].

(** *** generate_summary *)

Record difference : Type := mk_difference {
  diff_metric : string;
  diff_winner : string;
  diff_improvement : npfloat
}.

Record score : Type := mk_score {
  orchestrated : nat;
  choreographed : nat
}.

Record summary : Type := mk_summary {
  overall_winner : string;
  significant_differences : list difference;
  total_metrics_compared : nat;
  statistically_significant_count : nat
}.

(** [if winner in overall_winner_score: overall_winner_score[winner] += weight] *)
Definition add_score (s : score) (winner : string) (weight : nat) : score :=
  if String.eqb winner "orchestrated" then
    mk_score (orchestrated s + weight) (choreographed s)
  else if String.eqb winner "choreographed" then
    mk_score (orchestrated s) (choreographed s + weight)
  else s.

(** One round of the loop over the comparisons. *)
Definition summarise (acc : list difference * score) (entry : string * report)
    : list difference * score :=
  let (significant_differences, overall_winner_score) := acc in
  let (metric_name, comparison) := entry in
  let winner :=
    match comparison with
    | Compared c => winner (c_performance c)
    | InsufficientData _ _ _ => "tie"%string
    end in
  let improvement :=
    match comparison with
    | Compared c => improvement_percent (c_performance c)
    | InsufficientData _ _ _ => Fin 0
    end in
  let significant :=
    match comparison with
    | Compared c => statistically_significant (c_performance c)
    | InsufficientData _ _ _ => false
    end in
  let significant_differences' :=
    if significant
    then significant_differences ++ [mk_difference metric_name winner improvement]
    else significant_differences in
  (significant_differences',
   add_score overall_winner_score winner (if significant then 2 else 1)%nat).

Definition generate_summary (comparisons : list (string * report)) : summary :=
  let (significant_differences, overall_winner_score) :=
    fold_left summarise comparisons ([], mk_score 0 0) in
  let overall_winner :=
    (if (choreographed overall_winner_score <? orchestrated overall_winner_score)%nat
     then "orchestrated"
     else if (orchestrated overall_winner_score <? choreographed overall_winner_score)%nat
     then "choreographed"
     else "tie")%string in
  mk_summary overall_winner significant_differences (List.length comparisons)
    (List.length significant_differences).

End OptimizedAnalysis.

(** ** Vocabulary of the statements on the optimized extraction *)

Module ExtractionTerms.

Import OptimizedAnalysis.

Definition non_negative (values : list Q) : Prop := Forall (Qle 0) values.

Definition all_non_negative (m : metrics) : Prop :=
  non_negative (latencies m) /\ non_negative (throughputs m)
  /\ non_negative (success_rates m) /\ non_negative (p95_latencies m).

(** Every list has the minimum sample size. *)
Definition all_sized (m : metrics) : Prop :=
  (min_samples <= List.length (latencies m))%nat
  /\ (min_samples <= List.length (throughputs m))%nat
  /\ (min_samples <= List.length (success_rates m))%nat
  /\ (min_samples <= List.length (p95_latencies m))%nat.

End ExtractionTerms.

Module ExtractionSamples.

Import OptimizedAnalysis.

(** Three runs of one scenario, around 100 ms with a deviation of 10 ms. *)
Definition three_runs : pattern_data :=
  mk_pattern_data
    (Some [("enterprise_lan"%string,
            mk_scenario_stats (Some 3%Z)
              (Some (mk_stats (Some 100) (Some 10)))
              (Some (mk_stats (Some (9 # 10)) (Some 0)))
              (Some (mk_stats (Some 150) None)))]).

(** A results file without summary statistics. *)
Definition no_summary : pattern_data := mk_pattern_data None.

(** Every normal draw is one deviation above the mean, every choice the
    first value. *)
Definition steady_generator : generator :=
  mk_generator (fun _ => 1) (fun _ => 0%nat) 0.

End ExtractionSamples.

(** ** The statistics of latency_distribution_analysis
    (backup-old-tests/simplified-academic-test.py:299-329)

    What the function computes from the latencies of the successful
    samples it collected: [None] when there is none.  [sqrt] is the square
    root behind [statistics.stdev]. *)

Module Distribution.

Import Percentile.

Record distribution_stats : Type := mk_distribution_stats {
  sample_count : nat;
  mean_ms : Q;
  median_ms : Q;
  std_dev_ms : Q;
  min_ms : Q;
  max_ms : Q;
  range_ms : Q;
  q1_ms : Q;
  q3_ms : Q;
  p90_ms : Q;
  p95_ms : Q;
  p99_ms : Q;
  iqr_ms : Q;
  coefficient_of_variation : Q
}.

Section Stats.

Variable sqrt : Q -> Q.

Definition latency_distribution (latencies : list Q) : result (option distribution_stats) :=
  match latencies with
  | [] => Ok None
  | _ :: _ =>
    mean_ms <- mean latencies ;;
    median_ms <- median latencies ;;
    std_dev_ms <-
      (if (1 <? List.length latencies)%nat
       then Aggregation.stdev sqrt latencies else Ok 0) ;;
    min_ms <- Py.min latencies ;;
    max_ms <- Py.max latencies ;;
    range_max <- Py.max latencies ;;
    range_min <- Py.min latencies ;;
    q1_ms <- percentile latencies 25 ;;
    q3_ms <- percentile latencies 75 ;;
    p90_ms <- percentile latencies 90 ;;
    p95_ms <- percentile latencies 95 ;;
    p99_ms <- percentile latencies 99 ;;
    iqr_q3 <- percentile latencies 75 ;;
    iqr_q1 <- percentile latencies 25 ;;
    coefficient_of_variation <-
      (if (1 <? List.length latencies)%nat then
         s <- Aggregation.stdev sqrt latencies ;;
         m <- mean latencies ;;
         truediv s m
       else Ok 0) ;;
    Ok (Some (mk_distribution_stats (List.length latencies) mean_ms median_ms
                std_dev_ms min_ms max_ms (range_max - range_min) q1_ms q3_ms
                p90_ms p95_ms p99_ms (iqr_q3 - iqr_q1) coefficient_of_variation))
  end.

End Stats.

End Distribution.

(** ** RealNetworkTestSuite.generate_summary_stats
    (academic_test_suite_real_network.py:296)

    Of the result of a scenario run the function reads the scenario name
    and three aggregate metrics. *)

Module SuiteSummary.

Record scenario_result : Type := mk_scenario_result {
  scenario_name : string;
  mean_latency_ms : Q;
  p95_latency_ms : Q;
  overall_success_rate : Q
}.

Record latency_summary : Type := mk_latency_summary {
  l_mean : Q;
  l_std_dev : Q;
  l_min : Q;
  l_max : Q
}.

Record spread : Type := mk_spread {
  s_mean : Q;
  s_std_dev : Q
}.

Record scenario_stats : Type := mk_scenario_stats {
  runs_count : nat;
  latency_stats : latency_summary;
  success_rate_stats : spread;
  p95_latency_stats : spread
}.

Record execution_metadata : Type := mk_execution_metadata {
  total_scenarios : nat;
  runs_per_scenario : nat;
  total_runs_executed : nat
}.

(** [self.config] *)
Definition real_world_scenarios : list string :=
  ["enterprise_lan"; "cloud_datacenter"; "remote_office"; "mobile_users";
   "poor_connectivity"]%string.

Definition config_runs_per_scenario : nat := 8.

Section Stats.

Variable sqrt : Q -> Q.

(** [statistics.stdev(values) if len(values) > 1 else 0] *)
Definition stdev_or_zero (values : list Q) : result Q :=
  if (1 <? List.length values)%nat then Aggregation.stdev sqrt values else Ok 0.

(** The entry built for a scenario that has runs. *)
Definition scenario_summary (scenario_runs : list scenario_result)
    : result scenario_stats :=
  let latencies := map mean_latency_ms scenario_runs in
  let success_rates := map overall_success_rate scenario_runs in
  let p95_latencies := map p95_latency_ms scenario_runs in
  latency_mean <- mean latencies ;;
  latency_std <- stdev_or_zero latencies ;;
  latency_min <- Py.min latencies ;;
  latency_max <- Py.max latencies ;;
  success_mean <- mean success_rates ;;
  success_std <- stdev_or_zero success_rates ;;
  p95_mean <- mean p95_latencies ;;
  p95_std <- stdev_or_zero p95_latencies ;;
  Ok (mk_scenario_stats (List.length scenario_runs)
        (mk_latency_summary latency_mean latency_std latency_min latency_max)
        (mk_spread success_mean success_std)
        (mk_spread p95_mean p95_std)).

(** The runs of one scenario, in the order they were stored. *)
Definition runs_of (scenario : string) (runs : list scenario_result)
    : list scenario_result :=
  filter (fun result => String.eqb (scenario_name result) scenario) runs.

Fixpoint summarise_scenarios (configured : list string)
    (runs : list scenario_result) (summary : list (string * scenario_stats))
    : result (list (string * scenario_stats)) :=
  match configured with
  | [] => Ok summary
  | scenario :: rest =>
    let scenario_runs := runs_of scenario runs in
    match scenario_runs with
    | _ :: _ =>
      entry <- scenario_summary scenario_runs ;;
      summarise_scenarios rest runs
        (ArchivedAnalysis.dict_set summary scenario entry)
    | [] => summarise_scenarios rest runs summary
    end
  end.

Definition generate_summary_stats (scenarios : list (string * scenario_result))
    : result (list (string * scenario_stats) * execution_metadata) :=
  summary_stats <-
    summarise_scenarios real_world_scenarios (map snd scenarios) [] ;;
  Ok (summary_stats,
      mk_execution_metadata (List.length real_world_scenarios)
        config_runs_per_scenario (List.length scenarios)).

End Stats.

End SuiteSummary.

(** ** SagaLoadTester.run_load_test and analyze_results
    (load-test.py:58, 77)

    run_load_test submits [num_requests] calls of create_order to a
    [ThreadPoolExecutor] with [num_threads] workers and collects the
    results of the futures in the order of submission.  The threads share
    the clock and the server; which thread runs next is not decided by the
    script, so it is a parameter: a schedule names, turn by turn, the task
    that gets the processor. *)

From Stdlib Require Import Permutation.

Module PoolDriver.

Import Eff Simulator.
Local Open Scope eff_scope.

(** A call of create_order, as far as it has come: submitted, after
    [start_time = time.time()], after [requests.post] returned or raised,
    and returned. *)
Inductive task : Type :=
| Queued
| Started (start_time : Q)
| Answered (start_time : Q) (outcome : result response)
| Finished (r : request_result).

(** The next effect of create_order (load-test.py:19-56). *)
Definition step (t : task) : Sim task :=
  match t with
  | Queued =>
    start_time <~ time ;
    ret (Started start_time)
  | Started start_time =>
    try_except
      (response <~ request_func ;
       ret (Answered start_time (Ok response)))
      (fun e => ret (Answered start_time (Raise e)))
  | Answered start_time (Ok response) =>
    end_time <~ time ;
    let duration := (end_time - start_time) * 1000 in
    ret (Finished
           (mk_request_result
              (resp_status_code response =? 200)%Z
              (Some (resp_status_code response))
              duration None false None))
  | Answered start_time (Raise e) =>
    end_time <~ time ;
    let duration := (end_time - start_time) * 1000 in
    ret (Finished
           (mk_request_result false None duration (Some (str e)) false None))
  | Finished r => ret (Finished r)
  end.

Definition is_queued (t : task) : bool :=
  match t with Queued => true | _ => false end.

Definition in_progress (t : task) : bool :=
  match t with Started _ | Answered _ _ => true | _ => false end.

(** [l[i] = x] *)
Fixpoint update {A} (l : list A) (i : nat) (x : A) : list A :=
  match l, i with
  | [], _ => []
  | _ :: rest, O => x :: rest
  | y :: rest, S j => y :: update rest j x
  end.

(** Whether task [i] can take a turn: a task in progress can; a queued
    one can when a worker is free (fewer than [num_threads] tasks are in
    progress) and every task submitted before it has been taken from the
    queue; a finished one has nothing left to do. *)
Definition may_run (num_threads : nat) (tasks : list task) (i : nat) : bool :=
  match nth_error tasks i with
  | None => false
  | Some Queued =>
    forallb (fun t => negb (is_queued t)) (firstn i tasks)
    && (List.length (filter in_progress tasks) <? num_threads)%nat
  | Some (Finished _) => false
  | Some _ => true
  end.

(** One turn of the schedule. *)
Definition turn (num_threads : nat) (i : nat) (tasks : list task) : Sim (list task) :=
  if may_run num_threads tasks i then
    match nth_error tasks i with
    | Some t => t' <~ step t ; ret (update tasks i t')
    | None => ret tasks
    end
  else ret tasks.

Fixpoint run_schedule (num_threads : nat) (schedule : list nat) (tasks : list task)
    : Sim (list task) :=
  match schedule with
  | [] => ret tasks
  | i :: rest =>
    tasks' <~ turn num_threads i tasks ;
    run_schedule num_threads rest tasks'
  end.

(** Leaving the [with] block waits for every task: whatever is left when
    the schedule ends is run to its end, in the order of submission (three
    turns take a task from the queue to its return). *)
Definition join_schedule (num_requests : nat) : list nat :=
  flat_map (fun i => [i; i; i]) (seq 0 num_requests).

(** [[future.result() for future in futures]]: the values the finished
    tasks returned, in the order of submission. *)
Definition results_of (tasks : list task) : list request_result :=
  flat_map (fun t => match t with Finished r => [r] | _ => [] end) tasks.

(** The pool of run_load_test (lines 66-68).  A pool without workers is
    refused when it is created. *)
Definition run_pool (num_requests num_threads : nat) (schedule : list nat)
    : Sim (list request_result) :=
  if (num_threads =? 0)%nat then
    raise (ValueError "max_workers must be greater than 0")
  else
    tasks <~ run_schedule num_threads (schedule ++ join_schedule num_requests)
               (repeat Queued num_requests) ;
    ret (results_of tasks).

(** analyze_results returns nothing; these are the computations behind
    what it prints. *)
Definition analyze_results (results : list request_result) (total_duration : Q)
    : result unit :=
  let successful := filter success results in
  _ <-
    match successful with
    | _ :: _ =>
      let durations := map duration_ms successful in
      avg_duration <- mean durations ;;
      median_duration <- median durations ;;
      p95_duration <- index (sorted durations) (int (len durations * (95 # 100))) ;;
      Ok tt
    | [] => Ok tt
    end ;;
  throughput <-
    (if Qlt_bool 0 total_duration
     then truediv (len successful) total_duration
     else Ok 0) ;;
  success_rate <- (r <- truediv (len successful) (len results) ;; Ok (r * 100)) ;;
  Ok tt.

Definition run_load_test (num_requests num_threads : nat) (schedule : list nat)
    : Sim (list request_result) :=
  start_time <~ time ;
  results <~ run_pool num_requests num_threads schedule ;
  end_time <~ time ;
  let total_duration := end_time - start_time in
  lift (analyze_results results total_duration) ;;
  ret results.

End PoolDriver.

(** ** Vocabulary of the statements on batches *)

Module BatchTerms.

Import Eff Simulator.










End BatchTerms.

(** * Properties *)

(** ** Python runtime *)

Lemma insert_head (x : Q) (l : list Q) :
  HdRel Qle x l -> insert x l = x :: l.
Proof.
  destruct 1 as [|y l Hxy]; simpl; [reflexivity|].
  apply Qle_bool_iff in Hxy. now rewrite Hxy.
Qed.

(** Sorting an ascending list leaves it as it is. *)
Lemma sorted_ascending (l : list Q) : Sorted Qle l -> sorted l = l.
Proof.
  induction 1 as [|x l Hs IH Hhd]; [reflexivity|].
  change (sorted (x :: l)) with (insert x (sorted l)).
  rewrite IH. now apply insert_head.
Qed.

Lemma insert_length (x : Q) (l : list Q) :
  List.length (insert x l) = S (List.length l).
Proof.
  induction l as [|y l IH]; simpl; [reflexivity|].
  destruct (Qle_bool x y); simpl; congruence.
Qed.

Lemma sorted_length (l : list Q) : List.length (sorted l) = List.length l.
Proof.
  induction l as [|x l IH]; [reflexivity|].
  change (sorted (x :: l)) with (insert x (sorted l)).
  now rewrite insert_length, IH.
Qed.

(** On a non-negative number [int] is the floor. *)
Lemma int_floor (k : Q) : 0 <= k -> int k = Qfloor k.
Proof.
  destruct k as [n d]. unfold Qle, int, Qfloor; simpl. intros H.
  apply Z.quot_div_nonneg; lia.
Qed.

Lemma index_nonneg (l : list Q) (i : Z) :
  (0 <= i < Z.of_nat (List.length l))%Z ->
  index l i = Ok (nth (Z.to_nat i) l 0).
Proof.
  intros [H0 H1]. unfold index.
  destruct (i <? 0)%Z eqn:E; [apply Z.ltb_lt in E; exfalso; lia|].
  rewrite E. simpl.
  destruct (Z.of_nat (List.length l) <=? i)%Z eqn:E2; [apply Z.leb_le in E2; exfalso; lia|].
  reflexivity.
Qed.

Lemma index_last (l : list Q) :
  l <> [] ->
  index l (-1) = Ok (nth (Z.to_nat (Z.of_nat (List.length l) - 1)) l 0).
Proof.
  intros Hne. unfold index.
  assert (0 < Z.of_nat (List.length l))%Z by (destruct l; simpl; [congruence|lia]).
  replace (-1 <? 0)%Z with true by reflexivity.
  destruct (-1 + Z.of_nat (List.length l) <? 0)%Z eqn:E; [apply Z.ltb_lt in E; exfalso; lia|].
  destruct (Z.of_nat (List.length l) <=? -1 + Z.of_nat (List.length l))%Z eqn:E2;
    [apply Z.leb_le in E2; exfalso; lia|].
  cbn [orb].
  now replace (-1 + Z.of_nat (List.length l))%Z
    with (Z.of_nat (List.length l) - 1)%Z by lia.
Qed.

(** ** Percentile *)

Lemma percentile_rank_nonneg (n : Z) (p : Q) :
  (1 <= n)%Z -> 0 <= p -> 0 <= (inject_Z n - 1) * p / 100.
Proof.
  intros Hn Hp.
  assert (0 <= inject_Z n - 1).
  { assert (H1 : inject_Z 1 <= inject_Z n) by (now rewrite <- Zle_Qle).
    change (inject_Z 1) with 1 in H1. lra. }
  apply Qle_shift_div_l; [reflexivity|].
  setoid_replace (0 * 100) with 0 by ring.
  now apply Qmult_le_0_compat.
Qed.

Section PercentileFacts.

Import PrimFloat.

(** C1.  On a non-empty ascending list [v] of [n] durations and a
    percentile [p] in [0, 100], with [k = (n-1)*p/100], [f = floor k] and
    [c = f + 1], [percentile] returns [v[n-1]] when [c >= n] and
    [v[f]*(c-k) + v[c]*(k-f)] otherwise; and
    [percentile([10,20,30,40], 95)] is [38.5], in exact arithmetic and
    on binary64 numbers. *)
Theorem percentile_interpolation :
  (forall (v : list Q) (p : Q),
      v <> [] -> Sorted Qle v -> 0 <= p <= 100 ->
      let n := Z.of_nat (List.length v) in
      let k := (inject_Z n - 1) * p / 100 in
      let f := Qfloor k in
      let c := (f + 1)%Z in
      Percentile.percentile v p =
      Ok (if (n <=? c)%Z then nth (Z.to_nat (n - 1)) v 0
          else nth (Z.to_nat f) v 0 * (inject_Z c - k)
               + nth (Z.to_nat c) v 0 * (k - inject_Z f)))
  /\ (exists r, Percentile.percentile [10; 20; 30; 40] 95 = Ok r /\ r == 385 # 10)
  /\ Binary64.percentile [10; 20; 30; 40]%float 95%float = Ok 38.5%float.
Proof.
  split; [|split].
  - intros v p Hne Hs [Hp0 Hp100] n k f c.
    unfold Percentile.percentile.
    destruct v as [|x v']; [congruence|].
    rewrite (sorted_ascending _ Hs).
    set (v := x :: v') in *.
    assert (Hn : (1 <= n)%Z) by (subst n v; simpl List.length; lia).
    assert (Hk : 0 <= k) by (apply percentile_rank_nonneg; assumption).
    unfold len. fold n. fold k.
    rewrite (int_floor k Hk). fold f. fold c.
    assert (Hf : (0 <= f)%Z).
    { subst f. change 0%Z with (Qfloor 0). now apply Qfloor_resp_le. }
    destruct (n <=? c)%Z eqn:E.
    + apply index_last. discriminate.
    + apply Z.leb_gt in E.
      rewrite (index_nonneg v f) by (subst c; fold n; lia).
      rewrite (index_nonneg v c) by (subst c; fold n; lia).
      reflexivity.
  - eexists. split; [vm_compute; reflexivity|reflexivity].
  - vm_compute. reflexivity.
Qed.

Lemma percentile_interpolation_witness :
  Percentile.percentile [10; 20; 30; 40] 95 =
  Ok (nth 2 [10; 20; 30; 40] 0 * (inject_Z 3 - (inject_Z 4 - 1) * 95 / 100)
      + nth 3 [10; 20; 30; 40] 0 * ((inject_Z 4 - 1) * 95 / 100 - inject_Z 2)).
Proof.
  apply (proj1 percentile_interpolation [10; 20; 30; 40] 95).
  - discriminate.
  - repeat constructor; discriminate.
  - split; discriminate.
Defined.

End PercentileFacts.

Module Binary64Facts.

Import PrimFloat.

(** More runs on binary64 numbers: the input is sorted first, and the
    percentiles 0 and 100 are the minimum and the maximum. *)
Example percentile_binary64_test_vector :
  Binary64.percentile [40; 10; 30; 20]%float 50%float = Ok 25%float
  /\ Binary64.percentile [10; 20; 30; 40]%float 0%float = Ok 10%float
  /\ Binary64.percentile [10; 20; 30; 40]%float 100%float = Ok 40%float.
Proof. repeat split; vm_compute; reflexivity. Qed.

End Binary64Facts.

(** ** Results and binds *)

Lemma bind_Ok_inv {A B} (r : result A) (k : A -> result B) (b : B) :
  (x <- r ;; k x) = Ok b -> exists a, r = Ok a /\ k a = Ok b.
Proof. destruct r as [a|e]; simpl; [eauto|discriminate]. Qed.

Lemma Qlt_bool_iff (x y : Q) : Qlt_bool x y = true <-> x < y.
Proof.
  unfold Qlt_bool. rewrite negb_true_iff, <- not_true_iff_false, Qle_bool_iff.
  split; [apply Qnot_le_lt|apply Qlt_not_le].
Qed.

Lemma truediv_Ok (x y : Q) : ~ y == 0 -> truediv x y = Ok (x / y).
Proof.
  intros H. unfold truediv.
  destruct (Qeq_bool y 0) eqn:E; [|reflexivity].
  apply Qeq_bool_iff in E. contradiction.
Qed.

Lemma truediv_zero (x y : Q) : y == 0 -> truediv x y = Raise ZeroDivisionError.
Proof.
  intros H. unfold truediv. apply Qeq_bool_iff in H. now rewrite H.
Qed.

Lemma len_cons_nonzero {A} (x : A) (l : list A) : ~ len (x :: l) == 0.
Proof.
  unfold len. intros H.
  change 0 with (inject_Z 0) in H. rewrite inject_Z_injective in H.
  change (List.length (x :: l)) with (S (List.length l)) in H. lia.
Qed.

Lemma len_pos {A} (x : A) (l : list A) : 0 < len (x :: l).
Proof.
  unfold len. change 0 with (inject_Z 0). rewrite <- Zlt_Qlt.
  change (List.length (x :: l)) with (S (List.length l)). lia.
Qed.

Lemma median_Ok (l : list Q) : l <> [] -> exists m, median l = Ok m.
Proof.
  intros Hne. unfold median. rewrite sorted_length.
  destruct l as [|x l']; [congruence|]. simpl List.length.
  destruct (Nat.even (S (List.length l'))); eauto.
Qed.

(** The index [int(len(d) * 0.95)] of the p95 of analyze_performance is
    inside the list. *)
Lemma p95_index_in_range (d : list Q) :
  d <> [] ->
  (0 <= int (len d * (95 # 100)) < Z.of_nat (List.length (sorted d)))%Z.
Proof.
  intros Hne. destruct d as [|x d']; [congruence|].
  pose proof (len_pos x d') as Hpos.
  set (n := len (x :: d')) in *.
  assert (H0 : 0 <= n * (95 # 100)) by lra.
  rewrite (int_floor _ H0), sorted_length. split.
  - change 0%Z with (Qfloor 0). now apply Qfloor_resp_le.
  - rewrite Zlt_Qlt. apply Qle_lt_trans with (n * (95 # 100)); [apply Qfloor_le|].
    fold (len (x :: d')). fold n. lra.
Qed.

(** ** Batch aggregation: analyze_performance (test-orchestrated.py) *)

Module AggregationFacts.

Import Aggregation Expected.

Lemma latency_of_Ok (durations : list Q) : exists l, latency_of durations = Ok l.
Proof.
  destruct durations as [|x d]; [simpl; eauto|].
  unfold latency_of.
  destruct (median_Ok (x :: d)) as [md Hmd]; [discriminate|].
  pose proof (p95_index_in_range (x :: d)) as Hi.
  rewrite Hmd, (index_nonneg _ _ (Hi ltac:(discriminate))).
  simpl. eauto.
Qed.

Lemma analyze_performance_unfold (results : list request_result) (total_duration : Q) :
  analyze_performance results total_duration =
  (lat <- latency_of (successful_durations results) ;;
   success_rate <-
     match results with
     | _ :: _ => r <- truediv (len (filter success results)) (len results) ;; Ok (r * 100)
     | [] => Ok 0
     end ;;
   throughput <-
     (if Qlt_bool 0 total_duration
      then truediv (len (filter success results)) total_duration
      else Ok 0) ;;
   Ok (mk_metrics (List.length results) (List.length (filter success results))
         (Some (List.length (filter (fun r => negb (success r)) results)))
         success_rate total_duration throughput lat)).
Proof.
  unfold analyze_performance, successful_durations.
  destruct (filter success results) as [|r s]; reflexivity.
Qed.

(** analyze_performance never raises: every division is guarded. *)
Lemma analyze_performance_returns (results : list request_result) (total_duration : Q) :
  exists m, analyze_performance results total_duration = Ok m.
Proof.
  rewrite analyze_performance_unfold.
  destruct (latency_of_Ok (successful_durations results)) as [lat ->].
  cbn [Py.bind].
  assert (Hrate : exists sr,
             match results with
             | _ :: _ => r <- truediv (len (filter success results)) (len results) ;; Ok (r * 100)
             | [] => Ok 0
             end = Ok sr).
  { destruct results as [|r rs]; [eauto|].
    rewrite truediv_Ok by apply len_cons_nonzero. simpl; eauto. }
  destruct Hrate as [sr ->]. cbn [Py.bind].
  destruct (Qlt_bool 0 total_duration) eqn:E.
  - apply Qlt_bool_iff in E. rewrite truediv_Ok by lra. simpl; eauto.
  - simpl; eauto.
Qed.

Lemma analyze_performance_fields (results : list request_result)
    (total_duration : Q) (m : metrics) :
  analyze_performance results total_duration = Ok m ->
  latency_of (successful_durations results) = Ok (latency_stats m)
  /\ throughput_req_s m =
     (if Qlt_bool 0 total_duration
      then len (filter success results) / total_duration else 0)
  /\ (results = [] -> success_rate m = 0).
Proof.
  rewrite analyze_performance_unfold. intros H.
  apply bind_Ok_inv in H as (lat & Hlat & H).
  apply bind_Ok_inv in H as (sr & Hsr & H).
  apply bind_Ok_inv in H as (th & Hth & H).
  injection H as <-. cbn [latency_stats throughput_req_s success_rate].
  repeat split.
  - exact Hlat.
  - destruct (Qlt_bool 0 total_duration) eqn:E.
    + apply Qlt_bool_iff in E. rewrite truediv_Ok in Hth by lra. congruence.
    + congruence.
  - intros ->. simpl in Hsr. congruence.
Qed.

(** The latency fields of analyze_performance are a function of the
    durations of the successful attempts alone, and are all zero when no
    attempt succeeded. *)
Lemma analyze_performance_latency_successful_only
    (results1 results2 : list request_result) (d1 d2 : Q) (m1 m2 : metrics) :
  successful_durations results1 = successful_durations results2 ->
  analyze_performance results1 d1 = Ok m1 ->
  analyze_performance results2 d2 = Ok m2 ->
  latency_stats m1 = latency_stats m2.
Proof.
  intros Heq H1 H2.
  apply analyze_performance_fields in H1 as (H1 & _).
  apply analyze_performance_fields in H2 as (H2 & _).
  rewrite Heq in H1. congruence.
Qed.

Lemma analyze_performance_no_success (results : list request_result)
    (total_duration : Q) (m : metrics) :
  filter success results = [] ->
  analyze_performance results total_duration = Ok m ->
  latency_stats m = mk_latency 0 0 None 0 0 0 None.
Proof.
  intros Hnone H. apply analyze_performance_fields in H as (H & _).
  unfold successful_durations in H. rewrite Hnone in H. simpl in H. congruence.
Qed.

Lemma analyze_performance_throughput (results : list request_result)
    (total_duration : Q) (m : metrics) :
  0 < total_duration ->
  analyze_performance results total_duration = Ok m ->
  throughput_req_s m = len (filter success results) / total_duration.
Proof.
  intros Hpos H. apply analyze_performance_fields in H as (_ & H & _).
  apply Qlt_bool_iff in Hpos. now rewrite Hpos in H.
Qed.

Lemma analyze_performance_empty (total_duration : Q) :
  exists m, analyze_performance [] total_duration = Ok m /\ success_rate m = 0.
Proof.
  destruct (analyze_performance_returns [] total_duration) as [m H].
  exists m. split; [exact H|].
  apply analyze_performance_fields in H as (_ & _ & H). now apply H.
Qed.

(** The metrics block of run_real_network_load_test, on the other hand,
    works on all attempts. *)
Lemma load_test_metrics_fields (sqrt : Q -> Q) (np_percentile : list Q -> Q -> Q)
    (results : list request_result) (total_duration : Q) (m : metrics) :
  load_test_metrics sqrt np_percentile results total_duration = Ok m ->
  total_requests m = List.length results
  /\ throughput_req_s m = len results / total_duration
  /\ mean (map duration_ms results) = Ok (avg_ms (latency_stats m))
  /\ Py.min (map duration_ms results) = Ok (min_ms (latency_stats m))
  /\ Py.max (map duration_ms results) = Ok (max_ms (latency_stats m)).
Proof.
  unfold load_test_metrics. intros H.
  apply bind_Ok_inv in H as (sr & Hsr & H).
  apply bind_Ok_inv in H as (th & Hth & H).
  apply bind_Ok_inv in H as (mn & Hmn & H).
  apply bind_Ok_inv in H as (md & Hmd & H).
  apply bind_Ok_inv in H as (sd & Hsd & H).
  apply bind_Ok_inv in H as (lo & Hlo & H).
  apply bind_Ok_inv in H as (hi & Hhi & H).
  injection H as <-. cbn [total_requests throughput_req_s latency_stats avg_ms min_ms max_ms].
  repeat split; try assumption.
  unfold truediv in Hth. destruct (Qeq_bool total_duration 0); congruence.
Qed.

Lemma load_test_metrics_returns (sqrt : Q -> Q) (np_percentile : list Q -> Q -> Q)
    (results : list request_result) (total_duration : Q) :
  results <> [] -> ~ total_duration == 0 ->
  exists m, load_test_metrics sqrt np_percentile results total_duration = Ok m.
Proof.
  intros Hne Htd. unfold load_test_metrics.
  destruct results as [|r rs]; [congruence|].
  rewrite truediv_Ok by apply len_cons_nonzero.
  rewrite truediv_Ok by assumption.
  destruct (median_Ok (map duration_ms (r :: rs))) as [md Hmd]; [discriminate|].
  rewrite Hmd. cbn [Py.bind map mean Py.min Py.max].
  destruct rs as [|r' rs]; cbn [map List.length Nat.ltb Nat.leb stdev variance Py.bind];
    eauto.
Qed.

End AggregationFacts.

(** ** Batch aggregation: run_real_network_load_test
       (academic_test_suite_real_network.py) *)

(** C2.  run_real_network_load_test takes its latency statistics over the
    durations of all attempts: with one success of 100 ms and one failure
    of 50 ms the mean is 75 ms, the minimum 50 ms; and with a single failed
    attempt of 50 ms the mean, median, minimum and maximum are 50 ms, not
    0. *)
Theorem load_test_latency_includes_failures
    (sqrt : Q -> Q) (np_percentile : list Q -> Q -> Q) :
  (exists m,
      Aggregation.load_test_metrics sqrt np_percentile [Samples.attempt_ok; Samples.attempt_failed] 2 = Ok m
      /\ Aggregation.avg_ms (Aggregation.latency_stats m) == 75
      /\ Aggregation.min_ms (Aggregation.latency_stats m) == 50)
  /\ (exists m,
      Aggregation.load_test_metrics sqrt np_percentile [Samples.attempt_failed] 1 = Ok m
      /\ Aggregation.successful_requests m = 0%nat
      /\ Aggregation.avg_ms (Aggregation.latency_stats m) == 50
      /\ Aggregation.median_ms (Aggregation.latency_stats m) == 50
      /\ Aggregation.min_ms (Aggregation.latency_stats m) == 50
      /\ Aggregation.max_ms (Aggregation.latency_stats m) == 50).
Proof.
  split; eexists; (split; [reflexivity|]); cbn; repeat split; reflexivity.
Qed.

(** C3.  run_real_network_load_test divides the number of all attempts by
    the elapsed time: one success and one failure in 2 s give a throughput
    of 1 request per second, where successes over elapsed time is 1/2. *)
Theorem load_test_throughput_counts_all_attempts
    (sqrt : Q -> Q) (np_percentile : list Q -> Q -> Q) :
  exists m,
    Aggregation.load_test_metrics sqrt np_percentile [Samples.attempt_ok; Samples.attempt_failed] 2 = Ok m
    /\ Aggregation.successful_requests m = 1%nat
    /\ Aggregation.throughput_req_s m == 1
    /\ ~ Aggregation.throughput_req_s m == 1 / 2.
Proof.
  eexists. split; [reflexivity|]. cbn. repeat split; discriminate.
Qed.

(** C4.  On an empty result list the metrics block of
    run_real_network_load_test raises ZeroDivisionError, and so does
    run_real_network_load_test with num_requests = 0, in any world. *)
Theorem load_test_metrics_empty_raises
    (sqrt : Q -> Q) (np_percentile : list Q -> Q -> Q) :
  (forall total_duration : Q,
      Aggregation.load_test_metrics sqrt np_percentile [] total_duration
      = Raise ZeroDivisionError)
  /\ (forall w : Simulator.world,
      LoadDriver.run_real_network_load_test sqrt np_percentile 0 w
      = (Raise ZeroDivisionError, w)).
Proof.
  split.
  - intros total_duration. unfold Aggregation.load_test_metrics.
    now rewrite truediv_zero by reflexivity.
  - intros w. unfold LoadDriver.run_real_network_load_test.
    cbv [Eff.bind Simulator.time LoadDriver.request_loop Eff.ret Eff.lift].
    unfold Aggregation.load_test_metrics.
    now rewrite truediv_zero by reflexivity.
Qed.

(** ** Network and server-load simulation *)

Module SimulatorFacts.

Import Eff Simulator Expected.

(** Symbolic execution of one monadic step. *)
Ltac run :=
  cbv beta iota zeta delta
    [bind ret when sleep modify get normalvariate next_sample raise lift
     try_except random time];
  cbn [active_load active_profile active_scenario rng rng_pos server calls trace now].

(** Case split on every [if delay > 0] in the goal. *)
Ltac split_delays :=
  repeat match goal with
         | |- context [if Qlt_bool ?a ?b then _ else _] =>
           destruct (Qlt_bool a b) eqn:?; run
         end.

Lemma same_setup_refl (w : world) : same_setup w w.
Proof. repeat split. Qed.

Lemma same_setup_trans (w1 w2 w3 : world) :
  same_setup w1 w2 -> same_setup w2 w3 -> same_setup w1 w3.
Proof.
  unfold same_setup. intros (a1 & b1 & c1 & d1 & e1) (a2 & b2 & c2 & d2 & e2).
  repeat split; congruence.
Qed.

(** Server processing never raises and never calls the request function:
    it only draws samples and sleeps. *)
Lemma simulate_server_processing_spec (w : world) :
  exists w',
    simulate_server_processing w = (Ok tt, w')
    /\ same_setup w w'
    /\ calls w' = calls w
    /\ (active_load w = None -> w' = w)
    /\ Forall (fun e => e <> Request) (skipn (List.length (trace w)) (trace w')).
Proof.
  unfold simulate_server_processing. run.
  destruct (active_load w) as [l|] eqn:Hl.
  - run. split_delays;
      (eexists; split; [reflexivity|]); cbn [active_load active_profile active_scenario rng rng_pos server calls trace now];
      (split; [repeat split; auto|]); (split; [reflexivity|]);
      (split; [congruence|]);
      rewrite <- ?app_assoc, ?skipn_app, ?skipn_all, ?Nat.sub_diag; simpl;
      repeat constructor; discriminate.
  - exists w. run. repeat split; auto.
    rewrite skipn_all. constructor.
Qed.

(** With no active network profile the request goes straight through. *)
Lemma simulate_real_request_passthrough (w : world) :
  active_profile w = None -> simulate_real_request w = request_func w.
Proof.
  intros H. unfold simulate_real_request, bind, get. now rewrite H.
Qed.

Lemma clear_simulation_spec (w : world) :
  clear_simulation w =
  (Ok tt, mk_world None (active_load w) None (now w) (rng w) (rng_pos w)
            (server w) (calls w) (trace w)).
Proof. reflexivity. Qed.

End SimulatorFacts.

(** C5.  With an active network profile, when the uniform sample drawn for
    the attempt is below the profile's packet_loss_rate,
    simulate_real_request raises the packet-loss ConnectionError and
    neither sleeps nor calls the request function: the trace, the number
    of calls and the clock are as before, and one sample was drawn.  The
    same holds for simulate_real_world_request from the world that server
    processing leaves. *)
Theorem packet_loss_skips_request (w : Simulator.world) (p : Simulator.network_profile) :
  Simulator.active_profile w = Some p ->
  (Simulator.rng w (Simulator.rng_pos w) < Simulator.packet_loss_rate p ->
   exists w',
     Simulator.simulate_real_request w
     = (Raise (ConnectionError Simulator.packet_loss_msg), w')
     /\ Simulator.trace w' = Simulator.trace w
     /\ Simulator.calls w' = Simulator.calls w
     /\ Simulator.now w' = Simulator.now w
     /\ Simulator.rng_pos w' = S (Simulator.rng_pos w))
  /\ (forall w1,
         Simulator.simulate_server_processing w = (Ok tt, w1) ->
         Simulator.rng w1 (Simulator.rng_pos w1) < Simulator.packet_loss_rate p ->
         exists w',
           Simulator.simulate_real_world_request w
           = (Raise (ConnectionError Simulator.packet_loss_msg), w')
           /\ Simulator.trace w' = Simulator.trace w1
           /\ Simulator.calls w' = Simulator.calls w
           /\ Simulator.now w' = Simulator.now w1).
Proof.
  intros Hactive.
  assert (Hnet : forall w0,
             Simulator.active_profile w0 = Some p ->
             Simulator.rng w0 (Simulator.rng_pos w0) < Simulator.packet_loss_rate p ->
             exists w',
               Simulator.simulate_real_request w0
               = (Raise (ConnectionError Simulator.packet_loss_msg), w')
               /\ Simulator.trace w' = Simulator.trace w0
               /\ Simulator.calls w' = Simulator.calls w0
               /\ Simulator.now w' = Simulator.now w0
               /\ Simulator.rng_pos w' = S (Simulator.rng_pos w0)).
  { intros w0 H0 Hlt. apply Qlt_bool_iff in Hlt.
    unfold Simulator.simulate_real_request, Simulator.simulate_packet_loss.
    SimulatorFacts.run. rewrite H0. SimulatorFacts.run.
    rewrite H0. SimulatorFacts.run. rewrite Hlt. eexists. split; [reflexivity|]. repeat split. }
  split.
  - now apply Hnet.
  - intros w1 Hsrv Hlt.
    destruct (SimulatorFacts.simulate_server_processing_spec w)
      as (w1' & Hsrv' & Hsame & Hcalls & _).
    rewrite Hsrv in Hsrv'. injection Hsrv' as <-.
    destruct Hsame as (Hp & _).
    destruct (Hnet w1) as (w' & Hreq & Htr & Hc & Hnow & _);
      [congruence|assumption|].
    exists w'. unfold Simulator.simulate_real_world_request, Eff.bind.
    rewrite Hsrv, Hreq. repeat split; congruence.
Qed.

Lemma packet_loss_skips_request_witness :
  exists w',
    Simulator.simulate_real_request Samples.lossy_world
    = (Raise (ConnectionError Simulator.packet_loss_msg), w')
    /\ Simulator.trace w' = Simulator.trace Samples.lossy_world
    /\ Simulator.calls w' = Simulator.calls Samples.lossy_world
    /\ Simulator.now w' = Simulator.now Samples.lossy_world
    /\ Simulator.rng_pos w' = S (Simulator.rng_pos Samples.lossy_world).
Proof.
  apply (proj1 (packet_loss_skips_request Samples.lossy_world Samples.wan_poor eq_refl)).
  reflexivity.
Defined.

(** C6.  clear_simulation resets the network profile and the scenario name
    but not the server load: after apply_real_world_scenario
    ("poor_connectivity") and clear_simulation the heavy load profile is
    still active, and the next simulate_real_world_request sleeps the cpu
    delay (0.1 s) and the io delay (0.2 s) before it calls the request
    function. *)
Theorem clear_simulation_keeps_server_load :
  exists a w1 w2 r w3,
    Simulator.apply_real_world_scenario "poor_connectivity" Samples.fresh_world = (Ok a, w1)
    /\ Simulator.clear_simulation w1 = (Ok tt, w2)
    /\ Simulator.active_profile w2 = None
    /\ Simulator.active_scenario w2 = None
    /\ Simulator.active_load w2 = Simulator.lookup "heavy" Simulator.load_profiles
    /\ Simulator.simulate_real_world_request w2 = (Ok r, w3)
    /\ exists d1 d2,
        Simulator.trace w3 = [Simulator.Sleep d1; Simulator.Sleep d2; Simulator.Request]
        /\ d1 == 1 # 10 /\ d2 == 2 # 10.
Proof.
  do 5 eexists.
  split; [vm_compute; reflexivity|].
  split; [vm_compute; reflexivity|].
  do 3 (split; [reflexivity|]).
  split; [vm_compute; reflexivity|].
  do 2 eexists. split; [reflexivity|]. split; reflexivity.
Qed.

(** ** Load drivers *)

Module LoadDriverFacts.

Import Eff Simulator LoadDriver.

Lemma execute_real_network_request_spec (w : world) :
  execute_real_network_request w =
  match simulate_real_world_request w with
  | (Ok response, w1) =>
    (Ok (mk_request_result
           ((resp_status_code response =? 200)%Z || (resp_status_code response =? 201)%Z)
           (Some (resp_status_code response))
           ((now w1 - now w) * 1000) None
           (is_not_none (active_scenario w1)) (active_scenario w1)), w1)
  | (Raise e, w1) =>
    (Ok (mk_request_result false (Some 0%Z) ((now w1 - now w) * 1000)
           (Some (str e))
           (is_not_none (active_scenario w1)) (active_scenario w1)), w1)
  end.
Proof.
  unfold execute_real_network_request. SimulatorFacts.run.
  destruct (simulate_real_world_request w) as [[response|e] w1]; reflexivity.
Qed.

Lemma execute_real_network_request_returns (w : world) :
  exists r w', execute_real_network_request w = (Ok r, w').
Proof.
  rewrite execute_real_network_request_spec.
  destruct (simulate_real_world_request w) as [[response|e] w1]; eauto.
Qed.

Lemma create_order_spec (w : world) :
  create_order w =
  match request_func w with
  | (Ok response, w1) =>
    (Ok (mk_request_result (resp_status_code response =? 200)%Z
           (Some (resp_status_code response))
           ((now w1 - now w) * 1000) None false None), w1)
  | (Raise e, w1) =>
    (Ok (mk_request_result false None ((now w1 - now w) * 1000)
           (Some (str e)) false None), w1)
  end.
Proof.
  unfold create_order. SimulatorFacts.run.
  destruct (request_func w) as [[response|e] w1]; reflexivity.
Qed.

(** The loop appends exactly one result per iteration, whatever the
    attempts do. *)
Lemma request_loop_spec (n : nat) :
  forall (acc : list request_result) (w : world),
    exists new w',
      request_loop n acc w = (Ok (acc ++ new), w') /\ List.length new = n.
Proof.
  induction n as [|n IH]; intros acc w.
  - exists [], w. rewrite app_nil_r. split; reflexivity.
  - cbn [request_loop]. unfold bind at 1.
    destruct (execute_real_network_request_returns w) as (r & w1 & ->).
    unfold bind at 1. unfold sleep at 1, modify.
    match goal with
    | |- context [request_loop n (acc ++ [r]) ?w2] =>
      destruct (IH (acc ++ [r]) w2) as (new & w' & Hloop & Hlen)
    end.
    exists (r :: new), w'. rewrite Hloop, <- app_assoc. split; [reflexivity|].
    simpl. now rewrite Hlen.
Qed.

End LoadDriverFacts.

(** ** The thread pool of run_load_test *)

Module PoolFacts.

Import Eff Simulator PoolDriver BatchTerms.











(** Taken in one piece, the effects are create_order. *)
Lemma create_order_steps (w : world) :
  bind (step Queued) (fun t1 => bind (step t1) (fun t2 => step t2)) w =
  (match fst (LoadDriver.create_order w) with
   | Ok r => Ok (Finished r)
   | Raise e => Raise e
   end, snd (LoadDriver.create_order w)).
Proof.
  rewrite LoadDriverFacts.create_order_spec.
  unfold bind at 1. cbn [step]. unfold bind at 1, time, ret.
  unfold bind at 1. cbn [step]. unfold try_except, bind, ret.
  destruct (request_func w) as [[response|e] w1]; reflexivity.
Qed.
















End PoolFacts.


(** Once cleared, the network part of a request is a pass-through; the
    whole request is one when no server load is active either. *)
Lemma cleared_network_passthrough (w w' : Simulator.world) :
  Simulator.clear_simulation w = (Ok tt, w') ->
  Simulator.simulate_real_request w' = Simulator.request_func w'
  /\ (Simulator.active_load w = None ->
      Simulator.simulate_real_world_request w' = Simulator.request_func w').
Proof.
  rewrite SimulatorFacts.clear_simulation_spec. intros [= <-].
  split.
  - now apply SimulatorFacts.simulate_real_request_passthrough.
  - intros Hload. unfold Simulator.simulate_real_world_request,
      Simulator.simulate_server_processing.
    SimulatorFacts.run. rewrite Hload. SimulatorFacts.run.
    now apply SimulatorFacts.simulate_real_request_passthrough.
Qed.

(** With a server that times out on the first call, the first of three
    attempts fails and the other two still run. *)

Example flaky_batch_completes :
  exists results w',
    LoadDriver.request_loop 3 [] Samples.flaky_world = (Ok results, w')
    /\ map success results = [false; true; true]
    /\ map error results = [Some "Read timed out."%string; None; None]
    /\ Simulator.calls w' = 3%nat.
Proof.
  do 2 eexists. split; [vm_compute; reflexivity|]. repeat split.
Qed.

(** The same server behind a pool of two workers, under a schedule that
    lets the second task call first: the time-out is the second result,
    and all three futures hold a result. *)
Example flaky_pool_completes :
  exists results w',
    PoolDriver.run_load_test 3 2 [2; 0; 1; 1; 0]%nat Samples.flaky_world
    = (Ok results, w')
    /\ map success results = [true; false; true]
    /\ map error results = [None; Some "Read timed out."%string; None]
    /\ Simulator.calls w' = 3%nat.
Proof.
  do 2 eexists. split; [vm_compute; reflexivity|]. repeat split.
Qed.

(** ** Two-sample comparison *)

Module ComparatorFacts.

Import Eff Comparator Expected.

(** Symbolic execution of one step of the analyzers. *)
Ltac stat_run :=
  cbv beta iota zeta delta
    [bind ret raise lift try_except
     call_shapiro call_levene call_ttest_ind call_mannwhitneyu].

Section Normality.

Variable alpha : Q.
Variable shapiro : list Q -> result (Q * Q).

(** test_normality never raises, calls shapiro once on a sample of three
    values or more, and sets is_normal exactly when shapiro returned a
    p-value above alpha. *)
Lemma test_normality_spec (data : list Q) (log : list call) :
  (3 <= List.length data)%nat ->
  exists n,
    test_normality alpha shapiro data log = (Ok n, log ++ [CallShapiro data])
    /\ is_normal n =
       match shapiro data with
       | Ok (_, p_value) => Qlt_bool alpha p_value
       | Raise _ => false
       end.
Proof.
  intros Hlen. unfold test_normality.
  destruct (List.length data <? 3)%nat eqn:E; [apply Nat.ltb_lt in E; lia|].
  stat_run. destruct (shapiro data) as [[s p]|e]; eexists; split; reflexivity.
Qed.

End Normality.

Ltac finish_report Hr :=
  injection Hr as <-; eexists; (split; [reflexivity|]); cbn;
  repeat split; unfold lower_mean_wins, higher_mean_wins;
  destruct (is_latency_metric _); reflexivity.

Section OptimizedFacts.

Variable alpha : Q.
Variable sqrt : Q -> Q.
Variable shapiro : list Q -> result (Q * Q).
Variable ttest_ind : list Q -> list Q -> bool -> result (Q * Q).
Variable mannwhitneyu : list Q -> list Q -> result (Q * Q).

Local Notation "'compare'" :=
  (Optimized.compare_metrics alpha sqrt shapiro ttest_ind mannwhitneyu).

(** What the optimized analyzer calls and what it reports, for two samples
    of three values or more. *)
Lemma optimized_compare_metrics_spec (a b : list Q) (metric : string) (log : list call) :
  (3 <= List.length a)%nat -> (3 <= List.length b)%nat ->
  let both_normal := passes_shapiro alpha shapiro a && passes_shapiro alpha shapiro b in
  snd (compare a b metric log) =
    log ++ [CallShapiro a; CallShapiro b;
            if both_normal then CallTTest a b true else CallMannWhitney a b]
  /\ forall r, fst (compare a b metric log) = Ok r ->
       exists c, r = Compared c
         /\ st_test (c_statistical_test c) =
            (if both_normal then "Independent t-test" else "Mann-Whitney U test")%string
         /\ st_levene_test (c_statistical_test c) = None
         /\ c_effect_size c = EffectSize (Fin (Optimized.cohens_d sqrt a b)) None
         /\ winner (c_performance c) =
            (if is_latency_metric metric
             then lower_mean_wins (Optimized.np_mean a) (Optimized.np_mean b)
             else higher_mean_wins (Optimized.np_mean a) (Optimized.np_mean b))
         /\ improvement_percent (c_performance c) =
            np_scale
              (np_abs (np_truediv (Optimized.np_mean a - Optimized.np_mean b)
                         (max2 (Optimized.np_mean a) (Optimized.np_mean b))))
              100.
Proof.
  intros Ha Hb both_normal.
  destruct (compare a b metric log) as [res log'] eqn:Hc. cbn [fst snd].
  revert Hc. unfold Optimized.compare_metrics.
  destruct (List.length a <? 3)%nat eqn:Ea; [apply Nat.ltb_lt in Ea; lia|].
  destruct (List.length b <? 3)%nat eqn:Eb; [apply Nat.ltb_lt in Eb; lia|].
  cbn [orb]. unfold bind at 1.
  destruct (test_normality_spec alpha shapiro a log Ha) as (na & -> & Hna).
  unfold bind at 1.
  destruct (test_normality_spec alpha shapiro b (log ++ [CallShapiro a]) Hb)
    as (nb & -> & Hnb).
  rewrite Hna, Hnb. fold (passes_shapiro alpha shapiro a).
  fold (passes_shapiro alpha shapiro b). fold both_normal.
  rewrite <- app_assoc. cbn [app].
  destruct both_normal; stat_run.
  - destruct (ttest_ind a b true) as [[st p]|e]; stat_run;
      rewrite <- app_assoc; intros [= <- <-]; (split; [reflexivity|]); intros r Hr.
    + finish_report Hr.
    + discriminate Hr.
  - destruct (mannwhitneyu a b) as [[st p]|e]; stat_run;
      rewrite <- app_assoc; intros [= <- <-]; (split; [reflexivity|]); intros r Hr.
    + finish_report Hr.
    + discriminate Hr.
Qed.

(** The guard of the optimized analyzer: without a positive pooled
    standard deviation nothing is divided and Cohen's d is 0. *)
Lemma optimized_cohens_d_guard (a b : list Q) :
  Optimized.pooled_std sqrt a b <= 0 -> Optimized.cohens_d sqrt a b = 0.
Proof.
  intros H. unfold Optimized.cohens_d.
  destruct (Qlt_bool 0 (Optimized.pooled_std sqrt a b)) eqn:E; [|reflexivity].
  apply Qlt_bool_iff in E. lra.
Qed.

End OptimizedFacts.

Section ArchivedFacts.

Variable alpha : Q.
Variable sqrt : Q -> Q.
Variable shapiro : list Q -> result (Q * Q).
Variable levene : list Q -> list Q -> result (Q * Q).
Variable ttest_ind : list Q -> list Q -> bool -> result (Q * Q).
Variable mannwhitneyu : list Q -> list Q -> result (Q * Q).
Variable t_ppf : Q -> Q -> Q.

Local Notation "'compare'" :=
  (Archived.compare_metrics alpha sqrt shapiro levene ttest_ind mannwhitneyu t_ppf).
Local Notation "'test_calls'" := (archived_test_calls alpha shapiro levene ttest_ind).
Local Notation "'test_name'" :=
  (archived_test_name alpha shapiro levene ttest_ind mannwhitneyu).

Lemma describe_spec (data : list Q) :
  (1 <= List.length data)%nat ->
  exists md sd mn mx,
    Archived.describe sqrt data =
    Ok (mk_descriptive (sum data / len data) md sd (Some mn) (Some mx)
          (List.length data)).
Proof.
  intros Hlen. unfold Archived.describe.
  destruct data as [|x d]; [simpl in Hlen; lia|].
  destruct (median_Ok (x :: d)) as [md Hmd]; [discriminate|].
  rewrite Hmd. cbn [mean Py.bind Py.min Py.max].
  destruct (1 <? List.length (x :: d))%nat eqn:E.
  - destruct d as [|y d]; [discriminate E|].
    cbn [Archived.stdev variance Py.bind]. do 4 eexists. reflexivity.
  - cbn [Py.bind]. do 4 eexists. reflexivity.
Qed.

Lemma archived_compare_metrics_spec (a b : list Q) (metric : string) (log : list call) :
  (3 <= List.length a)%nat -> (3 <= List.length b)%nat ->
  let orch_mean := sum a / len a in
  let choreo_mean := sum b / len b in
  snd (compare a b metric log) =
    log ++ [CallShapiro a; CallShapiro b] ++ test_calls a b
  /\ (forall r, fst (compare a b metric log) = Ok r ->
       exists c, r = Compared c
         /\ st_test (c_statistical_test c) = test_name a b
         /\ c_effect_size c =
            match Archived.calculate_cohens_d sqrt a b with
            | Ok d => EffectSize d (Some (Archived.interpret_effect_size d))
            | Raise e => EffectError (str e)
            end
         /\ winner (c_performance c) =
            (if is_latency_metric metric
             then lower_mean_wins orch_mean choreo_mean
             else higher_mean_wins orch_mean choreo_mean)
         /\ improvement_percent (c_performance c) =
            Fin (Qabs (orch_mean - choreo_mean)
                 / archived_divisor metric orch_mean choreo_mean * 100))
  /\ (~ archived_divisor metric orch_mean choreo_mean == 0 ->
      exists r, fst (compare a b metric log) = Ok r).
Proof.
  intros Ha Hb orch_mean choreo_mean.
  destruct (compare a b metric log) as [res log'] eqn:Hc. cbn [fst snd].
  revert Hc. unfold Archived.compare_metrics.
  destruct (List.length a <? 3)%nat eqn:Ea; [apply Nat.ltb_lt in Ea; lia|].
  destruct (List.length b <? 3)%nat eqn:Eb; [apply Nat.ltb_lt in Eb; lia|].
  cbn [orb].
  destruct (describe_spec a) as (mda & sda & mna & mxa & ->); [lia|].
  destruct (describe_spec b) as (mdb & sdb & mnb & mxb & ->); [lia|].
  unfold bind at 1, lift at 1. unfold bind at 1, lift at 1. unfold bind at 1.
  destruct (test_normality_spec alpha shapiro a log Ha) as (na & -> & Hna).
  unfold bind at 1.
  destruct (test_normality_spec alpha shapiro b (log ++ [CallShapiro a]) Hb)
    as (nb & -> & Hnb).
  rewrite Hna, Hnb. fold (passes_shapiro alpha shapiro a).
  fold (passes_shapiro alpha shapiro b).
  unfold archived_test_calls, archived_test_name, archived_divisor.
  rewrite <- app_assoc. cbn [app d_mean]. fold orch_mean. fold choreo_mean.
  unfold truediv.
  destruct (passes_shapiro alpha shapiro a && passes_shapiro alpha shapiro b);
    stat_run;
    repeat match goal with
           | |- context [match levene a b with _ => _ end] =>
             destruct (levene a b) as [[? ?]|?]; stat_run
           | |- context [match ttest_ind a b ?v with _ => _ end] =>
             destruct (ttest_ind a b v) as [[? ?]|?]; stat_run
           | |- context [match mannwhitneyu a b with _ => _ end] =>
             destruct (mannwhitneyu a b) as [[? ?]|?]; stat_run
           end;
    destruct (is_latency_metric metric); stat_run;
    match goal with
    | |- context [Qeq_bool ?d 0] => destruct (Qeq_bool d 0) eqn:Ed; stat_run
    end;
    rewrite <- ?app_assoc; intros [= <- <-];
    (split; [reflexivity|]);
    (split;
     [ intros r Hr; try discriminate Hr; injection Hr as <-;
       eexists; (split; [reflexivity|]); cbn;
       repeat split; reflexivity
     | intros Hd; try (apply Qeq_bool_iff in Ed; contradiction); eauto ]).
Qed.

End ArchivedFacts.

End ComparatorFacts.

(** The archived analyzer, which the optimized one was cut down from,
    selects the test as follows: when both samples pass Shapiro-Wilk it
    runs Levene's test and then the t-test with [equal_var] set by
    Levene's p-value; otherwise it runs Mann-Whitney U. *)
Lemma archived_test_selection
    (alpha : Q) (sqrt : Q -> Q)
    (shapiro : list Q -> result (Q * Q))
    (levene : list Q -> list Q -> result (Q * Q))
    (ttest_ind : list Q -> list Q -> bool -> result (Q * Q))
    (mannwhitneyu : list Q -> list Q -> result (Q * Q))
    (t_ppf : Q -> Q -> Q)
    (a b : list Q) (metric : string) (log : list Comparator.call) :
  (3 <= List.length a)%nat -> (3 <= List.length b)%nat ->
  let compare :=
    Comparator.Archived.compare_metrics alpha sqrt shapiro levene ttest_ind
      mannwhitneyu t_ppf in
  let both_normal :=
    Expected.passes_shapiro alpha shapiro a
    && Expected.passes_shapiro alpha shapiro b in
  (both_normal = true ->
   forall levene_stat levene_p t,
     levene a b = Ok (levene_stat, levene_p) ->
     ttest_ind a b (Qlt_bool alpha levene_p) = Ok t ->
     snd (compare a b metric log) =
     log ++ [Comparator.CallShapiro a; Comparator.CallShapiro b;
             Comparator.CallLevene a b;
             Comparator.CallTTest a b (Qlt_bool alpha levene_p)])
  /\ (both_normal = false ->
      snd (compare a b metric log) =
      log ++ [Comparator.CallShapiro a; Comparator.CallShapiro b;
              Comparator.CallMannWhitney a b]).
Proof.
  intros Ha Hb compare both_normal.
  destruct (ComparatorFacts.archived_compare_metrics_spec alpha sqrt shapiro levene
              ttest_ind mannwhitneyu t_ppf a b metric log Ha Hb) as (Hlog & _).
  fold compare in Hlog. rewrite Hlog.
  unfold Expected.archived_test_calls. fold both_normal.
  split.
  - intros -> ls lp t Hl Ht. now rewrite Hl, Ht.
  - now intros ->.
Qed.

(** C8.  When both samples pass Shapiro-Wilk the optimized analyzer calls
    ttest_ind with the default equal_var=True right after the two
    normality tests: it never runs Levene's test and never uses Welch's
    formula, whatever the variances of the samples. *)
Theorem optimized_skips_levene
    (alpha : Q) (sqrt : Q -> Q)
    (shapiro : list Q -> result (Q * Q))
    (ttest_ind : list Q -> list Q -> bool -> result (Q * Q))
    (mannwhitneyu : list Q -> list Q -> result (Q * Q))
    (a b : list Q) (metric : string) (log : list Comparator.call) :
  (3 <= List.length a)%nat -> (3 <= List.length b)%nat ->
  Expected.passes_shapiro alpha shapiro a = true ->
  Expected.passes_shapiro alpha shapiro b = true ->
  snd (Comparator.Optimized.compare_metrics alpha sqrt shapiro ttest_ind
         mannwhitneyu a b metric log) =
  log ++ [Comparator.CallShapiro a; Comparator.CallShapiro b;
          Comparator.CallTTest a b true].
Proof.
  intros Ha Hb Hna Hnb.
  destruct (ComparatorFacts.optimized_compare_metrics_spec alpha sqrt shapiro
              ttest_ind mannwhitneyu a b metric log Ha Hb) as (Hlog & _).
  rewrite Hlog, Hna, Hnb. reflexivity.
Qed.

Lemma optimized_skips_levene_witness :
  snd (Comparator.Optimized.compare_metrics (5 # 100) Qsqrt Samples.shapiro_normal
         (fun a b _ => Samples.test_stub a b) Samples.test_stub
         Samples.tight_sample Samples.wide_sample "latencies" []) =
  [] ++ [Comparator.CallShapiro Samples.tight_sample; Comparator.CallShapiro Samples.wide_sample;
         Comparator.CallTTest Samples.tight_sample Samples.wide_sample true].
Proof.
  apply optimized_skips_levene.
  - simpl; lia.
  - simpl; lia.
  - reflexivity.
  - reflexivity.
Defined.

Lemma Qsqrt_zero (x : Q) : x == 0 -> Qsqrt x == 0.
Proof.
  intros H. unfold Qsqrt.
  assert (E : Qle_bool x 0 = true) by (apply Qle_bool_iff; rewrite H; apply Qle_refl).
  now rewrite E.
Qed.

(** The optimized analyzer guards the division: with a pooled standard
    deviation of 0 it reports Cohen's d = 0 (and no category). *)
Lemma optimized_zero_pooled_std
    (alpha : Q) (sqrt : Q -> Q)
    (shapiro : list Q -> result (Q * Q))
    (ttest_ind : list Q -> list Q -> bool -> result (Q * Q))
    (mannwhitneyu : list Q -> list Q -> result (Q * Q))
    (a b : list Q) (metric : string) (log log' : list Comparator.call)
    (r : Comparator.report) :
  (3 <= List.length a)%nat -> (3 <= List.length b)%nat ->
  Comparator.Optimized.pooled_std sqrt a b == 0 ->
  Comparator.Optimized.compare_metrics alpha sqrt shapiro ttest_ind
    mannwhitneyu a b metric log = (Ok r, log') ->
  exists c, r = Comparator.Compared c
    /\ Comparator.c_effect_size c = Comparator.EffectSize (Comparator.Fin 0) None.
Proof.
  intros Ha Hb Hp Hc.
  destruct (ComparatorFacts.optimized_compare_metrics_spec alpha sqrt shapiro
              ttest_ind mannwhitneyu a b metric log Ha Hb) as (_ & Hr).
  rewrite Hc in Hr. destruct (Hr r eq_refl) as (c & -> & _ & _ & He & _).
  exists c. split; [reflexivity|].
  rewrite He, ComparatorFacts.optimized_cohens_d_guard; [reflexivity|].
  rewrite Hp. apply Qle_refl.
Qed.

(** C9.  calculate_cohens_d of the archived analyzer divides by the pooled
    standard deviation without a guard: for two samples of identical
    values the pooled standard deviation is 0, the quotient 0/0 is NaN, and
    interpret_effect_size reports "large" for it. *)
Theorem archived_cohens_d_unguarded (sqrt : Q -> Q) :
  (forall x, x == 0 -> sqrt x == 0) ->
  Comparator.Archived.calculate_cohens_d sqrt [5; 5; 5] [5; 5; 5]
  = Ok Comparator.NaN
  /\ Comparator.Archived.interpret_effect_size Comparator.NaN = "large"%string.
Proof.
  intros Hsqrt. split; [|reflexivity].
  unfold Comparator.Archived.calculate_cohens_d, Comparator.Archived.stdev.
  cbn [mean variance Py.bind].
  assert (Hv : sample_variance [5; 5; 5] == 0) by reflexivity.
  pose proof (Hsqrt _ Hv) as Hstd.
  set (std := sqrt (sample_variance [5; 5; 5])) in *.
  rewrite truediv_Ok by discriminate. cbn [Py.bind].
  set (q := ((len [5; 5; 5] - 1) * (std * std) + (len [5; 5; 5] - 1) * (std * std))
            / (len [5; 5; 5] + len [5; 5; 5] - 2)).
  assert (Hq : q == 0) by (subst q; rewrite Hstd; reflexivity).
  pose proof (Hsqrt _ Hq) as Hpooled.
  unfold Comparator.np_truediv.
  apply Qeq_bool_iff in Hpooled. rewrite Hpooled. reflexivity.
Qed.

Lemma archived_cohens_d_unguarded_witness :
  Comparator.Archived.calculate_cohens_d Qsqrt [5; 5; 5] [5; 5; 5]
  = Ok Comparator.NaN
  /\ Comparator.Archived.interpret_effect_size Comparator.NaN = "large"%string.
Proof.
  apply archived_cohens_d_unguarded. exact Qsqrt_zero.
Defined.

Lemma Qlt_bool_irrefl_eq (x y : Q) : x == y -> Qlt_bool x y = false.
Proof.
  intros H. destruct (Qlt_bool x y) eqn:E; [|reflexivity].
  apply Qlt_bool_iff in E. rewrite H in E. now apply Qlt_irrefl in E.
Qed.

Lemma max2_cases (x y : Q) : max2 x y = x \/ max2 x y = y.
Proof. unfold max2. destruct (Qlt_bool x y); auto. Qed.

Lemma min2_cases (x y : Q) : min2 x y = x \/ min2 x y = y.
Proof. unfold min2. destruct (Qlt_bool y x); auto. Qed.

Lemma winner_one_of_two (latency : bool) (x y : Q) :
  let w :=
    if latency then Expected.lower_mean_wins x y
    else Expected.higher_mean_wins x y in
  w = "orchestrated"%string \/ w = "choreographed"%string.
Proof.
  unfold Expected.lower_mean_wins, Expected.higher_mean_wins.
  destruct latency; [destruct (Qlt_bool x y)|destruct (Qlt_bool y x)]; auto.
Qed.

Lemma winner_equal_means (latency : bool) (x y : Q) :
  x == y ->
  (if latency then Expected.lower_mean_wins x y
   else Expected.higher_mean_wins x y) = "choreographed"%string.
Proof.
  intros H.
  unfold Expected.lower_mean_wins, Expected.higher_mean_wins.
  rewrite (Qlt_bool_irrefl_eq x y H), (Qlt_bool_irrefl_eq y x (Qeq_sym _ _ H)).
  now destruct latency.
Qed.

(** * Further properties *)

(** ** Sorting and extrema *)

Lemma insert_In (x y : Q) (l : list Q) : In y (insert x l) <-> y = x \/ In y l.
Proof.
  induction l as [|z l IH]; simpl.
  - intuition.
  - destruct (Qle_bool x z); simpl; [intuition|].
    rewrite IH. intuition.
Qed.

Lemma sorted_In (y : Q) (l : list Q) : In y (sorted l) <-> In y l.
Proof.
  induction l as [|x l IH]; [reflexivity|].
  change (sorted (x :: l)) with (insert x (sorted l)).
  rewrite insert_In, IH. simpl. intuition.
Qed.

Lemma insert_Sorted (x : Q) (l : list Q) : Sorted Qle l -> Sorted Qle (insert x l).
Proof.
  induction 1 as [|y l Hs IH Hhd]; simpl.
  - repeat constructor.
  - destruct (Qle_bool x y) eqn:E.
    + apply Qle_bool_iff in E. repeat constructor; assumption.
    + assert (Hyx : y <= x).
      { apply Qlt_le_weak, Qnot_le_lt. intros H. apply Qle_bool_iff in H. congruence. }
      constructor; [exact IH|].
      destruct Hhd as [|z l Hyz]; simpl.
      * now constructor.
      * destruct (Qle_bool x z); now constructor.
Qed.

(** [sorted] returns an ascending list with the same elements. *)
Lemma sorted_Sorted (l : list Q) : Sorted Qle (sorted l).
Proof.
  induction l as [|x l IH]; [constructor|].
  change (sorted (x :: l)) with (insert x (sorted l)). now apply insert_Sorted.
Qed.

Lemma Sorted_nth_le (l : list Q) :
  Sorted Qle l ->
  forall i j, (i <= j < List.length l)%nat -> nth i l 0 <= nth j l 0.
Proof.
  intros Hs. apply Sorted_StronglySorted in Hs; [|exact Qle_trans].
  induction Hs as [|x l Hs IH Hall]; intros i j Hij; [simpl in Hij; lia|].
  destruct i as [|i], j as [|j]; simpl in *; try lia.
  - apply Qle_refl.
  - rewrite Forall_forall in Hall. apply Hall, nth_In. lia.
  - apply IH. lia.
Qed.

Lemma fold_min_spec (l : list Q) (a : Q) :
  let m := fold_left (fun m y => if Qlt_bool y m then y else m) l a in
  m <= a /\ Forall (Qle m) l /\ (m = a \/ In m l).
Proof.
  revert a. induction l as [|x l IH]; intros a; simpl.
  - split; [apply Qle_refl|]. split; [constructor|now left].
  - destruct (Qlt_bool x a) eqn:E.
    + apply Qlt_bool_iff in E. destruct (IH x) as (H1 & H2 & H3).
      split; [lra|]. split; [constructor; assumption|].
      right. destruct H3 as [H3|H3]; [left; now symmetry|now right].
    + assert (a <= x).
      { apply Qnot_lt_le. intros H. apply Qlt_bool_iff in H. congruence. }
      destruct (IH a) as (H1 & H2 & H3).
      split; [assumption|]. split; [constructor; [lra|assumption]|].
      destruct H3 as [H3|H3]; [now left|right; now right].
Qed.

Lemma fold_max_spec (l : list Q) (a : Q) :
  let m := fold_left (fun m y => if Qlt_bool m y then y else m) l a in
  a <= m /\ Forall (fun y => y <= m) l /\ (m = a \/ In m l).
Proof.
  revert a. induction l as [|x l IH]; intros a; simpl.
  - split; [apply Qle_refl|]. split; [constructor|now left].
  - destruct (Qlt_bool a x) eqn:E.
    + apply Qlt_bool_iff in E. destruct (IH x) as (H1 & H2 & H3).
      split; [lra|]. split; [constructor; assumption|].
      right. destruct H3 as [H3|H3]; [left; now symmetry|now right].
    + assert (x <= a).
      { apply Qnot_lt_le. intros H. apply Qlt_bool_iff in H. congruence. }
      destruct (IH a) as (H1 & H2 & H3).
      split; [assumption|]. split; [constructor; [lra|assumption]|].
      destruct H3 as [H3|H3]; [now left|right; now right].
Qed.

(** [min] returns an element that is below every element, [max] one that
    is above. *)
Lemma min_spec (l : list Q) (m : Q) :
  Py.min l = Ok m -> In m l /\ forall x, In x l -> m <= x.
Proof.
  destruct l as [|a l]; [discriminate|]. intros [= <-].
  destruct (fold_min_spec l a) as (H1 & H2 & H3). split.
  - simpl. destruct H3; [left; congruence|tauto].
  - intros x [<- | Hx]; [assumption|].
    rewrite Forall_forall in H2. now apply H2.
Qed.

Lemma max_spec (l : list Q) (m : Q) :
  Py.max l = Ok m -> In m l /\ forall x, In x l -> x <= m.
Proof.
  destruct l as [|a l]; [discriminate|]. intros [= <-].
  destruct (fold_max_spec l a) as (H1 & H2 & H3). split.
  - simpl. destruct H3; [left; congruence|tauto].
  - intros x [<- | Hx]; [assumption|].
    rewrite Forall_forall in H2. now apply H2.
Qed.

(** ** percentile: totality and extremes *)

Module PercentileFacts.

Import Percentile Terms.

(** What percentile computes on a non-empty sample for [p >= 0], in terms
    of the sorted sample [v]: the last element when [c >= n], otherwise a
    weighted mean of [v[f]] and [v[c]] that lies between the two. *)
Lemma percentile_segment (data : list Q) (p : Q) :
  data <> [] -> 0 <= p ->
  let v := sorted data in
  let n := Z.of_nat (List.length data) in
  let k := rank_of n p in
  let f := Qfloor k in
  let c := (f + 1)%Z in
  (0 <= f)%Z
  /\ exists r,
      percentile data p = Ok r
      /\ (((n <= c)%Z /\ r = nth (Z.to_nat (n - 1)) v 0)
          \/ ((c < n)%Z
              /\ r = nth (Z.to_nat f) v 0 * (inject_Z c - k)
                     + nth (Z.to_nat c) v 0 * (k - inject_Z f)
              /\ nth (Z.to_nat f) v 0 <= r <= nth (Z.to_nat c) v 0)).
Proof.
  intros Hne Hp v n k f c.
  assert (Hn : (1 <= n)%Z).
  { subst n. destruct data; [congruence|]. simpl List.length. lia. }
  assert (Hk : 0 <= k) by (apply percentile_rank_nonneg; assumption).
  assert (Hf : (0 <= f)%Z).
  { subst f. change 0%Z with (Qfloor 0). now apply Qfloor_resp_le. }
  split; [exact Hf|].
  assert (Hlen : Z.of_nat (List.length v) = n) by (subst v n; now rewrite sorted_length).
  unfold percentile. destruct data as [|x d]; [congruence|].
  fold v. unfold len. rewrite Hlen.
  change ((inject_Z n - 1) * p / 100) with k.
  rewrite (int_floor k Hk). fold f. fold c.
  destruct (n <=? c)%Z eqn:E.
  - apply Z.leb_le in E. eexists. split.
    + apply index_last. subst v. intros H.
      apply (f_equal (@List.length Q)) in H. rewrite sorted_length in H. discriminate.
    + left. split; [exact E|]. now rewrite Hlen.
  - apply Z.leb_gt in E.
    rewrite (index_nonneg v f) by lia. rewrite (index_nonneg v c) by (subst c; lia).
    cbn [Py.bind]. eexists. split; [reflexivity|]. right.
    split; [exact E|]. split; [reflexivity|].
    assert (Hfk : inject_Z f <= k) by apply Qfloor_le.
    assert (Hkc : k < inject_Z c).
    { subst c f. apply Qlt_floor. }
    assert (Hvv : nth (Z.to_nat f) v 0 <= nth (Z.to_nat c) v 0).
    { apply Sorted_nth_le; [apply sorted_Sorted|]. subst c. lia. }
    assert (Hc : inject_Z c == inject_Z f + 1).
    { subst c. rewrite inject_Z_plus. reflexivity. }
    set (a := nth (Z.to_nat f) v 0) in *. set (b := nth (Z.to_nat c) v 0) in *.
    split; nra.
Qed.

Lemma nth_sorted_In (data : list Q) (i : Z) :
  (0 <= i < Z.of_nat (List.length data))%Z ->
  In (nth (Z.to_nat i) (sorted data) 0) data.
Proof.
  intros Hi. apply sorted_In, nth_In. rewrite sorted_length. lia.
Qed.

Lemma In_sorted_nth (data : list Q) (x : Q) :
  In x data ->
  exists i, (i < List.length data)%nat /\ nth i (sorted data) 0 = x.
Proof.
  intros Hx. apply sorted_In in Hx.
  destruct (In_nth _ _ 0 Hx) as (i & Hi & Hn).
  rewrite sorted_length in Hi. eauto.
Qed.

End PercentileFacts.

(** X1.  percentile returns a value for every sample and every percent
    [p >= 0]; a negative percent can index before the start of the
    sample and raise IndexError. *)
Theorem percentile_returns (data : list Q) (p : Q) :
  0 <= p ->
  (exists r, Percentile.percentile data p = Ok r)
  /\ Percentile.percentile [10; 20; 30; 40] (-250) = Raise IndexError.
Proof.
  intros Hp. split; [|reflexivity].
  destruct data as [|x d]; [now exists 0|].
  destruct (PercentileFacts.percentile_segment (x :: d) p) as (_ & r & Hr & _);
    [discriminate|assumption|eauto].
Qed.

Lemma percentile_returns_witness :
  (exists r, Percentile.percentile [3; 1; 2] 50 = Ok r)
  /\ Percentile.percentile [10; 20; 30; 40] (-250) = Raise IndexError.
Proof.
  apply percentile_returns. discriminate.
Defined.


(** X3.  Percentile 0 is the minimum of the sample and every percentile
    from 100 on is its maximum. *)
Theorem percentile_extremes (data : list Q) (p lo hi : Q) :
  100 <= p ->
  Py.min data = Ok lo -> Py.max data = Ok hi ->
  (exists r, Percentile.percentile data 0 = Ok r /\ r == lo)
  /\ (exists r, Percentile.percentile data p = Ok r /\ r == hi).
Proof.
  intros Hp Hlo Hhi.
  destruct data as [|x d]; [discriminate Hlo|].
  apply min_spec in Hlo as (Hlo_in & Hlo). apply max_spec in Hhi as (Hhi_in & Hhi).
  pose proof (sorted_Sorted (x :: d)) as Hsorted.
  pose proof (PercentileFacts.nth_sorted_In (x :: d)) as Hin.
  set (n := Z.of_nat (List.length (x :: d))) in *.
  assert (Hn : (1 <= n)%Z) by (subst n; simpl List.length; lia).
  assert (Hlen : List.length (sorted (x :: d)) = Z.to_nat n).
  { rewrite sorted_length. subst n. lia. }
  split.
  - destruct (PercentileFacts.percentile_segment (x :: d) 0)
      as (Hf & r & Hr & Hcases); [discriminate|discriminate|].
    fold n in Hcases, Hf.
    assert (Hk : Terms.rank_of n 0 == 0).
    { unfold Terms.rank_of. field. }
    assert (Hf0 : Qfloor (Terms.rank_of n 0) = 0%Z).
    { rewrite Hk. reflexivity. }
    rewrite Hf0 in Hcases. exists r. split; [exact Hr|].
    assert (Hr0 : r == nth 0 (sorted (x :: d)) 0).
    { destruct Hcases as [(Hc & ->) | (Hc & -> & _)].
      - replace (n - 1)%Z with 0%Z by lia. reflexivity.
      - rewrite Hk. change (inject_Z (0 + 1)) with 1. change (inject_Z 0) with 0.
        change (Z.to_nat 0) with 0%nat. ring. }
    rewrite Hr0. apply Qle_antisym.
    + destruct (PercentileFacts.In_sorted_nth _ _ Hlo_in) as (i & Hi & <-).
      apply Sorted_nth_le; [assumption|]. rewrite Hlen. lia.
    + apply Hlo. apply (Hin 0%Z). lia.
  - destruct (PercentileFacts.percentile_segment (x :: d) p)
      as (Hf & r & Hr & Hcases); [discriminate|lra|].
    fold n in Hcases, Hf.
    assert (Hk : inject_Z (n - 1) <= Terms.rank_of n p).
    { unfold Terms.rank_of.
      assert (H1 : inject_Z 1 <= inject_Z n) by (now rewrite <- Zle_Qle).
      change (inject_Z 1) with 1 in H1.
      unfold Z.sub. rewrite inject_Z_plus. change (inject_Z (- (1))) with (- (1)).
      apply Qle_shift_div_l; [reflexivity|]. nra. }
    assert (Hfl : (n - 1 <= Qfloor (Terms.rank_of n p))%Z).
    { rewrite <- (Qfloor_Z (n - 1)). now apply Qfloor_resp_le. }
    exists r. split; [exact Hr|].
    destruct Hcases as [(Hc & ->) | (Hc & _)]; [|lia].
    apply Qle_antisym.
    + apply Hhi. apply (Hin (n - 1)%Z). lia.
    + destruct (PercentileFacts.In_sorted_nth _ _ Hhi_in) as (i & Hi & <-).
      apply Sorted_nth_le; [assumption|]. rewrite Hlen. lia.
Qed.

Lemma percentile_extremes_witness :
  (exists r, Percentile.percentile [40; 10; 30; 20] 0 = Ok r /\ r == 10)
  /\ (exists r, Percentile.percentile [40; 10; 30; 20] 100 = Ok r /\ r == 40).
Proof.
  apply percentile_extremes.
  - discriminate.
  - reflexivity.
  - reflexivity.
Defined.


(** ** Sums and means *)

Lemma fold_left_Qplus_acc (l : list Q) (a : Q) :
  fold_left Qplus l a == a + fold_left Qplus l 0.
Proof.
  revert a. induction l as [|x l IH]; intros a; simpl.
  - ring.
  - rewrite (IH (a + x)), (IH (0 + x)). ring.
Qed.

Lemma sum_cons (x : Q) (l : list Q) : sum (x :: l) == x + sum l.
Proof.
  unfold sum. simpl. rewrite fold_left_Qplus_acc. ring.
Qed.

Lemma len_cons {A} (x : A) (l : list A) : len (x :: l) == 1 + len l.
Proof.
  unfold len. change (List.length (x :: l)) with (S (List.length l)).
  rewrite Nat2Z.inj_succ. unfold Z.succ. rewrite inject_Z_plus. ring.
Qed.

Lemma len_nonneg {A} (l : list A) : 0 <= len l.
Proof.
  unfold len. change 0 with (inject_Z 0). rewrite <- Zle_Qle. lia.
Qed.

Lemma sum_bounds (l : list Q) (lo hi : Q) :
  (forall x, In x l -> lo <= x <= hi) ->
  len l * lo <= sum l <= len l * hi.
Proof.
  induction l as [|x l IH]; intros H.
  - change (len (@nil Q)) with 0. change (sum []) with 0. lra.
  - rewrite sum_cons, len_cons.
    destruct (H x (or_introl eq_refl)) as [H1 H2].
    destruct IH as [H3 H4]; [intros y Hy; apply H; now right|].
    lra.
Qed.

(** The mean of a non-empty sample lies between two bounds of its
    elements. *)
Lemma mean_bounds (l : list Q) (lo hi m : Q) :
  (forall x, In x l -> lo <= x <= hi) ->
  mean l = Ok m -> lo <= m <= hi.
Proof.
  intros H Hm. destruct l as [|x l]; [discriminate|].
  injection Hm as <-.
  pose proof (len_pos x l) as Hpos.
  destruct (sum_bounds (x :: l) lo hi H) as [H1 H2].
  split.
  - apply Qle_shift_div_l; [assumption|]. lra.
  - apply Qle_shift_div_r; [assumption|]. lra.
Qed.

Lemma median_bounds (l : list Q) (lo hi m : Q) :
  (forall x, In x l -> lo <= x <= hi) ->
  median l = Ok m -> lo <= m <= hi.
Proof.
  intros H. unfold median.
  assert (Hnth : forall i, (i < List.length (sorted l))%nat ->
                   lo <= nth i (sorted l) 0 <= hi).
  { intros i Hi. apply H, sorted_In, nth_In, Hi. }
  destruct (List.length (sorted l)) as [|n] eqn:En; [discriminate|].
  assert (Hhalf : (S n / 2 < S n)%nat) by (apply Nat.div_lt; lia).
  destruct (Nat.even (S n)); intros Hm; injection Hm as <-;
    change (fst (Nat.divmod n 1 0 0)) with (S n / 2)%nat.
  - destruct (Hnth (S n / 2 - 1)%nat) as [H1 H2]; [lia|].
    destruct (Hnth (S n / 2)%nat) as [H3 H4]; [lia|].
    split.
    + apply Qle_shift_div_l; [reflexivity|]. lra.
    + apply Qle_shift_div_r; [reflexivity|]. lra.
  - apply Hnth. lia.
Qed.

Lemma filter_length_le {A} (f : A -> bool) (l : list A) :
  (List.length (filter f l) <= List.length l)%nat.
Proof.
  induction l as [|x l IH]; simpl; [lia|].
  destruct (f x); simpl; lia.
Qed.

Lemma filter_length_split {A} (f : A -> bool) (l : list A) :
  (List.length (filter f l) + List.length (filter (fun x => negb (f x)) l)
   = List.length l)%nat.
Proof.
  induction l as [|x l IH]; simpl; [lia|].
  destruct (f x); simpl; lia.
Qed.

Lemma len_le {A B} (l : list A) (l' : list B) :
  (List.length l <= List.length l')%nat -> len l <= len l'.
Proof.
  intros H. unfold len. rewrite <- Zle_Qle. lia.
Qed.

(** ** analyze_performance: what every report satisfies *)

Lemma latency_of_ordered (durations : list Q) (l : Aggregation.latency) :
  Expected.latency_of durations = Ok l ->
  Aggregation.min_ms l <= Aggregation.avg_ms l <= Aggregation.max_ms l
  /\ Aggregation.min_ms l <= Aggregation.median_ms l <= Aggregation.max_ms l
  /\ Aggregation.min_ms l <= Aggregation.p95_ms l <= Aggregation.max_ms l.
Proof.
  unfold Expected.latency_of.
  destruct durations as [|x d].
  { intros [= <-]. simpl. repeat split; apply Qle_refl. }
  intros H.
  apply bind_Ok_inv in H as (avg & Havg & H).
  apply bind_Ok_inv in H as (md & Hmd & H).
  apply bind_Ok_inv in H as (lo & Hlo & H).
  apply bind_Ok_inv in H as (hi & Hhi & H).
  apply bind_Ok_inv in H as (p95 & Hp95 & H).
  injection H as <-. cbn [Aggregation.min_ms Aggregation.avg_ms Aggregation.max_ms
                          Aggregation.median_ms Aggregation.p95_ms].
  apply min_spec in Hlo as (_ & Hlo). apply max_spec in Hhi as (_ & Hhi).
  assert (Hall : forall y, In y (x :: d) -> lo <= y <= hi) by (split; auto).
  split; [now apply (mean_bounds (x :: d))|].
  split; [now apply (median_bounds (x :: d))|].
  pose proof (p95_index_in_range (x :: d) ltac:(discriminate)) as Hi.
  rewrite (index_nonneg _ _ Hi) in Hp95. injection Hp95 as <-.
  apply Hall, sorted_In, nth_In. lia.
Qed.

(** X5.  analyze_performance returns a report for every batch and every
    elapsed time; in it successes and failures add up to the total, the
    success rate is a percentage between 0 and 100 and the throughput is
    not negative. *)
Theorem analyze_performance_report_invariants
    (results : list request_result) (total_duration : Q) :
  exists m failed,
    Aggregation.analyze_performance results total_duration = Ok m
    /\ Aggregation.total_requests m = List.length results
    /\ Aggregation.failed_requests m = Some failed
    /\ (Aggregation.successful_requests m + failed = Aggregation.total_requests m)%nat
    /\ 0 <= Aggregation.success_rate m <= 100
    /\ 0 <= Aggregation.throughput_req_s m.
Proof.
  destruct (AggregationFacts.analyze_performance_returns results total_duration)
    as [m Hm].
  exists m, (List.length (filter (fun r => negb (success r)) results)).
  split; [exact Hm|].
  rewrite AggregationFacts.analyze_performance_unfold in Hm.
  apply bind_Ok_inv in Hm as (lat & Hlat & Hm).
  apply bind_Ok_inv in Hm as (sr & Hsr & Hm).
  apply bind_Ok_inv in Hm as (th & Hth & Hm).
  injection Hm as <-.
  cbn [Aggregation.total_requests Aggregation.failed_requests
       Aggregation.successful_requests Aggregation.success_rate
       Aggregation.throughput_req_s].
  split; [reflexivity|]. split; [reflexivity|].
  split; [apply filter_length_split|].
  pose proof (len_nonneg (filter success results)) as Hs0.
  pose proof (len_le (filter success results) results
                (filter_length_le success results)) as Hsle.
  split.
  - destruct results as [|r rs]; [injection Hsr as <-; lra|].
    pose proof (len_pos r rs) as Hpos.
    set (s := len (filter success (r :: rs))) in *. set (t := len (r :: rs)) in *.
    rewrite truediv_Ok in Hsr by (subst t; apply len_cons_nonzero).
    cbn [Py.bind] in Hsr. injection Hsr as <-.
    assert (0 <= s / t) by (apply Qle_shift_div_l; lra).
    assert (s / t <= 1) by (apply Qle_shift_div_r; lra).
    set (q := s / t) in *. lra.
  - destruct (Qlt_bool 0 total_duration) eqn:E; [|injection Hth as <-; lra].
    apply Qlt_bool_iff in E. rewrite truediv_Ok in Hth by lra.
    injection Hth as <-. apply Qle_shift_div_l; lra.
Qed.

(** X6.  In every report of analyze_performance the mean, the median and
    the p95 latency lie between the minimum and the maximum latency. *)
Theorem analyze_performance_latency_ordered
    (results : list request_result) (total_duration : Q) :
  exists m,
    Aggregation.analyze_performance results total_duration = Ok m
    /\ let l := Aggregation.latency_stats m in
       Aggregation.min_ms l <= Aggregation.avg_ms l <= Aggregation.max_ms l
       /\ Aggregation.min_ms l <= Aggregation.median_ms l <= Aggregation.max_ms l
       /\ Aggregation.min_ms l <= Aggregation.p95_ms l <= Aggregation.max_ms l.
Proof.
  destruct (AggregationFacts.analyze_performance_returns results total_duration)
    as [m Hm].
  exists m. split; [exact Hm|].
  apply AggregationFacts.analyze_performance_fields in Hm as (Hlat & _).
  now apply latency_of_ordered in Hlat.
Qed.

(** ** run_real_network_load_test: when the metrics block returns *)

(** X7.  The metrics block of run_real_network_load_test returns exactly
    when the batch is not empty and the elapsed time is not zero;
    otherwise it raises ZeroDivisionError. *)
Theorem load_test_metrics_returns_iff
    (sqrt : Q -> Q) (np_percentile : list Q -> Q -> Q)
    (results : list request_result) (total_duration : Q) :
  ((exists m,
       Aggregation.load_test_metrics sqrt np_percentile results total_duration = Ok m)
   <-> results <> [] /\ ~ total_duration == 0)
  /\ (results = [] \/ total_duration == 0 ->
      Aggregation.load_test_metrics sqrt np_percentile results total_duration
      = Raise ZeroDivisionError).
Proof.
  assert (Hraise : results = [] \/ total_duration == 0 ->
            Aggregation.load_test_metrics sqrt np_percentile results total_duration
            = Raise ZeroDivisionError).
  { intros H. unfold Aggregation.load_test_metrics.
    destruct results as [|r rs].
    - now rewrite truediv_zero by reflexivity.
    - destruct H as [H|H]; [discriminate|].
      rewrite truediv_Ok by apply len_cons_nonzero. cbn [Py.bind].
      now rewrite (truediv_zero _ _ H). }
  split; [|exact Hraise].
  split.
  - intros [m Hm]. split.
    + intros ->. rewrite Hraise in Hm by now left. discriminate.
    + intros Hz. rewrite Hraise in Hm by now right. discriminate.
  - intros [Hne Htd]. now apply AggregationFacts.load_test_metrics_returns.
Qed.

(** X8.  In every summary of run_real_network_load_test the successful
    requests are at most the total, the success rate is between 0 and 1,
    and the mean and the median latency lie between the minimum and the
    maximum. *)
Theorem load_test_metrics_invariants
    (sqrt : Q -> Q) (np_percentile : list Q -> Q -> Q)
    (results : list request_result) (total_duration : Q) (m : Aggregation.metrics) :
  Aggregation.load_test_metrics sqrt np_percentile results total_duration = Ok m ->
  (Aggregation.successful_requests m <= Aggregation.total_requests m)%nat
  /\ 0 <= Aggregation.success_rate m <= 1
  /\ let l := Aggregation.latency_stats m in
     Aggregation.min_ms l <= Aggregation.avg_ms l <= Aggregation.max_ms l
     /\ Aggregation.min_ms l <= Aggregation.median_ms l <= Aggregation.max_ms l.
Proof.
  unfold Aggregation.load_test_metrics. intros H.
  set (s := inject_Z (Z.of_nat (List.length (filter success results)))) in *.
  apply bind_Ok_inv in H as (sr & Hsr & H).
  apply bind_Ok_inv in H as (th & Hth & H).
  apply bind_Ok_inv in H as (mn & Hmn & H).
  apply bind_Ok_inv in H as (md & Hmd & H).
  apply bind_Ok_inv in H as (sd & Hsd & H).
  apply bind_Ok_inv in H as (lo & Hlo & H).
  apply bind_Ok_inv in H as (hi & Hhi & H).
  injection H as <-.
  cbn [Aggregation.successful_requests Aggregation.total_requests
       Aggregation.success_rate Aggregation.latency_stats Aggregation.min_ms
       Aggregation.avg_ms Aggregation.max_ms Aggregation.median_ms].
  split; [apply filter_length_le|].
  split.
  - destruct results as [|r rs]; [discriminate Hsr|].
    set (t := len (r :: rs)) in *.
    assert (Hpos : 0 < t) by apply len_pos.
    rewrite truediv_Ok in Hsr by (subst t; apply len_cons_nonzero).
    injection Hsr as <-.
    assert (Hs0 : 0 <= s) by apply (len_nonneg (filter success (r :: rs))).
    assert (Hst : s <= t)
      by apply (len_le (filter success (r :: rs)) (r :: rs)), filter_length_le.
    split; [apply Qle_shift_div_l; lra|apply Qle_shift_div_r; lra].
  - apply min_spec in Hlo as (_ & Hlo). apply max_spec in Hhi as (_ & Hhi).
    assert (Hall : forall y, In y (map duration_ms results) -> lo <= y <= hi)
      by (split; auto).
    split; [now apply (mean_bounds _ _ _ _ Hall)|now apply (median_bounds _ _ _ _ Hall)].
Qed.

Lemma load_test_metrics_invariants_witness :
  exists m,
    Aggregation.load_test_metrics Qsqrt (fun _ _ => 0)
      [Samples.attempt_ok; Samples.attempt_failed] 2 = Ok m
    /\ (Aggregation.successful_requests m <= Aggregation.total_requests m)%nat
    /\ 0 <= Aggregation.success_rate m <= 1.
Proof.
  eexists. split; [reflexivity|].
  destruct (load_test_metrics_invariants Qsqrt (fun _ _ => 0)
              [Samples.attempt_ok; Samples.attempt_failed] 2 _ eq_refl)
    as (H1 & H2 & _).
  split; assumption.
Defined.

Lemma load_test_metrics_returns_iff_witness :
  Aggregation.load_test_metrics Qsqrt (fun _ _ => 0) [Samples.attempt_ok] 0
  = Raise ZeroDivisionError.
Proof.
  apply (proj2 (load_test_metrics_returns_iff Qsqrt (fun _ _ => 0)
                  [Samples.attempt_ok] 0)).
  right. reflexivity.
Defined.

(** ** Requests through the simulator only move time forward *)

Module SteadyFacts.

Import Eff Simulator LoadDriver Expected Terms.

Lemma later_refl (w : world) : later w w.
Proof.
  repeat split; try apply Qle_refl; auto.
  exists []. now rewrite app_nil_r.
Qed.

Lemma later_trans (w1 w2 w3 : world) : later w1 w2 -> later w2 w3 -> later w1 w3.
Proof.
  intros (Hs1 & Hn1 & Hc1 & e1 & Ht1 & Hp1) (Hs2 & Hn2 & Hc2 & e2 & Ht2 & Hp2).
  split; [eapply SimulatorFacts.same_setup_trans; eassumption|].
  split; [eapply Qle_trans; eassumption|].
  split; [lia|].
  exists (e1 ++ e2). split.
  - now rewrite Ht2, Ht1, app_assoc.
  - now apply Forall_app.
Qed.

Lemma later_causal (w w' : world) : later w w' -> causal_server w -> causal_server w'.
Proof.
  intros ((_ & _ & _ & _ & Hsrv) & _) H i. rewrite Hsrv. apply H.
Qed.

Lemma steady_ret {A} (a : A) : steady (ret a).
Proof. intros w _. apply later_refl. Qed.

Lemma steady_raise {A} (e : exn) : steady (@raise world A e).
Proof. intros w _. apply later_refl. Qed.

Lemma steady_lift {A} (r : result A) : steady (lift r).
Proof. intros w _. apply later_refl. Qed.

Lemma steady_get : steady (@get world).
Proof. intros w _. apply later_refl. Qed.

Lemma steady_time : steady time.
Proof. intros w _. apply later_refl. Qed.

Lemma steady_bind {A B} (m : Sim A) (k : A -> Sim B) :
  steady m -> (forall a, steady (k a)) -> steady (bind m k).
Proof.
  intros Hm Hk w Hw. unfold bind.
  pose proof (Hm w Hw) as H1. destruct (m w) as [[a|e] w1]; cbn [snd] in *.
  - eapply later_trans; [exact H1|]. apply Hk. eapply later_causal; eassumption.
  - exact H1.
Qed.

Lemma steady_try_except {A} (body : Sim A) (handler : exn -> Sim A) :
  steady body -> (forall e, steady (handler e)) -> steady (try_except body handler).
Proof.
  intros Hm Hk w Hw. unfold try_except.
  pose proof (Hm w Hw) as H1. destruct (body w) as [[a|e] w1]; cbn [snd] in *.
  - exact H1.
  - eapply later_trans; [exact H1|]. apply Hk. eapply later_causal; eassumption.
Qed.

Lemma steady_sleep (d : Q) : 0 < d -> steady (sleep d).
Proof.
  intros Hd w _. unfold sleep, modify. cbn [snd].
  split; [repeat split|]. cbn [now calls trace].
  split; [lra|]. split; [lia|].
  exists [Sleep d]. split; [reflexivity|]. repeat constructor. exact Hd.
Qed.

(** The guard [if delay > 0: time.sleep(delay)]. *)
Lemma steady_sleep_if_positive (d : Q) : steady (when (Qlt_bool 0 d) (sleep d)).
Proof.
  unfold when. destruct (Qlt_bool 0 d) eqn:E.
  - apply steady_sleep. now apply Qlt_bool_iff.
  - apply steady_ret.
Qed.

Lemma steady_next_sample : steady next_sample.
Proof.
  intros w _. unfold next_sample. cbn [snd].
  split; [repeat split|]. cbn [now calls trace].
  split; [apply Qle_refl|]. split; [lia|].
  exists []. now rewrite app_nil_r.
Qed.

Lemma steady_normalvariate (mu sigma : Q) : steady (normalvariate mu sigma).
Proof.
  apply steady_bind; [apply steady_next_sample|intros; apply steady_ret].
Qed.

Lemma steady_request_func : steady request_func.
Proof.
  intros w Hw. unfold request_func.
  pose proof (Hw (calls w)) as Hpos.
  destruct (server w (calls w)) as [elapsed outcome]. cbn [fst snd] in *.
  split; [repeat split|]. cbn [now calls trace].
  split; [lra|]. split; [lia|].
  exists [Request]. split; [reflexivity|]. repeat constructor.
Qed.

Ltac steady_step :=
  lazymatch goal with
  | |- steady (bind _ _) => apply steady_bind; [|intros ?]
  | |- steady (try_except _ _) => apply steady_try_except; [|intros ?]
  | |- steady (ret _) => apply steady_ret
  | |- steady (raise _) => apply steady_raise
  | |- steady (lift _) => apply steady_lift
  | |- steady get => apply steady_get
  | |- steady time => apply steady_time
  | |- steady (when (Qlt_bool 0 _) (sleep _)) => apply steady_sleep_if_positive
  | |- steady (normalvariate _ _) => apply steady_normalvariate
  | |- steady next_sample => apply steady_next_sample
  | |- steady random => apply steady_next_sample
  | |- steady request_func => apply steady_request_func
  | |- steady (match ?x with _ => _ end) => destruct x
  | |- steady (if ?x then _ else _) => destruct x
  | |- steady (let _ := _ in _) => cbv zeta
  end.

Ltac steady := repeat steady_step.

Lemma steady_simulate_server_processing : steady simulate_server_processing.
Proof. unfold simulate_server_processing. steady. Qed.

Lemma steady_simulate_network_delay : steady simulate_network_delay.
Proof. unfold simulate_network_delay. steady. Qed.

Lemma steady_simulate_packet_loss : steady simulate_packet_loss.
Proof. unfold simulate_packet_loss. steady. Qed.

Lemma steady_simulate_bandwidth_limit (n : nat) : steady (simulate_bandwidth_limit n).
Proof. unfold simulate_bandwidth_limit. steady. Qed.

Lemma steady_simulate_real_request : steady simulate_real_request.
Proof.
  unfold simulate_real_request. steady.
  - apply steady_simulate_packet_loss.
  - apply steady_simulate_network_delay.
  - apply steady_simulate_bandwidth_limit.
Qed.

Lemma steady_simulate_real_world_request : steady simulate_real_world_request.
Proof.
  unfold simulate_real_world_request. steady.
  - apply steady_simulate_server_processing.
  - apply steady_simulate_real_request.
Qed.

Lemma steady_execute_real_network_request : steady execute_real_network_request.
Proof.
  unfold execute_real_network_request. steady.
  apply steady_simulate_real_world_request.
Qed.

End SteadyFacts.

(** X9.  With a server that never answers in negative time, a request
    through the simulator leaves the applied profiles, the sample stream
    and the server as they were, never moves the clock back, and adds to
    the trace only requests and sleeps of positive length. *)
Theorem request_moves_time_forward (w : Simulator.world) :
  Terms.causal_server w ->
  Terms.later w (snd (Simulator.simulate_real_world_request w)).
Proof. apply SteadyFacts.steady_simulate_real_world_request. Qed.

Lemma request_moves_time_forward_witness :
  Terms.later Samples.fresh_world
    (snd (Simulator.simulate_real_world_request Samples.fresh_world)).
Proof.
  apply request_moves_time_forward. intros i. simpl. apply Qle_refl.
Defined.

(** X10.  With such a server the duration_ms of an attempt is never
    negative, whether the attempt succeeded or failed. *)
Theorem attempt_duration_nonnegative
    (w w' : Simulator.world) (r : request_result) :
  Terms.causal_server w ->
  LoadDriver.execute_real_network_request w = (Ok r, w') ->
  0 <= duration_ms r.
Proof.
  intros Hw. rewrite LoadDriverFacts.execute_real_network_request_spec.
  pose proof (SteadyFacts.steady_simulate_real_world_request w Hw)
    as (_ & Hnow & _).
  destruct (Simulator.simulate_real_world_request w) as [[resp|e] w1];
    cbn [snd] in Hnow; intros [= <- <-]; cbn [duration_ms]; lra.
Qed.

Lemma attempt_duration_nonnegative_witness :
  exists r w',
    LoadDriver.execute_real_network_request Samples.lossy_world = (Ok r, w')
    /\ 0 <= duration_ms r.
Proof.
  do 2 eexists. split; [vm_compute; reflexivity|].
  eapply (attempt_duration_nonnegative Samples.lossy_world).
  - intros i. simpl. apply Qle_refl.
  - vm_compute. reflexivity.
Defined.

(** ** One call per attempt *)

Module OutcomeFacts.

Import Eff Simulator Expected.

(** What the network part of a request can do: fail fast with the packet
    loss error, or call the request function once and hand on what it
    returned or raised (or, with a bandwidth of 0, the ZeroDivisionError of
    the bandwidth delay). *)
Lemma simulate_real_request_outcomes (w : world) :
  let served := snd (server w (calls w)) in
  let r := fst (simulate_real_request w) in
  let w' := snd (simulate_real_request w) in
  (r = Raise (ConnectionError packet_loss_msg)
   /\ calls w' = calls w /\ trace w' = trace w /\ active_profile w <> None)
  \/ (calls w' = S (calls w)
      /\ (r = served
          \/ (r = Raise ZeroDivisionError
              /\ exists p, active_profile w = Some p
                           /\ bandwidth_limit_mbps p * 1000000 == 0))).
Proof.
  unfold simulate_real_request, simulate_packet_loss, simulate_network_delay,
    simulate_bandwidth_limit, request_func, truediv.
  destruct (server w (calls w)) as [elapsed outcome] eqn:Hs.
  destruct (active_profile w) as [p|] eqn:Hp;
    repeat (progress (SimulatorFacts.run; rewrite ?Hp, ?Hs)).
  - destruct (Qlt_bool (rng w (rng_pos w)) (packet_loss_rate p));
      repeat (progress (SimulatorFacts.run; rewrite ?Hp, ?Hs)).
    + left. cbn [fst snd]. repeat split. discriminate.
    + right.
      destruct outcome as [resp|e];
        repeat (repeat (progress (SimulatorFacts.run; rewrite ?Hp, ?Hs));
                match goal with
                | |- context [match resp_content_len ?r with _ => _ end] =>
                  destruct (resp_content_len r)
                | |- context [Qeq_bool ?a 0] => destruct (Qeq_bool a 0) eqn:Eb
                | |- context [if Qlt_bool ?a ?b then _ else _] =>
                  destruct (Qlt_bool a b)
                end);
        repeat (progress (SimulatorFacts.run; rewrite ?Hp, ?Hs));
        cbn [fst snd]; (split; [reflexivity|]);
        first [ left; reflexivity
              | right; split; [reflexivity|]; exists p; split;
                [reflexivity|now apply Qeq_bool_iff] ].
  - right. cbn. auto.
Qed.

End OutcomeFacts.

(** At most one call of the request function per request. *)
Lemma one_call_per_request_lemma (w : Simulator.world) :
  let served := snd (Simulator.server w (Simulator.calls w)) in
  let r := fst (Simulator.simulate_real_world_request w) in
  let w' := snd (Simulator.simulate_real_world_request w) in
  (r = Raise (ConnectionError Simulator.packet_loss_msg)
   /\ Simulator.calls w' = Simulator.calls w
   /\ Simulator.active_profile w <> None)
  \/ (Simulator.calls w' = S (Simulator.calls w)
      /\ (r = served
          \/ (r = Raise ZeroDivisionError
              /\ exists p, Simulator.active_profile w = Some p
                   /\ Simulator.bandwidth_limit_mbps p * 1000000 == 0))).
Proof.
  intros served r w'. subst served r w'.
  unfold Simulator.simulate_real_world_request, Eff.bind.
  destruct (SimulatorFacts.simulate_server_processing_spec w)
    as (w1 & -> & (Hprof & _ & _ & _ & Hsrv) & Hcalls & _).
  pose proof (OutcomeFacts.simulate_real_request_outcomes w1) as H.
  cbv zeta in H. rewrite Hsrv, Hcalls, Hprof in H.
  destruct H as [(Hr & Hc & _ & Hp) | (Hc & Hr)]; [left|right]; auto.
Qed.

(** X11.  A request through the simulator calls the request function at
    most once: either it fails fast with the packet-loss error without
    calling it (only possible with an active network profile), or it calls
    it exactly once and returns what the call returned or raises what it
    raised.  The only other exception the simulator can add is the
    ZeroDivisionError of a profile whose bandwidth is 0. *)
Theorem one_call_per_request (w : Simulator.world) :
  let served := snd (Simulator.server w (Simulator.calls w)) in
  let r := fst (Simulator.simulate_real_world_request w) in
  let w' := snd (Simulator.simulate_real_world_request w) in
  (r = Raise (ConnectionError Simulator.packet_loss_msg)
   /\ Simulator.calls w' = Simulator.calls w
   /\ Simulator.active_profile w <> None)
  \/ (Simulator.calls w' = S (Simulator.calls w)
      /\ (r = served
          \/ (r = Raise ZeroDivisionError
              /\ exists p, Simulator.active_profile w = Some p
                   /\ Simulator.bandwidth_limit_mbps p * 1000000 == 0))).
Proof. exact (one_call_per_request_lemma w). Qed.

(** ** The scenario catalog *)

Module CatalogFacts.

Import Eff Simulator Catalog.

Lemma lookup_keys {V} (name : string) (d : list (string * V)) :
  In name (keys d) <-> exists v, lookup name d = Some v.
Proof.
  induction d as [|[k v] d IH]; simpl.
  - split; [tauto|intros [v H]; discriminate].
  - destruct (String.eqb name k) eqn:E.
    + apply String.eqb_eq in E. subst. split; eauto.
    + apply String.eqb_neq in E. rewrite IH. split.
      * intros [H|H]; [congruence|exact H].
      * auto.
Qed.

(** Every scenario of the table names a network profile and a load profile
    that exist, and the network profile has a positive bandwidth. *)
Lemma scenarios_resolve (name : string) (sc : scenario) :
  lookup name scenarios = Some sc ->
  exists p l,
    lookup (sc_network_profile sc) profiles = Some p
    /\ lookup (sc_server_load sc) load_profiles = Some l
    /\ 0 < bandwidth_limit_mbps p.
Proof.
  unfold scenarios. cbn [lookup].
  repeat match goal with
         | |- context [String.eqb name ?k] => destruct (String.eqb name k)
         end;
    intros [= <-]; do 2 eexists; (split; [reflexivity|split; reflexivity]).
Qed.

Lemma apply_real_world_scenario_spec (name : string) (w : world) :
  match lookup name scenarios with
  | Some sc =>
    exists p l,
      lookup (sc_network_profile sc) profiles = Some p
      /\ lookup (sc_server_load sc) load_profiles = Some l
      /\ 0 < bandwidth_limit_mbps p
      /\ apply_real_world_scenario name w =
         (Ok (mk_activation name sc p l),
          mk_world (Some p) (Some l) (Some name) (now w) (rng w) (rng_pos w)
            (server w) (calls w) (trace w))
  | None =>
    apply_real_world_scenario name w
    = (Raise (ValueError ("Unknown scenario: " ++ name)), w)
  end.
Proof.
  unfold apply_real_world_scenario.
  destruct (lookup name scenarios) as [sc|] eqn:Hsc; [|reflexivity].
  destruct (scenarios_resolve name sc Hsc) as (p & l & Hp & Hl & Hb).
  exists p, l. repeat (split; [assumption|]).
  unfold apply_network_profile, apply_load_profile. rewrite Hp, Hl. reflexivity.
Qed.

End CatalogFacts.

(** X12.  apply_real_world_scenario succeeds exactly for the names that
    get_scenario_list returns: for those it activates the network profile
    and the load profile that the scenario names and records the scenario,
    leaving clock, samples, server and trace alone; for any other name it
    raises ValueError and changes nothing. *)
Theorem apply_scenario_succeeds_iff_listed (name : string) (w : Simulator.world) :
  (In name Catalog.get_scenario_list ->
   exists sc p l,
     Simulator.lookup name Simulator.scenarios = Some sc
     /\ Simulator.lookup (Simulator.sc_network_profile sc) Simulator.profiles = Some p
     /\ Simulator.lookup (Simulator.sc_server_load sc) Simulator.load_profiles = Some l
     /\ Simulator.apply_real_world_scenario name w =
        (Ok (Simulator.mk_activation name sc p l),
         Simulator.mk_world (Some p) (Some l) (Some name) (Simulator.now w)
           (Simulator.rng w) (Simulator.rng_pos w) (Simulator.server w)
           (Simulator.calls w) (Simulator.trace w)))
  /\ (~ In name Catalog.get_scenario_list ->
      Simulator.apply_real_world_scenario name w
      = (Raise (ValueError ("Unknown scenario: " ++ name)), w)).
Proof.
  pose proof (CatalogFacts.apply_real_world_scenario_spec name w) as H.
  unfold Catalog.get_scenario_list. rewrite CatalogFacts.lookup_keys.
  destruct (Simulator.lookup name Simulator.scenarios) as [sc|].
  - destruct H as (p & l & Hp & Hl & _ & Happly). split.
    + intros _. exists sc, p, l. auto.
    + intros Hn. exfalso. apply Hn. eauto.
  - split; [intros [v Hv]; discriminate|intros _; exact H].
Qed.

Lemma apply_scenario_succeeds_iff_listed_witness :
  Simulator.apply_real_world_scenario "no_such_scenario" Samples.fresh_world
  = (Raise (ValueError "Unknown scenario: no_such_scenario"), Samples.fresh_world).
Proof.
  apply (proj2 (apply_scenario_succeeds_iff_listed "no_such_scenario" Samples.fresh_world)).
  vm_compute. intuition discriminate.
Defined.

(** X13.  Applying a scenario is idempotent: applying the same scenario
    again returns the same activation record and leaves the world as the
    first application left it. *)
Theorem apply_scenario_idempotent
    (name : string) (w w1 : Simulator.world) (a : Simulator.activation) :
  Simulator.apply_real_world_scenario name w = (Ok a, w1) ->
  Simulator.apply_real_world_scenario name w1 = (Ok a, w1).
Proof.
  intros H.
  pose proof (CatalogFacts.apply_real_world_scenario_spec name w) as H0.
  pose proof (CatalogFacts.apply_real_world_scenario_spec name w1) as H1.
  destruct (Simulator.lookup name Simulator.scenarios) as [sc|]; [|congruence].
  destruct H0 as (p & l & Hp & Hl & _ & H0).
  destruct H1 as (p' & l' & Hp' & Hl' & _ & H1).
  rewrite H in H0. injection H0 as -> ->.
  rewrite H1. cbn. congruence.
Qed.

Lemma apply_scenario_idempotent_witness :
  exists a w1,
    Simulator.apply_real_world_scenario "poor_connectivity" Samples.fresh_world = (Ok a, w1)
    /\ Simulator.apply_real_world_scenario "poor_connectivity" w1 = (Ok a, w1).
Proof.
  do 2 eexists. split; [vm_compute; reflexivity|].
  apply (apply_scenario_idempotent "poor_connectivity" Samples.fresh_world).
  vm_compute. reflexivity.
Defined.

(** X14.  After any scenario of the catalog was applied, a request through
    the simulator either fails with the packet-loss error or returns what
    the request function returned or raised: the simulator adds no other
    exception. *)
Theorem applied_scenario_adds_only_packet_loss
    (name : string) (w w1 : Simulator.world) (a : Simulator.activation) :
  Simulator.apply_real_world_scenario name w = (Ok a, w1) ->
  let r := fst (Simulator.simulate_real_world_request w1) in
  r = Raise (ConnectionError Simulator.packet_loss_msg)
  \/ r = snd (Simulator.server w1 (Simulator.calls w1)).
Proof.
  intros H r. subst r.
  pose proof (CatalogFacts.apply_real_world_scenario_spec name w) as H0.
  destruct (Simulator.lookup name Simulator.scenarios) as [sc|]; [|congruence].
  destruct H0 as (p & l & Hp & Hl & Hb & H0).
  rewrite H in H0. injection H0 as -> ->.
  destruct (one_call_per_request_lemma
              (Simulator.mk_world (Some p) (Some l) (Some name) (Simulator.now w)
                 (Simulator.rng w) (Simulator.rng_pos w) (Simulator.server w)
                 (Simulator.calls w) (Simulator.trace w)))
    as [(Hr & _) | (_ & [Hr | (_ & p' & Hp' & Hz)])]; auto.
  cbn in Hp'. injection Hp' as <-. exfalso.
  assert (0 < Simulator.bandwidth_limit_mbps p * 1000000) by nra.
  rewrite Hz in H0. now apply Qlt_irrefl in H0.
Qed.

Lemma applied_scenario_adds_only_packet_loss_witness :
  exists a w1,
    Simulator.apply_real_world_scenario "disaster_recovery" Samples.fresh_world = (Ok a, w1)
    /\ (fst (Simulator.simulate_real_world_request w1)
        = Raise (ConnectionError Simulator.packet_loss_msg)
        \/ fst (Simulator.simulate_real_world_request w1)
           = snd (Simulator.server w1 (Simulator.calls w1))).
Proof.
  do 2 eexists. split; [vm_compute; reflexivity|].
  eapply (applied_scenario_adds_only_packet_loss "disaster_recovery"
            Samples.fresh_world).
  vm_compute. reflexivity.
Defined.

(** ** Whole load tests *)

Module LoadTestFacts.

Import Eff Simulator LoadDriver TestLoad Expected Terms.

(** The request loop of run_real_network_load_test takes at least a tenth
    of a second per attempt. *)
Lemma request_loop_later (n : nat) :
  forall (acc : list request_result) (w : world),
    causal_server w ->
    exists new w',
      request_loop n acc w = (Ok (acc ++ new), w')
      /\ List.length new = n
      /\ later w w'
      /\ now w + inject_Z (Z.of_nat n) * (1 # 10) <= now w'.
Proof.
  induction n as [|n IH]; intros acc w Hw.
  - exists [], w. rewrite app_nil_r. split; [reflexivity|]. split; [reflexivity|].
    split; [apply SteadyFacts.later_refl|].
    change (inject_Z (Z.of_nat 0)) with 0. lra.
  - cbn [request_loop]. unfold bind at 1.
    pose proof (SteadyFacts.steady_execute_real_network_request w Hw) as Hl1.
    destruct (LoadDriverFacts.execute_real_network_request_returns w) as (r & w1 & He).
    rewrite He in *. cbn [snd] in Hl1.
    unfold bind at 1.
    pose proof (SteadyFacts.steady_sleep (1 # 10) ltac:(reflexivity) w1
                  (SteadyFacts.later_causal _ _ Hl1 Hw)) as Hl2.
    assert (Hnow2 : now (snd (sleep (1 # 10) w1)) = now w1 + (1 # 10)) by reflexivity.
    destruct (sleep (1 # 10) w1) as [[[]|e] w2] eqn:Hs; [|discriminate Hs].
    cbn [snd] in Hl2, Hnow2.
    pose proof (SteadyFacts.later_trans _ _ _ Hl1 Hl2) as Hl12.
    destruct (IH (acc ++ [r]) w2 (SteadyFacts.later_causal _ _ Hl12 Hw))
      as (new & w' & Hloop & Hlen & Hl3 & Hnow3).
    exists (r :: new), w'. rewrite Hloop, <- app_assoc.
    split; [reflexivity|]. split; [simpl; now rewrite Hlen|].
    split; [eapply SteadyFacts.later_trans; eassumption|].
    destruct Hl1 as (_ & Hnow1 & _).
    rewrite Nat2Z.inj_succ. unfold Z.succ. rewrite inject_Z_plus.
    change (inject_Z 1) with 1. rewrite Hnow2 in Hnow3. lra.
Qed.

Lemma test_load_loop_spec (n : nat) :
  forall (acc : list request_result) (w : world),
    exists new w',
      test_load_loop n acc w = (Ok (acc ++ new), w')
      /\ List.length new = n
      /\ calls w' = (calls w + n)%nat.
Proof.
  induction n as [|n IH]; intros acc w.
  - exists [], w. rewrite app_nil_r. repeat split. lia.
  - cbn [test_load_loop]. unfold request_func. SimulatorFacts.run.
    destruct (server w (calls w)) as [elapsed [resp|e]]; SimulatorFacts.run;
      match goal with
      | |- context [test_load_loop n (acc ++ [?r]) ?w2] =>
        destruct (IH (acc ++ [r]) w2) as (new & w' & Hloop & Hlen & Hcalls);
          exists (r :: new), w'; rewrite Hloop, <- app_assoc;
          cbn [calls] in Hcalls; (split; [reflexivity|]);
          (split; [simpl; now rewrite Hlen|lia])
      end.
Qed.

End LoadTestFacts.

(** X15.  With a server that never answers in negative time,
    run_real_network_load_test with at least one request returns a summary
    whose total_requests is the number of requests asked for; it raises
    only for num_requests = 0. *)
Theorem load_test_returns_for_positive_count
    (sqrt : Q -> Q) (np_percentile : list Q -> Q -> Q)
    (n : nat) (w : Simulator.world) :
  Terms.causal_server w ->
  exists m w',
    LoadDriver.run_real_network_load_test sqrt np_percentile (S n) w = (Ok m, w')
    /\ Aggregation.total_requests m = S n.
Proof.
  intros Hw. unfold LoadDriver.run_real_network_load_test.
  cbv [Eff.bind Simulator.time Eff.lift].
  destruct (LoadTestFacts.request_loop_later (S n) [] w Hw)
    as (new & w' & -> & Hlen & _ & Hnow).
  cbn [app].
  assert (Htd : ~ Simulator.now w' - Simulator.now w == 0).
  { rewrite Nat2Z.inj_succ in Hnow. unfold Z.succ in Hnow.
    rewrite inject_Z_plus in Hnow. change (inject_Z 1) with 1 in Hnow.
    pose proof (len_nonneg (repeat tt n)) as Hn. unfold len in Hn.
    rewrite repeat_length in Hn. intros Hz. lra. }
  assert (Hne : new <> []) by (intros ->; discriminate Hlen).
  destruct (AggregationFacts.load_test_metrics_returns sqrt np_percentile new _ Hne Htd)
    as [m Hm].
  exists m, w'. rewrite Hm. split; [reflexivity|].
  apply AggregationFacts.load_test_metrics_fields in Hm as (Ht & _). congruence.
Qed.

Lemma load_test_returns_for_positive_count_witness :
  exists m w',
    LoadDriver.run_real_network_load_test Qsqrt (fun _ _ => 0) 3 Samples.flaky_world
    = (Ok m, w')
    /\ Aggregation.total_requests m = 3%nat.
Proof.
  apply load_test_returns_for_positive_count.
  intros [|i]; simpl; discriminate.
Defined.

(** X16.  test_load never raises, whatever the server does and for any
    number of requests, zero included: it issues exactly num_requests calls
    and reports num_requests as total_requests. *)
Theorem test_load_always_reports (num_requests : nat) (w : Simulator.world) :
  exists m w',
    TestLoad.test_load num_requests w = (Ok m, w')
    /\ Aggregation.total_requests m = num_requests
    /\ Simulator.calls w' = (Simulator.calls w + num_requests)%nat.
Proof.
  unfold TestLoad.test_load. cbv [Eff.bind Simulator.time Eff.lift].
  destruct (LoadTestFacts.test_load_loop_spec num_requests [] w)
    as (new & w' & -> & Hlen & Hcalls).
  cbn [app].
  destruct (AggregationFacts.analyze_performance_returns new
              (Simulator.now w' - Simulator.now w)) as [m Hm].
  exists m, w'. rewrite Hm. split; [reflexivity|]. split; [|exact Hcalls].
  rewrite AggregationFacts.analyze_performance_unfold in Hm.
  apply bind_Ok_inv in Hm as (lat & _ & Hm).
  apply bind_Ok_inv in Hm as (sr & _ & Hm).
  apply bind_Ok_inv in Hm as (th & _ & Hm).
  injection Hm as <-. exact Hlen.
Qed.

(** ** Two-sample comparison: edge and error behaviour *)

Module ComparatorEdgeFacts.

Import Eff Comparator Expected.

Section Archived.

Variable alpha : Q.
Variable sqrt : Q -> Q.
Variable shapiro : list Q -> result (Q * Q).
Variable levene : list Q -> list Q -> result (Q * Q).
Variable ttest_ind : list Q -> list Q -> bool -> result (Q * Q).
Variable mannwhitneyu : list Q -> list Q -> result (Q * Q).
Variable t_ppf : Q -> Q -> Q.

Local Notation "'compare'" :=
  (Archived.compare_metrics alpha sqrt shapiro levene ttest_ind mannwhitneyu t_ppf).

(** With a zero divisor the archived analyzer raises ZeroDivisionError,
    whatever the scipy tests returned or raised. *)
Lemma archived_compare_metrics_zero_divisor
    (a b : list Q) (metric : string) (log : list call) :
  (3 <= List.length a)%nat -> (3 <= List.length b)%nat ->
  archived_divisor metric (sum a / len a) (sum b / len b) == 0 ->
  fst (compare a b metric log) = Raise ZeroDivisionError.
Proof.
  intros Ha Hb Hz.
  destruct (compare a b metric log) as [res log'] eqn:Hc. cbn [fst].
  revert Hc. unfold Archived.compare_metrics.
  destruct (List.length a <? 3)%nat eqn:Ea; [apply Nat.ltb_lt in Ea; lia|].
  destruct (List.length b <? 3)%nat eqn:Eb; [apply Nat.ltb_lt in Eb; lia|].
  cbn [orb].
  destruct (ComparatorFacts.describe_spec sqrt a) as (mda & sda & mna & mxa & ->); [lia|].
  destruct (ComparatorFacts.describe_spec sqrt b) as (mdb & sdb & mnb & mxb & ->); [lia|].
  unfold bind at 1, lift at 1. unfold bind at 1, lift at 1. unfold bind at 1.
  destruct (ComparatorFacts.test_normality_spec alpha shapiro a log Ha) as (na & -> & Hna).
  unfold bind at 1.
  destruct (ComparatorFacts.test_normality_spec alpha shapiro b (log ++ [CallShapiro a]) Hb)
    as (nb & -> & Hnb).
  unfold archived_divisor in Hz. cbn [d_mean]. unfold truediv.
  destruct (is_normal na && is_normal nb);
    ComparatorFacts.stat_run;
    repeat match goal with
           | |- context [match levene a b with _ => _ end] =>
             destruct (levene a b) as [[? ?]|?]; ComparatorFacts.stat_run
           | |- context [match ttest_ind a b ?v with _ => _ end] =>
             destruct (ttest_ind a b v) as [[? ?]|?]; ComparatorFacts.stat_run
           | |- context [match mannwhitneyu a b with _ => _ end] =>
             destruct (mannwhitneyu a b) as [[? ?]|?]; ComparatorFacts.stat_run
           end;
    destruct (is_latency_metric metric); ComparatorFacts.stat_run;
    apply Qeq_bool_iff in Hz; rewrite Hz; ComparatorFacts.stat_run;
    now intros [= <- _].
Qed.

End Archived.

Section Optimized.

Variable alpha : Q.
Variable sqrt : Q -> Q.
Variable shapiro : list Q -> result (Q * Q).
Variable ttest_ind : list Q -> list Q -> bool -> result (Q * Q).
Variable mannwhitneyu : list Q -> list Q -> result (Q * Q).

Local Notation "'compare'" :=
  (Optimized.compare_metrics alpha sqrt shapiro ttest_ind mannwhitneyu).

(** The test the optimized analyzer selects. *)
Lemma optimized_compare_metrics_outcome
    (a b : list Q) (metric : string) (log : list call) :
  (3 <= List.length a)%nat -> (3 <= List.length b)%nat ->
  match (if passes_shapiro alpha shapiro a && passes_shapiro alpha shapiro b
         then ttest_ind a b true else mannwhitneyu a b) with
  | Ok (statistic, p_value) =>
    exists c,
      fst (compare a b metric log) = Ok (Compared c)
      /\ st_statistic (c_statistical_test c) = Some statistic
      /\ st_p_value (c_statistical_test c) = Some p_value
      /\ st_significant (c_statistical_test c) = Some (Qlt_bool p_value alpha)
      /\ statistically_significant (c_performance c) = Qlt_bool p_value alpha
  | Raise e => fst (compare a b metric log) = Raise e
  end.
Proof.
  intros Ha Hb.
  destruct (compare a b metric log) as [res log'] eqn:Hc. cbn [fst].
  revert Hc. unfold Optimized.compare_metrics.
  destruct (List.length a <? 3)%nat eqn:Ea; [apply Nat.ltb_lt in Ea; lia|].
  destruct (List.length b <? 3)%nat eqn:Eb; [apply Nat.ltb_lt in Eb; lia|].
  cbn [orb]. unfold bind at 1.
  destruct (ComparatorFacts.test_normality_spec alpha shapiro a log Ha) as (na & -> & Hna).
  unfold bind at 1.
  destruct (ComparatorFacts.test_normality_spec alpha shapiro b (log ++ [CallShapiro a]) Hb)
    as (nb & -> & Hnb).
  rewrite Hna, Hnb. fold (passes_shapiro alpha shapiro a).
  fold (passes_shapiro alpha shapiro b).
  destruct (passes_shapiro alpha shapiro a && passes_shapiro alpha shapiro b);
    ComparatorFacts.stat_run.
  - destruct (ttest_ind a b true) as [[st p]|e]; ComparatorFacts.stat_run;
      intros [= <- _]; [|reflexivity].
    eexists. split; [reflexivity|]. cbn. repeat split.
  - destruct (mannwhitneyu a b) as [[st p]|e]; ComparatorFacts.stat_run;
      intros [= <- _]; [|reflexivity].
    eexists. split; [reflexivity|]. cbn. repeat split.
Qed.

End Optimized.

End ComparatorEdgeFacts.

(** X17.  When either sample has fewer than three values, both analyzers
    return an insufficient_data entry with the two sample sizes and call no
    scipy function. *)
Theorem insufficient_data_skips_tests
    (alpha : Q) (sqrt : Q -> Q)
    (shapiro : list Q -> result (Q * Q))
    (levene : list Q -> list Q -> result (Q * Q))
    (ttest_ind : list Q -> list Q -> bool -> result (Q * Q))
    (mannwhitneyu : list Q -> list Q -> result (Q * Q))
    (t_ppf : Q -> Q -> Q)
    (a b : list Q) (metric : string) (log : list Comparator.call) :
  (List.length a < 3)%nat \/ (List.length b < 3)%nat ->
  Comparator.Archived.compare_metrics alpha sqrt shapiro levene ttest_ind
    mannwhitneyu t_ppf a b metric log
  = (Ok (Comparator.InsufficientData metric (List.length a) (List.length b)), log)
  /\ Comparator.Optimized.compare_metrics alpha sqrt shapiro ttest_ind
       mannwhitneyu a b metric log
     = (Ok (Comparator.InsufficientData metric (List.length a) (List.length b)), log).
Proof.
  intros H.
  assert (E : (List.length a <? 3)%nat || (List.length b <? 3)%nat = true).
  { apply orb_true_iff. rewrite !Nat.ltb_lt. exact H. }
  unfold Comparator.Archived.compare_metrics, Comparator.Optimized.compare_metrics.
  rewrite E. split; reflexivity.
Qed.

Lemma insufficient_data_skips_tests_witness :
  Comparator.Archived.compare_metrics (5 # 100) Qsqrt Samples.shapiro_normal
    Samples.test_stub (fun a b _ => Samples.test_stub a b) Samples.test_stub
    (fun _ _ => 2) [1; 2] [1; 2; 3] "latencies" []
  = (Ok (Comparator.InsufficientData "latencies" 2 3), [])
  /\ Comparator.Optimized.compare_metrics (5 # 100) Qsqrt Samples.shapiro_normal
       (fun a b _ => Samples.test_stub a b) Samples.test_stub
       [1; 2] [1; 2; 3] "latencies" []
     = (Ok (Comparator.InsufficientData "latencies" 2 3), []).
Proof.
  apply (insufficient_data_skips_tests (5 # 100) Qsqrt Samples.shapiro_normal
           Samples.test_stub (fun a b _ => Samples.test_stub a b) Samples.test_stub
           (fun _ _ => 2) [1; 2] [1; 2; 3] "latencies" []).
  left. simpl. lia.
Defined.

(** X18.  For two samples of three values or more the archived analyzer
    absorbs every exception of the scipy tests: it raises only
    ZeroDivisionError, and exactly when the divisor of improvement_percent
    (the larger mean for latency metrics, the smaller one otherwise) is
    zero. *)
Theorem archived_raises_only_on_zero_divisor
    (alpha : Q) (sqrt : Q -> Q)
    (shapiro : list Q -> result (Q * Q))
    (levene : list Q -> list Q -> result (Q * Q))
    (ttest_ind : list Q -> list Q -> bool -> result (Q * Q))
    (mannwhitneyu : list Q -> list Q -> result (Q * Q))
    (t_ppf : Q -> Q -> Q)
    (a b : list Q) (metric : string) (log : list Comparator.call) :
  (3 <= List.length a)%nat -> (3 <= List.length b)%nat ->
  let divisor :=
    Expected.archived_divisor metric (sum a / len a) (sum b / len b) in
  let outcome :=
    fst (Comparator.Archived.compare_metrics alpha sqrt shapiro levene ttest_ind
           mannwhitneyu t_ppf a b metric log) in
  (divisor == 0 -> outcome = Raise ZeroDivisionError)
  /\ (~ divisor == 0 -> exists c, outcome = Ok (Comparator.Compared c)).
Proof.
  intros Ha Hb divisor outcome. split.
  - now apply ComparatorEdgeFacts.archived_compare_metrics_zero_divisor.
  - intros Hd.
    destruct (ComparatorFacts.archived_compare_metrics_spec alpha sqrt shapiro levene
                ttest_ind mannwhitneyu t_ppf a b metric log Ha Hb)
      as (_ & Hr & Hret).
    destruct (Hret Hd) as [r Hok]. destruct (Hr r Hok) as (c & -> & _).
    exists c. exact Hok.
Qed.

(** A Shapiro-Wilk stand-in that always raises. *)
Lemma archived_raises_only_on_zero_divisor_witness :
  exists c,
    fst (Comparator.Archived.compare_metrics (5 # 100) Qsqrt
           (fun _ => Raise (ValueError "shapiro")) (fun _ _ => Raise (ValueError "levene"))
           (fun _ _ _ => Raise (ValueError "ttest"))
           (fun _ _ => Raise (ValueError "mannwhitneyu")) (fun _ _ => 2)
           [1; 2; 3] [4; 5; 6] "throughputs" [])
    = Ok (Comparator.Compared c).
Proof.
  apply (archived_raises_only_on_zero_divisor (5 # 100) Qsqrt
           (fun _ => Raise (ValueError "shapiro")) (fun _ _ => Raise (ValueError "levene"))
           (fun _ _ _ => Raise (ValueError "ttest"))
           (fun _ _ => Raise (ValueError "mannwhitneyu")) (fun _ _ => 2)
           [1; 2; 3] [4; 5; 6] "throughputs" []).
  - simpl. lia.
  - simpl. lia.
  - vm_compute. discriminate.
Defined.

(** X19.  For two samples of three values or more the optimized analyzer
    has no handler around the test it selects: it raises whatever that test
    raises, and otherwise reports the statistic and the p-value the test
    returned, with significant = (p_value < alpha). *)
Theorem optimized_propagates_test_error
    (alpha : Q) (sqrt : Q -> Q)
    (shapiro : list Q -> result (Q * Q))
    (ttest_ind : list Q -> list Q -> bool -> result (Q * Q))
    (mannwhitneyu : list Q -> list Q -> result (Q * Q))
    (a b : list Q) (metric : string) (log : list Comparator.call) :
  (3 <= List.length a)%nat -> (3 <= List.length b)%nat ->
  let outcome :=
    fst (Comparator.Optimized.compare_metrics alpha sqrt shapiro ttest_ind
           mannwhitneyu a b metric log) in
  match (if Expected.passes_shapiro alpha shapiro a
            && Expected.passes_shapiro alpha shapiro b
         then ttest_ind a b true else mannwhitneyu a b) with
  | Ok (statistic, p_value) =>
    exists c,
      outcome = Ok (Comparator.Compared c)
      /\ Comparator.st_statistic (Comparator.c_statistical_test c) = Some statistic
      /\ Comparator.st_p_value (Comparator.c_statistical_test c) = Some p_value
      /\ Comparator.st_significant (Comparator.c_statistical_test c)
         = Some (Qlt_bool p_value alpha)
      /\ Comparator.statistically_significant (Comparator.c_performance c)
         = Qlt_bool p_value alpha
  | Raise e => outcome = Raise e
  end.
Proof.
  intros Ha Hb outcome.
  exact (ComparatorEdgeFacts.optimized_compare_metrics_outcome alpha sqrt shapiro
           ttest_ind mannwhitneyu a b metric log Ha Hb).
Qed.

Lemma optimized_propagates_test_error_witness :
  fst (Comparator.Optimized.compare_metrics (5 # 100) Qsqrt Samples.shapiro_normal
         (fun _ _ _ => Raise (ValueError "ttest")) Samples.test_stub
         [1; 2; 3] [4; 5; 6] "latencies" [])
  = Raise (ValueError "ttest").
Proof.
  apply (optimized_propagates_test_error (5 # 100) Qsqrt Samples.shapiro_normal
           (fun _ _ _ => Raise (ValueError "ttest")) Samples.test_stub
           [1; 2; 3] [4; 5; 6] "latencies" []).
  - simpl. lia.
  - simpl. lia.
Defined.



(** X20.  When both samples pass Shapiro-Wilk but Levene's test or the
    t-test raises, the archived analyzer falls back to Mann-Whitney U: it
    is the last test called, after Levene's, and a returned comparison
    names it (or "error" when Mann-Whitney raises too). *)
Theorem archived_falls_back_to_mann_whitney
    (alpha : Q) (sqrt : Q -> Q)
    (shapiro : list Q -> result (Q * Q))
    (levene : list Q -> list Q -> result (Q * Q))
    (ttest_ind : list Q -> list Q -> bool -> result (Q * Q))
    (mannwhitneyu : list Q -> list Q -> result (Q * Q))
    (t_ppf : Q -> Q -> Q)
    (a b : list Q) (metric : string) (log : list Comparator.call) :
  (3 <= List.length a)%nat -> (3 <= List.length b)%nat ->
  Expected.passes_shapiro alpha shapiro a = true ->
  Expected.passes_shapiro alpha shapiro b = true ->
  (exists e, levene a b = Raise e)
  \/ (exists levene_stat levene_p e,
         levene a b = Ok (levene_stat, levene_p)
         /\ ttest_ind a b (Qlt_bool alpha levene_p) = Raise e) ->
  let outcome :=
    Comparator.Archived.compare_metrics alpha sqrt shapiro levene ttest_ind
      mannwhitneyu t_ppf a b metric log in
  (exists tried,
      snd outcome =
      log ++ [Comparator.CallShapiro a; Comparator.CallShapiro b]
          ++ Comparator.CallLevene a b :: tried ++ [Comparator.CallMannWhitney a b])
  /\ forall c,
      fst outcome = Ok (Comparator.Compared c) ->
      Comparator.st_test (Comparator.c_statistical_test c) =
      match mannwhitneyu a b with
      | Ok _ => "Mann-Whitney U test"
      | Raise _ => "error"
      end%string.
Proof.
  intros Ha Hb Hna Hnb Hfail outcome.
  destruct (ComparatorFacts.archived_compare_metrics_spec alpha sqrt shapiro levene
              ttest_ind mannwhitneyu t_ppf a b metric log Ha Hb)
    as (Hlog & Hr & _).
  subst outcome. rewrite Hlog.
  unfold Expected.archived_test_calls, Expected.archived_test_name in *.
  rewrite Hna, Hnb in *. cbn [andb] in *.
  destruct Hfail as [(e & He) | (ls & lp & e & Hl & Ht)].
  - rewrite He in *. split.
    + exists []. reflexivity.
    + intros c Hc. destruct (Hr _ Hc) as (c' & [= <-] & Hname & _). exact Hname.
  - rewrite Hl, Ht in *. split.
    + exists [Comparator.CallTTest a b (Qlt_bool alpha lp)]. reflexivity.
    + intros c Hc. destruct (Hr _ Hc) as (c' & [= <-] & Hname & _). exact Hname.
Qed.

Lemma archived_falls_back_to_mann_whitney_witness :
  exists tried,
    snd (Comparator.Archived.compare_metrics (5 # 100) Qsqrt Samples.shapiro_normal
           (fun _ _ => Raise (ValueError "levene")) (fun a b _ => Samples.test_stub a b)
           Samples.test_stub (fun _ _ => 2) [1; 2; 3] [4; 5; 6] "latencies" [])
    = [] ++ [Comparator.CallShapiro [1; 2; 3]; Comparator.CallShapiro [4; 5; 6]]
         ++ Comparator.CallLevene [1; 2; 3] [4; 5; 6]
            :: tried ++ [Comparator.CallMannWhitney [1; 2; 3] [4; 5; 6]].
Proof.
  apply (archived_falls_back_to_mann_whitney (5 # 100) Qsqrt Samples.shapiro_normal
           (fun _ _ => Raise (ValueError "levene")) (fun a b _ => Samples.test_stub a b)
           Samples.test_stub (fun _ _ => 2) [1; 2; 3] [4; 5; 6] "latencies" []).
  - simpl. lia.
  - simpl. lia.
  - reflexivity.
  - reflexivity.
  - left. eexists. reflexivity.
Defined.

(** ** The confidence interval of the archived analyzer *)

(** X22.  For two samples without any spread (sample variance 0 in both)
    confidence_interval_difference raises ZeroDivisionError: the degrees
    of freedom are 0/0. *)
Theorem confidence_interval_degenerate
    (sqrt : Q -> Q) (t_ppf : Q -> Q -> Q)
    (group1 group2 : list Q) (confidence : Q) :
  (2 <= List.length group1)%nat -> (2 <= List.length group2)%nat ->
  sample_variance group1 == 0 -> sample_variance group2 == 0 ->
  Comparator.Archived.confidence_interval_difference sqrt t_ppf group1 group2 confidence
  = Raise ZeroDivisionError.
Proof.
  intros H1 H2 Hv1 Hv2.
  unfold Comparator.Archived.confidence_interval_difference.
  destruct group1 as [|x1 [|y1 g1]]; try (simpl in H1; lia).
  destruct group2 as [|x2 [|y2 g2]]; try (simpl in H2; lia).
  cbn [mean variance Py.bind].
  rewrite truediv_zero; [reflexivity|].
  rewrite Hv1, Hv2. unfold Qdiv. rewrite !Qmult_0_l. reflexivity.
Qed.

Lemma confidence_interval_degenerate_witness :
  Comparator.Archived.confidence_interval_difference Qsqrt (fun _ _ => 2)
    [5; 5; 5] [7; 7; 7] (95 # 100)
  = Raise ZeroDivisionError.
Proof.
  apply confidence_interval_degenerate.
  - simpl. lia.
  - simpl. lia.
  - reflexivity.
  - reflexivity.
Defined.

(** ** The archived analysis: extraction, comparison loop, summary *)

Module ArchivedAnalysisFacts.

Import Eff Comparator Expected ArchivedAnalysis SummaryTerms.

Lemma remove_zeros_positive (l : list Q) (x : Q) :
  In x (remove_zeros l) -> 0 < x.
Proof.
  unfold remove_zeros. intros H. apply filter_In in H.
  now apply Qlt_bool_iff.
Qed.

Lemma sum_positive (l : list Q) :
  l <> [] -> (forall x, In x l -> 0 < x) -> 0 < sum l.
Proof.
  induction l as [|x l IH]; intros Hne H; [congruence|].
  rewrite sum_cons.
  pose proof (H x (or_introl eq_refl)) as Hx.
  destruct l as [|y l].
  - change (sum []) with 0. lra.
  - assert (0 < sum (y :: l)).
    { apply IH; [discriminate|]. intros z Hz. apply H. now right. }
    lra.
Qed.

Lemma mean_positive (l : list Q) :
  l <> [] -> (forall x, In x l -> 0 < x) -> 0 < sum l / len l.
Proof.
  intros Hne H. pose proof (sum_positive l Hne H) as Hs.
  destruct l as [|x l]; [congruence|].
  pose proof (len_pos x l) as Hl.
  apply Qlt_shift_div_l; [exact Hl|]. lra.
Qed.

Lemma archived_divisor_positive (metric : string) (x y : Q) :
  0 < x -> 0 < y -> ~ archived_divisor metric x y == 0.
Proof.
  intros Hx Hy. unfold archived_divisor.
  destruct (is_latency_metric metric).
  - destruct (max2_cases x y) as [-> | ->]; lra.
  - destruct (min2_cases x y) as [-> | ->]; lra.
Qed.

Lemma dict_set_Forall {V} (P : V -> Prop) (d : list (string * V)) (key : string) (v : V) :
  Forall (fun e => P (snd e)) d -> P v ->
  Forall (fun e => P (snd e)) (dict_set d key v).
Proof.
  intros Hd Hv. induction Hd as [|[k v0] rest H0 Hrest IH]; cbn [dict_set].
  - constructor; [exact Hv|constructor].
  - destruct (String.eqb k key); constructor; auto.
Qed.

Section Analyzer.

Variable alpha : Q.
Variable sqrt : Q -> Q.
Variable shapiro : list Q -> result (Q * Q).
Variable levene : list Q -> list Q -> result (Q * Q).
Variable ttest_ind : list Q -> list Q -> bool -> result (Q * Q).
Variable mannwhitneyu : list Q -> list Q -> result (Q * Q).
Variable t_ppf : Q -> Q -> Q.

Local Notation "'compare'" :=
  (Archived.compare_metrics alpha sqrt shapiro levene ttest_ind mannwhitneyu t_ppf).

(** Two samples of positive values are always compared: the divisor of
    improvement_percent cannot be zero. *)
Lemma compare_positive_samples (a b : list Q) (metric : string) (log : list call) :
  (forall x, In x a -> 0 < x) -> (forall x, In x b -> 0 < x) ->
  exists r, fst (compare a b metric log) = Ok r /\ readable r.
Proof.
  intros Ha Hb.
  destruct ((List.length a <? 3)%nat || (List.length b <? 3)%nat) eqn:E.
  - unfold Archived.compare_metrics. rewrite E.
    eexists. split; [reflexivity|exact I].
  - apply orb_false_iff in E. destruct E as [Ea Eb].
    apply Nat.ltb_ge in Ea, Eb.
    destruct (ComparatorFacts.archived_compare_metrics_spec alpha sqrt shapiro levene
                ttest_ind mannwhitneyu t_ppf a b metric log Ea Eb)
      as (_ & Hr & Hret).
    destruct Hret as [r Hok].
    { apply archived_divisor_positive; apply mean_positive; auto;
        intros ->; simpl in *; lia. }
    exists r. split; [exact Hok|].
    destruct (Hr r Hok) as (c & -> & _ & He & Hw & _).
    cbn [readable]. split.
    + rewrite Hw.
      apply (winner_one_of_two (is_latency_metric metric)).
    + rewrite He. now destruct (Archived.calculate_cohens_d sqrt a b).
Qed.

Lemma compare_each_readable (todo : list (string * list Q * list Q)) :
  Forall (fun t => (forall x, In x (snd (fst t)) -> 0 < x)
                   /\ (forall x, In x (snd t) -> 0 < x)) todo ->
  forall (comparisons : list (string * report)) (log : list call),
  Forall (fun e => readable (snd e)) comparisons ->
  exists cs,
    fst (compare_each alpha sqrt shapiro levene ttest_ind mannwhitneyu t_ppf
           todo comparisons log) = Ok cs
    /\ Forall (fun e => readable (snd e)) cs.
Proof.
  induction 1 as [|[[metric orch] choreo] rest [Ho Hc] Hrest IH];
    intros comparisons log Hcs; cbn [compare_each].
  - exists comparisons. split; [reflexivity|exact Hcs].
  - cbn [fst snd] in Ho, Hc.
    destruct (truthy orch && truthy choreo); [|now apply IH].
    unfold bind.
    destruct (compare_positive_samples orch choreo metric log Ho Hc) as (r & Hr & Hread).
    destruct (compare orch choreo metric log) as [res log'].
    cbn [fst] in Hr. subst res.
    apply IH. now apply dict_set_Forall.
Qed.

End Analyzer.

Lemma increment_readable (counter : tally) (w : string) :
  w = "orchestrated"%string \/ w = "choreographed"%string ->
  exists counter', increment counter w = Done counter'.
Proof. intros [-> | ->]; eexists; reflexivity. Qed.

Lemma summarise_readable (p : progress) (entry : string * report) :
  readable (snd entry) -> exists p', summarise p entry = Done p'.
Proof.
  destruct entry as [metric [m o c|c]]; cbn [snd readable summarise].
  - intros _. now exists p.
  - intros [Hw He].
    destruct (increment_readable (wins p) _ Hw) as [w' ->].
    destruct (statistically_significant (c_performance c)).
    + destruct (increment_readable (significant_wins p) _ Hw) as [s' ->].
      destruct (c_effect_size c) as [d [i|]|msg]; [| contradiction |]; eexists; reflexivity.
    + destruct (c_effect_size c) as [d [i|]|msg]; [| contradiction |]; eexists; reflexivity.
Qed.

Lemma summarise_all_readable (comparisons : list (string * report)) :
  Forall (fun e => readable (snd e)) comparisons ->
  forall p, exists p', summarise_all comparisons p = Done p'.
Proof.
  induction 1 as [|entry rest He Hrest IH]; intros p; cbn [summarise_all].
  - now exists p.
  - destruct (summarise_readable p entry He) as [p1 ->]. apply IH.
Qed.

Lemma generate_summary_readable (comparisons : list (string * report)) :
  Forall (fun e => readable (snd e)) comparisons ->
  exists s, generate_summary comparisons = Done s.
Proof.
  intros H. unfold generate_summary.
  destruct (summarise_all_readable comparisons H
              (mk_progress (mk_tally 0 0) (mk_tally 0 0) [] [])) as [p ->].
  eexists. reflexivity.
Qed.

(** What one round of the summary loop adds to the counters. *)
Lemma increment_spec (counter counter' : tally) (w : string) :
  increment counter w = Done counter' ->
  (orchestrated counter' + choreographed counter'
   = S (orchestrated counter + choreographed counter))%nat
  /\ (w = "orchestrated"%string /\ orchestrated counter' = S (orchestrated counter)
        /\ choreographed counter' = choreographed counter
      \/ w = "choreographed"%string /\ orchestrated counter' = orchestrated counter
        /\ choreographed counter' = S (choreographed counter)).
Proof.
  unfold increment.
  destruct (String.eqb w "orchestrated") eqn:E1.
  - apply String.eqb_eq in E1. intros [= <-]. cbn. split; [lia|left; auto].
  - destruct (String.eqb w "choreographed") eqn:E2; [|discriminate].
    apply String.eqb_eq in E2. intros [= <-]. cbn. split; [lia|right; auto].
Qed.

Local Notation "'total' t" := (orchestrated t + choreographed t)%nat (at level 10).

Lemma summarise_counts (p p' : progress) (entry : string * report) :
  summarise p entry = Done p' ->
  (total (wins p') = total (wins p) + List.length (filter is_compared [entry]))%nat
  /\ (total (significant_wins p')
      = total (significant_wins p) + List.length (filter is_significant [entry]))%nat
  /\ (List.length (significant_differences p')
      = List.length (significant_differences p)
        + List.length (filter is_significant [entry]))%nat
  /\ ((orchestrated (significant_wins p) <= orchestrated (wins p))%nat ->
      (orchestrated (significant_wins p') <= orchestrated (wins p'))%nat)
  /\ ((choreographed (significant_wins p) <= choreographed (wins p))%nat ->
      (choreographed (significant_wins p') <= choreographed (wins p'))%nat).
Proof.
  destruct entry as [metric [m o c|c]];
    cbn [summarise filter is_compared is_significant snd List.length].
  - intros [= <-]. repeat split; lia.
  - destruct (increment (wins p) (winner (c_performance c))) as [w'|k] eqn:Ew;
      [|discriminate].
    destruct (increment_spec _ _ _ Ew) as (Hw & Hcase).
    destruct (statistically_significant (c_performance c)) eqn:Es.
    + destruct (increment (significant_wins p) (winner (c_performance c)))
        as [s'|k] eqn:Esg; [|discriminate].
      destruct (increment_spec _ _ _ Esg) as (Hs & Hcase').
      destruct (c_effect_size c) as [d [i|]|msg]; try discriminate;
        intros [= <-]; cbn [wins significant_wins significant_differences List.length];
        rewrite ?length_app; cbn [List.length];
        (destruct Hcase as [(E1 & H1 & H2)|(E1 & H1 & H2)];
         destruct Hcase' as [(E2 & H3 & H4)|(E2 & H3 & H4)];
         [| rewrite E1 in E2; discriminate E2 | rewrite E1 in E2; discriminate E2 |]);
        repeat split; lia.
    + destruct (c_effect_size c) as [d [i|]|msg]; try discriminate;
        intros [= <-]; cbn [wins significant_wins significant_differences List.length];
        (destruct Hcase as [(E1 & H1 & H2)|(E1 & H1 & H2)]);
        repeat split; lia.
Qed.

Lemma summarise_all_counts (comparisons : list (string * report)) :
  forall p p' : progress,
  summarise_all comparisons p = Done p' ->
  (total (wins p') = total (wins p) + List.length (filter is_compared comparisons))%nat
  /\ (total (significant_wins p')
      = total (significant_wins p)
        + List.length (filter is_significant comparisons))%nat
  /\ (List.length (significant_differences p')
      = List.length (significant_differences p)
        + List.length (filter is_significant comparisons))%nat
  /\ ((orchestrated (significant_wins p) <= orchestrated (wins p))%nat ->
      (orchestrated (significant_wins p') <= orchestrated (wins p'))%nat)
  /\ ((choreographed (significant_wins p) <= choreographed (wins p))%nat ->
      (choreographed (significant_wins p') <= choreographed (wins p'))%nat).
Proof.
  induction comparisons as [|entry rest IH]; intros p p'; cbn [summarise_all].
  - intros [= <-]. cbn. repeat split; lia.
  - destruct (summarise p entry) as [p1|k] eqn:E1; [|discriminate].
    intros Hrest.
    destruct (summarise_counts _ _ _ E1) as (A1 & A2 & A3 & A4 & A5).
    destruct (IH _ _ Hrest) as (B1 & B2 & B3 & B4 & B5).
    change (entry :: rest) with ([entry] ++ rest).
    rewrite !filter_app, !length_app.
    repeat split; try lia; auto.
Qed.

End ArchivedAnalysisFacts.

(** X23.  The archived analysis never raises on the metrics it extracts
    itself: extract_metrics keeps only the values greater than zero, so
    every sample that reaches compare_metrics has a positive mean and the
    divisor of improvement_percent is not zero; every exception of the
    scipy tests is absorbed; and generate_summary finds in each comparison
    the winner and the keys it reads.  This holds for any two results
    files and whatever the scipy tests return or raise. *)
Theorem archived_analysis_never_raises
    (alpha : Q) (sqrt : Q -> Q)
    (shapiro : list Q -> result (Q * Q))
    (levene : list Q -> list Q -> result (Q * Q))
    (ttest_ind : list Q -> list Q -> bool -> result (Q * Q))
    (mannwhitneyu : list Q -> list Q -> result (Q * Q))
    (t_ppf : Q -> Q -> Q)
    (orchestrated_data choreographed_data : ArchivedAnalysis.pattern_data)
    (log : list Comparator.call) :
  exists comparisons summary,
    fst (ArchivedAnalysis.run_comparisons alpha sqrt shapiro levene ttest_ind
           mannwhitneyu t_ppf orchestrated_data choreographed_data log)
    = Ok comparisons
    /\ ArchivedAnalysis.generate_summary comparisons = ArchivedAnalysis.Done summary.
Proof.
  unfold ArchivedAnalysis.run_comparisons.
  destruct (ArchivedAnalysisFacts.compare_each_readable alpha sqrt shapiro levene
              ttest_ind mannwhitneyu t_ppf
              (ArchivedAnalysis.metrics_to_compare
                 (ArchivedAnalysis.extract_metrics orchestrated_data)
                 (ArchivedAnalysis.extract_metrics choreographed_data)))
    with (comparisons := @nil (string * Comparator.report)) (log := log)
    as (cs & Hcs & Hread).
  - unfold ArchivedAnalysis.metrics_to_compare, ArchivedAnalysis.extract_metrics.
    repeat constructor; cbn; intros x Hx;
      exact (ArchivedAnalysisFacts.remove_zeros_positive _ x Hx).
  - constructor.
  - destruct (ArchivedAnalysisFacts.generate_summary_readable cs Hread) as [s Hs].
    exists cs, s. split; assumption.
Qed.

(** X24.  The counters of a summary the archived generate_summary returns:
    every compared metric is one win, every statistically significant one
    is also a significant win and an entry of significant_differences; the
    overall winner is the pattern with more significant wins and 'tie'
    exactly when they have equally many - in particular when no difference
    is significant, however many metrics one pattern wins. *)
Theorem archived_summary_counts
    (comparisons : list (string * Comparator.report))
    (s : ArchivedAnalysis.summary) :
  ArchivedAnalysis.generate_summary comparisons = ArchivedAnalysis.Done s ->
  let sw := ArchivedAnalysis.s_significant_wins s in
  let tw := ArchivedAnalysis.s_total_wins s in
  let significant := List.length (filter SummaryTerms.is_significant comparisons) in
  (ArchivedAnalysis.orchestrated tw + ArchivedAnalysis.choreographed tw
   = List.length (filter SummaryTerms.is_compared comparisons))%nat
  /\ (ArchivedAnalysis.orchestrated sw + ArchivedAnalysis.choreographed sw
      = significant)%nat
  /\ List.length (ArchivedAnalysis.s_significant_differences s) = significant
  /\ (ArchivedAnalysis.orchestrated sw <= ArchivedAnalysis.orchestrated tw)%nat
  /\ (ArchivedAnalysis.choreographed sw <= ArchivedAnalysis.choreographed tw)%nat
  /\ (ArchivedAnalysis.overall_winner s = "tie"%string
      <-> ArchivedAnalysis.orchestrated sw = ArchivedAnalysis.choreographed sw)
  /\ (ArchivedAnalysis.overall_winner s = "orchestrated"%string
      <-> (ArchivedAnalysis.choreographed sw < ArchivedAnalysis.orchestrated sw)%nat)
  /\ (significant = 0%nat -> ArchivedAnalysis.overall_winner s = "tie"%string).
Proof.
  unfold ArchivedAnalysis.generate_summary.
  destruct (ArchivedAnalysis.summarise_all comparisons _) as [p|k] eqn:E; [|discriminate].
  intros [= <-].
  destruct (ArchivedAnalysisFacts.summarise_all_counts _ _ _ E) as (A1 & A2 & A3 & A4 & A5).
  cbn in A1, A2, A3, A4, A5.
  cbn [ArchivedAnalysis.s_significant_wins ArchivedAnalysis.s_total_wins
       ArchivedAnalysis.s_significant_differences ArchivedAnalysis.overall_winner].
  set (so := ArchivedAnalysis.orchestrated (ArchivedAnalysis.significant_wins p)) in *.
  set (sc := ArchivedAnalysis.choreographed (ArchivedAnalysis.significant_wins p)) in *.
  assert (Hw : (if (sc <? so)%nat then "orchestrated"
                else if (so <? sc)%nat then "choreographed" else "tie")%string
               = "tie"%string <-> so = sc).
  { destruct (sc <? so)%nat eqn:E1; [apply Nat.ltb_lt in E1|apply Nat.ltb_ge in E1].
    - split; [discriminate|lia].
    - destruct (so <? sc)%nat eqn:E2; [apply Nat.ltb_lt in E2|apply Nat.ltb_ge in E2].
      + split; [discriminate|lia].
      + split; [lia|reflexivity]. }
  repeat split; try lia; try (apply Hw); try (intros; apply Hw; lia).
  - destruct (sc <? so)%nat eqn:E1; [apply Nat.ltb_lt in E1; lia|].
    destruct (so <? sc)%nat; discriminate.
  - intros H. apply Nat.ltb_lt in H. now rewrite H.
Qed.

Lemma archived_summary_counts_witness :
  exists s,
    ArchivedAnalysis.generate_summary SummarySamples.two_to_one = ArchivedAnalysis.Done s
    /\ ArchivedAnalysis.overall_winner s = "choreographed"%string
    /\ (ArchivedAnalysis.orchestrated (ArchivedAnalysis.s_total_wins s)
        + ArchivedAnalysis.choreographed (ArchivedAnalysis.s_total_wins s)
        = List.length (filter SummaryTerms.is_compared SummarySamples.two_to_one))%nat.
Proof.
  eexists. split; [vm_compute; reflexivity|]. split; [reflexivity|].
  refine (proj1 (archived_summary_counts SummarySamples.two_to_one _ _)).
  vm_compute. reflexivity.
Defined.

(** ** The optimized analysis: extraction *)

Module OptimizedAnalysisFacts.

Import Eff Comparator OptimizedAnalysis ExtractionTerms.

Lemma normal_returns (loc scale : Q) (g : generator) :
  0 <= scale ->
  normal loc scale g = (Ok (loc + scale * normal_draws g (position g)), advance g).
Proof.
  intros H. unfold normal.
  destruct (Qlt_bool scale 0) eqn:E; [|reflexivity].
  apply Qlt_bool_iff in E. lra.
Qed.

Lemma max2_zero_nonneg (y : Q) : 0 <= max2 0 y.
Proof.
  unfold max2. destruct (Qlt_bool 0 y) eqn:E; [|lra].
  apply Qlt_bool_iff in E. lra.
Qed.

(** A data point drawn around a mean: the draw never raises and the point
    is clipped at zero. *)
Lemma point_returns (std : Q) (f : Q -> Q) (g : generator) :
  (forall x, 0 <= f x) ->
  exists v g', bind (variation std) (fun x => ret (f x)) g = (Ok v, g') /\ 0 <= v.
Proof.
  intros Hf. unfold bind, variation.
  destruct (Qlt_bool 0 std) eqn:E.
  - apply Qlt_bool_iff in E. rewrite normal_returns by lra.
    do 2 eexists. split; [reflexivity|apply Hf].
  - do 2 eexists. split; [reflexivity|apply Hf].
Qed.

Lemma append_points_spec (point : Rand Q) :
  (forall g, exists v g', point g = (Ok v, g') /\ 0 <= v) ->
  forall (n : nat) (values : list Q) (g : generator),
  non_negative values ->
  exists vs g',
    append_points n point values g = (Ok vs, g')
    /\ List.length vs = (List.length values + n)%nat
    /\ non_negative vs.
Proof.
  intros Hp. induction n as [|n IH]; intros values g Hv; cbn [append_points].
  - exists values, g. repeat split; [lia|exact Hv].
  - unfold bind at 1. destruct (Hp g) as (v & g1 & -> & Hv0).
    destruct (IH (values ++ [v]) g1) as (vs & g' & E & Hlen & Hnn).
    { apply Forall_app. split; [exact Hv|]. now constructor. }
    exists vs, g'. repeat split; [exact E| |exact Hnn].
    rewrite Hlen, length_app. cbn. lia.
Qed.

Lemma append_throughputs_non_negative (recent throughputs : list Q) :
  non_negative throughputs -> non_negative (append_throughputs recent throughputs).
Proof.
  revert throughputs.
  induction recent as [|latency rest IH]; intros ths H; cbn [append_throughputs].
  - exact H.
  - destruct (Qlt_bool 0 latency) eqn:E; [|now apply IH].
    apply Qlt_bool_iff in E. apply IH.
    apply Forall_app. split; [exact H|]. constructor; [|constructor].
    destruct (min2_cases 100 (10000 / latency)) as [-> | ->]; [lra|].
    apply Qle_shift_div_l; [exact E|lra].
Qed.

Lemma extract_scenario_spec (m : metrics) (s : scenario_stats) (g : generator) :
  all_non_negative m ->
  exists m' g', extract_scenario m s g = (Ok m', g') /\ all_non_negative m'.
Proof.
  intros (H1 & H2 & H3 & H4). unfold extract_scenario.
  set (n := Z.to_nat (get (runs_count s) 1%Z)).
  unfold bind at 1.
  destruct (append_points_spec _
              (fun g => point_returns (get_field (latency_stats s) std_dev)
                          (fun x => max2 0 (get_field (latency_stats s) mean + x)) g
                          (fun x => max2_zero_nonneg _))
              n (latencies m) g H1) as (l1 & g1 & E1 & _ & N1).
  rewrite E1. unfold bind at 1.
  destruct (append_points_spec _
              (fun g => point_returns (get_field (success_rate_stats s) std_dev)
                          (fun x => max2 0 (min2 1 (get_field (success_rate_stats s) mean + x))) g
                          (fun x => max2_zero_nonneg _))
              n (success_rates m) g1 H3) as (l2 & g2 & E2 & _ & N2).
  rewrite E2. unfold bind at 1.
  destruct (append_points_spec _
              (fun g => point_returns (get_field (p95_latency_stats s) std_dev)
                          (fun x => max2 0 (get_field (p95_latency_stats s) mean + x)) g
                          (fun x => max2_zero_nonneg _))
              n (p95_latencies m) g2 H4) as (l3 & g3 & E3 & _ & N3).
  rewrite E3. unfold ret.
  do 2 eexists. split; [reflexivity|].
  repeat split; cbn; auto using append_throughputs_non_negative.
Qed.

Lemma extract_scenarios_spec (scenarios : list (string * scenario_stats)) :
  forall (m : metrics) (g : generator),
  all_non_negative m ->
  exists m' g', extract_scenarios scenarios m g = (Ok m', g') /\ all_non_negative m'.
Proof.
  induction scenarios as [|[name s] rest IH]; intros m g Hm; cbn [extract_scenarios].
  - exists m, g. split; [reflexivity|exact Hm].
  - unfold bind at 1.
    destruct (extract_scenario_spec m s g Hm) as (m1 & g1 & -> & H1).
    now apply IH.
Qed.

Lemma replicate_spec (rounds : nat) :
  forall (values : list Q) (g : generator),
  non_negative values ->
  exists vs g',
    replicate rounds values g = (Ok vs, g')
    /\ List.length vs = (List.length values + rounds)%nat
    /\ non_negative vs.
Proof.
  induction rounds as [|n IH]; intros values g Hv; cbn [replicate].
  - exists values, g. repeat split; [lia|exact Hv].
  - destruct values as [|x l].
    + destruct (IH ([] ++ [0]) g) as (vs & g' & E & Hlen & Hnn).
      { constructor; [lra|constructor]. }
      exists vs, g'. repeat split; [exact E| |exact Hnn].
      rewrite Hlen. cbn. lia.
    + unfold bind at 1. cbn [choice]. unfold bind at 1.
      rewrite normal_returns
        by (pose proof (Qabs_nonneg
                          (nth (index_draws g (position g) mod List.length (x :: l))
                             (x :: l) 0)); lra).
      match goal with
      | |- context [replicate n ((x :: l) ++ [?v])] =>
        destruct (IH ((x :: l) ++ [v]) (advance (advance g)))
          as (vs & g' & E & Hlen & Hnn)
      end.
      { apply Forall_app. split; [exact Hv|].
        constructor; [apply max2_zero_nonneg|constructor]. }
      exists vs, g'. repeat split; [exact E| |exact Hnn].
      rewrite Hlen, length_app. cbn [List.length]. lia.
Qed.

Lemma ensure_min_samples_spec (values : list Q) (g : generator) :
  non_negative values ->
  exists vs g',
    ensure_min_samples values g = (Ok vs, g')
    /\ (min_samples <= List.length vs)%nat
    /\ non_negative vs.
Proof.
  intros Hv. unfold ensure_min_samples.
  destruct (replicate_spec (min_samples - List.length values) values g Hv)
    as (vs & g' & E & Hlen & Hnn).
  exists vs, g'. repeat split; [exact E| |exact Hnn]. lia.
Qed.

Lemma extract_metrics_spec (pattern : pattern_data) (g : generator) :
  exists m g',
    extract_metrics pattern g = (Ok m, g') /\ all_sized m /\ all_non_negative m.
Proof.
  unfold extract_metrics. unfold bind at 1.
  destruct (extract_scenarios_spec (get (summary_stats pattern) [])
              (mk_metrics [] [] [] []) g) as (m0 & g0 & -> & (H1 & H2 & H3 & H4)).
  { repeat split; constructor. }
  unfold bind at 1.
  destruct (ensure_min_samples_spec _ g0 H1) as (l1 & g1 & -> & S1 & N1).
  unfold bind at 1.
  destruct (ensure_min_samples_spec _ g1 H2) as (l2 & g2 & -> & S2 & N2).
  unfold bind at 1.
  destruct (ensure_min_samples_spec _ g2 H3) as (l3 & g3 & -> & S3 & N3).
  unfold bind at 1.
  destruct (ensure_min_samples_spec _ g3 H4) as (l4 & g4 & -> & S4 & N4).
  unfold ret. do 2 eexists. split; [reflexivity|].
  split; repeat split; cbn; assumption.
Qed.

End OptimizedAnalysisFacts.

(** X25.  The optimized extract_metrics never raises, whatever the results
    file holds and whatever the random generator draws: the scale of every
    normal draw is positive or zero and np.random.choice is only called on
    a non-empty list.  Each of the four lists it returns has at least
    min_samples = 10 values and no value is negative. *)
Theorem optimized_extract_metrics_sizes
    (pattern : OptimizedAnalysis.pattern_data) (g : OptimizedAnalysis.generator) :
  exists m g',
    OptimizedAnalysis.extract_metrics pattern g = (Ok m, g')
    /\ ExtractionTerms.all_sized m
    /\ ExtractionTerms.all_non_negative m.
Proof. exact (OptimizedAnalysisFacts.extract_metrics_spec pattern g). Qed.

(** X26.  The optimized analyzer never reports insufficient_data on the
    metrics it extracts itself: extract_metrics pads every list to ten
    values, so for each of the four metrics compare_metrics consults
    Shapiro-Wilk on both samples and one two-sample test, and what it
    returns is a comparison. *)
Theorem optimized_never_insufficient_data
    (alpha : Q) (sqrt : Q -> Q)
    (shapiro : list Q -> result (Q * Q))
    (ttest_ind : list Q -> list Q -> bool -> result (Q * Q))
    (mannwhitneyu : list Q -> list Q -> result (Q * Q))
    (orchestrated_data choreographed_data : OptimizedAnalysis.pattern_data)
    (g1 g2 g1' g2' : OptimizedAnalysis.generator)
    (orch_metrics choreo_metrics : OptimizedAnalysis.metrics)
    (metric : string) (a b : list Q) (log : list Comparator.call) :
  OptimizedAnalysis.extract_metrics orchestrated_data g1 = (Ok orch_metrics, g1') ->
  OptimizedAnalysis.extract_metrics choreographed_data g2 = (Ok choreo_metrics, g2') ->
  In (metric, a, b) (OptimizedAnalysis.metrics_to_compare orch_metrics choreo_metrics) ->
  let outcome :=
    Comparator.Optimized.compare_metrics alpha sqrt shapiro ttest_ind mannwhitneyu
      a b metric log in
  List.length (snd outcome) = (List.length log + 3)%nat
  /\ forall r, fst outcome = Ok r -> exists c, r = Comparator.Compared c.
Proof.
  intros E1 E2 Hin outcome.
  destruct (OptimizedAnalysisFacts.extract_metrics_spec orchestrated_data g1)
    as (m1 & g1a & E1' & (A1 & A2 & A3 & A4) & _).
  destruct (OptimizedAnalysisFacts.extract_metrics_spec choreographed_data g2)
    as (m2 & g2a & E2' & (B1 & B2 & B3 & B4) & _).
  rewrite E1 in E1'. rewrite E2 in E2'.
  injection E1' as <- _. injection E2' as <- _.
  unfold OptimizedAnalysis.min_samples in *.
  assert (Hlen : (3 <= List.length a)%nat /\ (3 <= List.length b)%nat).
  { cbn in Hin.
    destruct Hin as [H|[H|[H|[H|[]]]]]; injection H as <- <- <-; split; lia. }
  destruct Hlen as [Ha Hb].
  destruct (ComparatorFacts.optimized_compare_metrics_spec alpha sqrt shapiro ttest_ind
              mannwhitneyu a b metric log Ha Hb) as (Hlog & Hr).
  split.
  - subst outcome. rewrite Hlog, length_app. reflexivity.
  - intros r Hok. destruct (Hr r Hok) as (c & -> & _). now exists c.
Qed.

Lemma optimized_never_insufficient_data_witness :
  exists m1 m2 g1' g2',
    OptimizedAnalysis.extract_metrics ExtractionSamples.three_runs
      ExtractionSamples.steady_generator = (Ok m1, g1')
    /\ OptimizedAnalysis.extract_metrics ExtractionSamples.no_summary
         ExtractionSamples.steady_generator = (Ok m2, g2')
    /\ forall r,
         fst (Comparator.Optimized.compare_metrics (5 # 100) Qsqrt
                Samples.shapiro_normal (fun a b _ => Samples.test_stub a b)
                Samples.test_stub
                (OptimizedAnalysis.latencies m1) (OptimizedAnalysis.latencies m2)
                "latencies" []) = Ok r ->
         exists c, r = Comparator.Compared c.
Proof.
  do 4 eexists. split; [vm_compute; reflexivity|].
  split; [vm_compute; reflexivity|].
  refine (proj2 (optimized_never_insufficient_data (5 # 100) Qsqrt
                   Samples.shapiro_normal (fun a b _ => Samples.test_stub a b)
                   Samples.test_stub
                   ExtractionSamples.three_runs ExtractionSamples.no_summary
                   ExtractionSamples.steady_generator ExtractionSamples.steady_generator
                   _ _ _ _ "latencies" _ _ [] _ _ _)).
  - vm_compute. reflexivity.
  - vm_compute. reflexivity.
  - left. reflexivity.
Defined.

(** ** The optimized analysis: improvement and summary *)

Module OptimizedSummaryFacts.

Import Comparator OptimizedAnalysis ExtractionTerms SummaryTerms.

Lemma sum_non_negative (l : list Q) : non_negative l -> 0 <= sum l.
Proof.
  induction 1 as [|x l Hx Hl IH].
  - change (sum []) with 0. lra.
  - rewrite sum_cons. lra.
Qed.

Lemma np_mean_non_negative (sqrt : Q -> Q) (l : list Q) :
  non_negative l -> l <> [] -> 0 <= Optimized.np_mean l.
Proof.
  intros H Hne. unfold Optimized.np_mean.
  destruct l as [|x l]; [congruence|].
  pose proof (len_pos x l). pose proof (sum_non_negative _ H).
  apply Qle_shift_div_l; [assumption|]. lra.
Qed.

Lemma Qlt_bool_false (x y : Q) : Qlt_bool x y = false -> y <= x.
Proof.
  intros E. apply Qnot_lt_le. intros H. apply Qlt_bool_iff in H. congruence.
Qed.

(** |x - y| / max(x, y) * 100 for two means that are not negative. *)
Lemma improvement_bounded (x y : Q) :
  0 <= x -> 0 <= y ->
  match np_scale (np_abs (np_truediv (x - y) (max2 x y))) 100 with
  | Fin q => 0 <= q <= 100 /\ ~ (x == 0 /\ y == 0)
  | NaN => x == 0 /\ y == 0
  | PInf | NInf => False
  end.
Proof.
  intros Hx Hy.
  assert (Hmax : x <= max2 x y /\ y <= max2 x y).
  { unfold max2. destruct (Qlt_bool x y) eqn:L.
    - apply Qlt_bool_iff in L. lra.
    - apply Qlt_bool_false in L. lra. }
  destruct Hmax as [M1 M2]. unfold np_truediv.
  destruct (Qeq_bool (max2 x y) 0) eqn:E.
  - apply Qeq_bool_iff in E.
    assert (Hd : Qeq_bool (x - y) 0 = true) by (apply Qeq_bool_iff; lra).
    rewrite Hd. cbn. split; lra.
  - apply Qeq_bool_neq in E. cbn [np_abs np_scale].
    assert (Hpos : 0 < max2 x y) by lra.
    set (m := max2 x y) in *.
    assert (Hq : Qabs ((x - y) / m) <= 1).
    { apply Qabs_Qle_condition. split.
      - apply Qle_shift_div_l; [exact Hpos|]. lra.
      - apply Qle_shift_div_r; [exact Hpos|]. lra. }
    pose proof (Qabs_nonneg ((x - y) / m)).
    split; [lra|]. intros [Z1 Z2]. apply E. unfold m, max2.
    destruct (Qlt_bool x y); assumption.
Qed.

Lemma add_score_tie (s : score) (weight : nat) : add_score s "tie" weight = s.
Proof. reflexivity. Qed.

Lemma summarise_fold (comparisons : list (string * report)) :
  forall (d d' : list difference) (sc sc' : score),
  fold_left summarise comparisons (d, sc) = (d', sc') ->
  (List.length d'
   = List.length d + List.length (filter is_significant comparisons))%nat
  /\ ((forall metric c, In (metric, Compared c) comparisons ->
         winner (c_performance c) = "orchestrated"%string) ->
      choreographed sc' = choreographed sc
      /\ (orchestrated sc + List.length (filter is_compared comparisons)
          <= orchestrated sc')%nat)
  /\ ((forall metric c, In (metric, Compared c) comparisons ->
         winner (c_performance c) = "choreographed"%string) ->
      orchestrated sc' = orchestrated sc
      /\ (choreographed sc + List.length (filter is_compared comparisons)
          <= choreographed sc')%nat)
  /\ ((forall e, In e comparisons -> is_compared e = false) -> sc' = sc).
Proof.
  induction comparisons as [|[metric r] rest IH]; intros d d' sc sc'.
  - cbn. intros [= <- <-]. repeat split; lia.
  - cbn [fold_left]. destruct r as [m o c|c]; cbn [summarise].
    + rewrite add_score_tie. intros E.
      destruct (IH _ _ _ _ E) as (L & Ho & Hc & Hn).
      cbn [filter is_significant is_compared snd].
      split; [exact L|]. split; [|split].
      * intros H. apply Ho. intros mt c0 Hin. apply (H mt c0). now right.
      * intros H. apply Hc. intros mt c0 Hin. apply (H mt c0). now right.
      * intros H. apply Hn. intros e He. apply H. now right.
    + intros E. destruct (IH _ _ _ _ E) as (L & Ho & Hc & Hn).
      cbn [filter is_significant is_compared snd].
      split; [|split; [|split]].
      * rewrite L. destruct (statistically_significant (c_performance c));
          rewrite ?length_app; cbn [List.length]; lia.
      * intros H. destruct Ho as [O1 O2].
        { intros mt c0 Hin. apply (H mt c0). now right. }
        rewrite (H metric c (or_introl eq_refl)) in O1, O2.
        cbn in O1, O2. cbn [List.length].
        destruct (statistically_significant (c_performance c)); split; lia.
      * intros H. destruct Hc as [O1 O2].
        { intros mt c0 Hin. apply (H mt c0). now right. }
        rewrite (H metric c (or_introl eq_refl)) in O1, O2.
        cbn in O1, O2. cbn [List.length].
        destruct (statistically_significant (c_performance c)); split; lia.
      * intros H. specialize (H (metric, Compared c) (or_introl eq_refl)).
        discriminate H.
Qed.

End OptimizedSummaryFacts.

(** X27.  For two samples without negative values (as extract_metrics
    returns them) the optimized compare_metrics reports an
    improvement_percent between 0 and 100, for every metric: it divides
    the difference of the means by the larger one.  The one exception is
    two samples of zeros only, where it reports NaN; it is never
    infinite. *)
Theorem optimized_improvement_bounded
    (alpha : Q) (sqrt : Q -> Q)
    (shapiro : list Q -> result (Q * Q))
    (ttest_ind : list Q -> list Q -> bool -> result (Q * Q))
    (mannwhitneyu : list Q -> list Q -> result (Q * Q))
    (a b : list Q) (metric : string) (log : list Comparator.call)
    (c : Comparator.comparison) :
  ExtractionTerms.non_negative a -> ExtractionTerms.non_negative b ->
  (3 <= List.length a)%nat -> (3 <= List.length b)%nat ->
  fst (Comparator.Optimized.compare_metrics alpha sqrt shapiro ttest_ind mannwhitneyu
         a b metric log) = Ok (Comparator.Compared c) ->
  match Comparator.improvement_percent (Comparator.c_performance c) with
  | Comparator.Fin q =>
    0 <= q <= 100 /\ ~ (sum a / len a == 0 /\ sum b / len b == 0)
  | Comparator.NaN => sum a / len a == 0 /\ sum b / len b == 0
  | Comparator.PInf | Comparator.NInf => False
  end.
Proof.
  intros Na Nb Ha Hb Hok.
  destruct (ComparatorFacts.optimized_compare_metrics_spec alpha sqrt shapiro ttest_ind
              mannwhitneyu a b metric log Ha Hb) as (_ & Hr).
  destruct (Hr _ Hok) as (c' & [= <-] & _ & _ & _ & _ & ->).
  apply OptimizedSummaryFacts.improvement_bounded;
    apply (OptimizedSummaryFacts.np_mean_non_negative sqrt); auto;
    intros ->; simpl in *; lia.
Qed.

Lemma optimized_improvement_bounded_witness :
  exists c,
    fst (Comparator.Optimized.compare_metrics (5 # 100) Qsqrt
           Samples.shapiro_normal (fun a b _ => Samples.test_stub a b)
           Samples.test_stub [0; 0; 0] [0; 0; 0] "success_rates" [])
    = Ok (Comparator.Compared c)
    /\ Comparator.improvement_percent (Comparator.c_performance c) = Comparator.NaN
    /\ match Comparator.improvement_percent (Comparator.c_performance c) with
       | Comparator.Fin q =>
         0 <= q <= 100 /\ ~ (sum [0; 0; 0] / len [0; 0; 0] == 0
                             /\ sum [0; 0; 0] / len [0; 0; 0] == 0)
       | Comparator.NaN =>
         sum [0; 0; 0] / len [0; 0; 0] == 0 /\ sum [0; 0; 0] / len [0; 0; 0] == 0
       | Comparator.PInf | Comparator.NInf => False
       end.
Proof.
  eexists. split; [vm_compute; reflexivity|]. split; [reflexivity|].
  apply (optimized_improvement_bounded (5 # 100) Qsqrt
           Samples.shapiro_normal (fun a b _ => Samples.test_stub a b)
           Samples.test_stub [0; 0; 0] [0; 0; 0] "success_rates" []).
  - repeat constructor; discriminate.
  - repeat constructor; discriminate.
  - simpl. lia.
  - simpl. lia.
  - vm_compute. reflexivity.
Defined.

(** X28.  The summary of the optimized analyzer never raises; it counts
    every entry of the comparisons, insufficient_data ones included, in
    total_metrics_compared and the significant ones in
    statistically_significant_count.  A pattern that wins every compared
    metric is the overall winner, with or without significance (the
    archived summary answers 'tie' without significance); with nothing
    compared the answer is 'tie'. *)
Theorem optimized_summary_unanimous_winner
    (comparisons : list (string * Comparator.report)) :
  let s := OptimizedAnalysis.generate_summary comparisons in
  OptimizedAnalysis.total_metrics_compared s = List.length comparisons
  /\ OptimizedAnalysis.statistically_significant_count s
     = List.length (filter SummaryTerms.is_significant comparisons)
  /\ List.length (OptimizedAnalysis.significant_differences s)
     = OptimizedAnalysis.statistically_significant_count s
  /\ (OptimizedAnalysis.statistically_significant_count s
      <= OptimizedAnalysis.total_metrics_compared s)%nat
  /\ (forall w : string,
        w = "orchestrated"%string \/ w = "choreographed"%string ->
        (exists metric c, In (metric, Comparator.Compared c) comparisons) ->
        (forall metric c, In (metric, Comparator.Compared c) comparisons ->
           Comparator.winner (Comparator.c_performance c) = w) ->
        OptimizedAnalysis.overall_winner s = w)
  /\ ((forall e, In e comparisons -> SummaryTerms.is_compared e = false) ->
      OptimizedAnalysis.overall_winner s = "tie"%string).
Proof.
  unfold OptimizedAnalysis.generate_summary.
  destruct (fold_left OptimizedAnalysis.summarise comparisons
              ([], OptimizedAnalysis.mk_score 0 0)) as [d' sc'] eqn:E.
  destruct (OptimizedSummaryFacts.summarise_fold _ _ _ _ _ E) as (L & Ho & Hc & Hn).
  cbn [List.length Nat.add] in L.
  cbn [OptimizedAnalysis.total_metrics_compared
       OptimizedAnalysis.statistically_significant_count
       OptimizedAnalysis.significant_differences OptimizedAnalysis.overall_winner
       OptimizedAnalysis.orchestrated OptimizedAnalysis.choreographed] in *.
  split; [reflexivity|]. split; [exact L|]. split; [reflexivity|].
  split; [rewrite L; apply filter_length_le|].
  split.
  - intros w Hw (metric & c & Hin) Hall.
    assert (Hpos : (1 <= List.length (filter SummaryTerms.is_compared comparisons))%nat).
    { assert (Hf : In (metric, Comparator.Compared c)
                     (filter SummaryTerms.is_compared comparisons))
        by (apply filter_In; split; [exact Hin|reflexivity]).
      destruct (filter SummaryTerms.is_compared comparisons); [destruct Hf|].
      cbn. lia. }
    destruct Hw as [-> | ->].
    + destruct (Ho Hall) as [O1 O2].
      replace (OptimizedAnalysis.choreographed sc' <? OptimizedAnalysis.orchestrated sc')%nat
        with true by (symmetry; apply Nat.ltb_lt; lia).
      reflexivity.
    + destruct (Hc Hall) as [O1 O2].
      replace (OptimizedAnalysis.choreographed sc' <? OptimizedAnalysis.orchestrated sc')%nat
        with false by (symmetry; apply Nat.ltb_ge; lia).
      replace (OptimizedAnalysis.orchestrated sc' <? OptimizedAnalysis.choreographed sc')%nat
        with true by (symmetry; apply Nat.ltb_lt; lia).
      reflexivity.
  - intros Hnone. rewrite (Hn Hnone). reflexivity.
Qed.

Lemma optimized_summary_unanimous_winner_witness :
  OptimizedAnalysis.overall_winner
    (OptimizedAnalysis.generate_summary SummarySamples.unanimous)
  = "orchestrated"%string
  /\ exists s,
       ArchivedAnalysis.generate_summary SummarySamples.unanimous
       = ArchivedAnalysis.Done s
       /\ ArchivedAnalysis.overall_winner s = "tie"%string.
Proof.
  split.
  - apply (proj1 (proj2 (proj2 (proj2 (proj2
             (optimized_summary_unanimous_winner SummarySamples.unanimous)))))).
    + left. reflexivity.
    + do 2 eexists. left. reflexivity.
    + intros metric c [H|[H|[H|[]]]]; try discriminate H;
        injection H as _ <-; reflexivity.
  - eexists. split; vm_compute; reflexivity.
Defined.

(** ** Latency distribution *)

Module DistributionFacts.

Import Distribution Percentile.

Lemma percentile_Ok (data : list Q) (p : Q) :
  0 <= p -> exists r, percentile data p = Ok r.
Proof.
  intros Hp. destruct data as [|x d]; [now exists 0|].
  destruct (PercentileFacts.percentile_segment (x :: d) p) as (_ & r & Hr & _);
    [discriminate|assumption|eauto].
Qed.

Lemma stdev_Ok (sqrt : Q -> Q) (l : list Q) :
  (1 <? List.length l)%nat = true ->
  Aggregation.stdev sqrt l = Ok (sqrt (sample_variance l)).
Proof.
  intros H. destruct l as [|x [|y l]]; try discriminate H. reflexivity.
Qed.

Ltac simplify_stats :=
  cbn [Py.bind sample_count mean_ms median_ms min_ms max_ms range_ms
       q1_ms q3_ms p90_ms p95_ms p99_ms iqr_ms].

End DistributionFacts.

(** X29.  The statistics of latency_distribution_analysis.  Without a
    successful sample the function returns None.  With samples it returns
    statistics whose sample_count is their number, whose mean and median
    lie between min and max and whose range is not negative - unless
    there are two samples or more and their mean is zero: then, and only
    then, the coefficient of variation makes it raise ZeroDivisionError.
    No percentile call raises. *)
Theorem latency_distribution_returns_unless_zero_mean
    (sqrt : Q -> Q) (latencies : list Q) :
  match Distribution.latency_distribution sqrt latencies with
  | Ok None => latencies = []
  | Ok (Some d) =>
    latencies <> []
    /\ Distribution.sample_count d = List.length latencies
    /\ Distribution.min_ms d <= Distribution.mean_ms d <= Distribution.max_ms d
    /\ Distribution.min_ms d <= Distribution.median_ms d <= Distribution.max_ms d
    /\ 0 <= Distribution.range_ms d
    /\ ((2 <= List.length latencies)%nat -> ~ Distribution.mean_ms d == 0)
  | Raise e =>
    e = ZeroDivisionError
    /\ (2 <= List.length latencies)%nat
    /\ sum latencies / len latencies == 0
  end.
Proof.
  destruct latencies as [|x l]; [reflexivity|].
  cbv beta iota delta [Distribution.latency_distribution].
  set (L := x :: l).
  assert (Hmean : mean L = Ok (sum L / len L)) by reflexivity.
  destruct (median_Ok L) as [md Hmd]; [discriminate|].
  destruct (Py.min L) as [lo|] eqn:Hlo; [|discriminate Hlo].
  destruct (Py.max L) as [hi|] eqn:Hhi; [|discriminate Hhi].
  destruct (DistributionFacts.percentile_Ok L 25) as [q1 H25]; [discriminate|].
  destruct (DistributionFacts.percentile_Ok L 75) as [q3 H75]; [discriminate|].
  destruct (DistributionFacts.percentile_Ok L 90) as [p90 H90]; [discriminate|].
  destruct (DistributionFacts.percentile_Ok L 95) as [p95 H95]; [discriminate|].
  destruct (DistributionFacts.percentile_Ok L 99) as [p99 H99]; [discriminate|].
  assert (Hall : forall y, In y L -> lo <= y <= hi).
  { intros y Hy. split; [apply (min_spec L lo Hlo)|apply (max_spec L hi Hhi)]; exact Hy. }
  pose proof (mean_bounds L lo hi _ Hall Hmean) as Bmean.
  pose proof (median_bounds L lo hi md Hall Hmd) as Bmed.
  rewrite Hmean, Hmd, H25, H75, H90, H95, H99. cbn [Py.bind].
  destruct (1 <? List.length L)%nat eqn:E1.
  - rewrite (DistributionFacts.stdev_Ok sqrt L E1). cbn [Py.bind].
    apply Nat.ltb_lt in E1. unfold truediv.
    destruct (Qeq_bool (sum L / len L) 0) eqn:Ez.
    + apply Qeq_bool_iff in Ez. cbn [Py.bind]. repeat split; [lia|exact Ez].
    + apply Qeq_bool_neq in Ez. DistributionFacts.simplify_stats.
      repeat split; try discriminate; try lra; try assumption.
  - apply Nat.ltb_ge in E1. DistributionFacts.simplify_stats.
    repeat split; try discriminate; try lra; try lia.
Qed.

(** ** Summary statistics of the real-network suite *)

Module SuiteSummaryFacts.

Import SuiteSummary.

Lemma dict_set_entries {V} (P : string * V -> Prop) (d : list (string * V))
    (key : string) (v : V) :
  Forall P d -> P (key, v) -> Forall P (ArchivedAnalysis.dict_set d key v).
Proof.
  intros Hd Hv. induction Hd as [|[k v0] rest H0 Hrest IH]; cbn [ArchivedAnalysis.dict_set].
  - constructor; [exact Hv|constructor].
  - destruct (String.eqb k key) eqn:E.
    + apply String.eqb_eq in E. subst k. now constructor.
    + now constructor.
Qed.

Lemma dict_set_keys {V} (d : list (string * V)) (key : string) (v : V) (k : string) :
  In k (map fst (ArchivedAnalysis.dict_set d key v)) <-> In k (map fst d) \/ k = key.
Proof.
  induction d as [|[k0 v0] rest IH]; cbn [ArchivedAnalysis.dict_set map fst In].
  - intuition.
  - destruct (String.eqb k0 key) eqn:E; cbn [map fst In].
    + apply String.eqb_eq in E. subst k0. intuition.
    + rewrite IH. intuition.
Qed.

Section Stats.

Variable sqrt : Q -> Q.

Lemma stdev_or_zero_Ok (values : list Q) :
  values <> [] ->
  exists s, stdev_or_zero sqrt values = Ok s
            /\ (List.length values = 1%nat -> s = 0).
Proof.
  intros Hne. unfold stdev_or_zero.
  destruct values as [|x [|y l]]; [congruence| |].
  - exists 0. split; reflexivity.
  - eexists. split; [reflexivity|]. discriminate.
Qed.

(** What the entry of a scenario with runs holds. *)
Lemma scenario_summary_spec (scenario_runs : list scenario_result) :
  scenario_runs <> [] ->
  exists st,
    scenario_summary sqrt scenario_runs = Ok st
    /\ runs_count st = List.length scenario_runs
    /\ (1 <= runs_count st)%nat
    /\ l_min (latency_stats st) <= l_mean (latency_stats st)
       <= l_max (latency_stats st)
    /\ (runs_count st = 1%nat ->
        l_std_dev (latency_stats st) = 0
        /\ s_std_dev (success_rate_stats st) = 0
        /\ s_std_dev (p95_latency_stats st) = 0).
Proof.
  intros Hne. unfold scenario_summary.
  destruct scenario_runs as [|r rs]; [congruence|].
  set (runs := r :: rs).
  assert (Hlen : forall f : scenario_result -> Q,
            List.length (map f runs) = List.length runs)
    by (intros f; apply length_map).
  assert (Hnn : forall f : scenario_result -> Q, map f runs <> []) by discriminate.
  destruct (stdev_or_zero_Ok (map mean_latency_ms runs) (Hnn _)) as (s1 & -> & Z1).
  destruct (stdev_or_zero_Ok (map overall_success_rate runs) (Hnn _)) as (s2 & -> & Z2).
  destruct (stdev_or_zero_Ok (map p95_latency_ms runs) (Hnn _)) as (s3 & -> & Z3).
  rewrite Hlen in Z1, Z2, Z3.
  destruct (mean (map mean_latency_ms runs)) as [m1|] eqn:M1; [|discriminate M1].
  destruct (mean (map overall_success_rate runs)) as [m2|] eqn:M2; [|discriminate M2].
  destruct (mean (map p95_latency_ms runs)) as [m3|] eqn:M3; [|discriminate M3].
  destruct (Py.min (map mean_latency_ms runs)) as [lo|] eqn:Hlo; [|discriminate Hlo].
  destruct (Py.max (map mean_latency_ms runs)) as [hi|] eqn:Hhi; [|discriminate Hhi].
  cbn [Py.bind]. eexists. split; [reflexivity|].
  cbn [runs_count latency_stats success_rate_stats p95_latency_stats
       l_min l_mean l_max l_std_dev s_std_dev].
  split; [reflexivity|]. split; [subst runs; cbn [List.length]; lia|].
  split; [|auto].
  apply (mean_bounds (map mean_latency_ms runs)); [|exact M1].
  intros y Hy. split; [apply (min_spec _ lo Hlo)|apply (max_spec _ hi Hhi)]; exact Hy.
Qed.

Lemma summarise_scenarios_spec (runs : list scenario_result) (configured : list string) :
  forall acc : list (string * scenario_stats),
  Forall (fun e => runs_of (fst e) runs <> []
                   /\ scenario_summary sqrt (runs_of (fst e) runs) = Ok (snd e)) acc ->
  exists stats,
    summarise_scenarios sqrt configured runs acc = Ok stats
    /\ Forall (fun e => runs_of (fst e) runs <> []
                        /\ scenario_summary sqrt (runs_of (fst e) runs) = Ok (snd e))
         stats
    /\ forall name,
         In name (map fst stats)
         <-> In name (map fst acc)
             \/ (In name configured /\ runs_of name runs <> []).
Proof.
  induction configured as [|scenario rest IH]; intros acc Hacc;
    cbn [summarise_scenarios].
  - exists acc. split; [reflexivity|]. split; [exact Hacc|].
    intros name. cbn [In]. tauto.
  - destruct (runs_of scenario runs) as [|r rs] eqn:E.
    + destruct (IH acc Hacc) as (stats & -> & Hst & Hkeys).
      exists stats. split; [reflexivity|]. split; [exact Hst|].
      intros name. rewrite Hkeys. cbn [In]. split.
      * intros [H|[H1 H2]]; [now left|right; auto].
      * intros [H|[[<-|H1] H2]]; [now left|congruence|right; auto].
    + destruct (scenario_summary_spec (r :: rs)) as (st & Est & _); [discriminate|].
      rewrite Est. cbn [Py.bind].
      destruct (IH (ArchivedAnalysis.dict_set acc scenario st)) as (stats & -> & Hst & Hkeys).
      { apply dict_set_entries; [exact Hacc|]. cbn [fst snd]. rewrite E.
        split; [discriminate|exact Est]. }
      exists stats. split; [reflexivity|]. split; [exact Hst|].
      intros name. rewrite Hkeys, dict_set_keys. cbn [In]. split.
      * intros [[H| ->]|[H1 H2]]; [now left| |right; auto].
        right. split; [now left|]. rewrite E. discriminate.
      * intros [H|[[<-|H1] H2]]; [left; now left|left; now right|right; auto].
Qed.

End Stats.

End SuiteSummaryFacts.

(** X30.  generate_summary_stats never raises, whatever runs were stored:
    mean, min, max are only taken of the runs of a scenario that has some
    and stdev only of two or more.  The summary has an entry exactly for
    the configured scenarios that have at least one run (runs of any other
    scenario are counted in total_runs_executed but summarised nowhere);
    in each entry runs_count is the number of runs of the scenario, the
    mean latency lies between min and max, and with a single run every
    std_dev is 0. *)
Theorem summary_stats_cover_executed_scenarios
    (sqrt : Q -> Q) (scenarios : list (string * SuiteSummary.scenario_result)) :
  exists summary_stats metadata,
    SuiteSummary.generate_summary_stats sqrt scenarios = Ok (summary_stats, metadata)
    /\ SuiteSummary.total_runs_executed metadata = List.length scenarios
    /\ (forall name,
          In name (map fst summary_stats)
          <-> In name SuiteSummary.real_world_scenarios
              /\ SuiteSummary.runs_of name (map snd scenarios) <> [])
    /\ (forall name st,
          In (name, st) summary_stats ->
          SuiteSummary.runs_count st
          = List.length (SuiteSummary.runs_of name (map snd scenarios))
          /\ (1 <= SuiteSummary.runs_count st)%nat
          /\ SuiteSummary.l_min (SuiteSummary.latency_stats st)
             <= SuiteSummary.l_mean (SuiteSummary.latency_stats st)
             <= SuiteSummary.l_max (SuiteSummary.latency_stats st)
          /\ (SuiteSummary.runs_count st = 1%nat ->
              SuiteSummary.l_std_dev (SuiteSummary.latency_stats st) = 0
              /\ SuiteSummary.s_std_dev (SuiteSummary.success_rate_stats st) = 0
              /\ SuiteSummary.s_std_dev (SuiteSummary.p95_latency_stats st) = 0)).
Proof.
  unfold SuiteSummary.generate_summary_stats.
  destruct (SuiteSummaryFacts.summarise_scenarios_spec sqrt (map snd scenarios)
              SuiteSummary.real_world_scenarios [])
    as (stats & -> & Hst & Hkeys); [constructor|].
  cbn [Py.bind]. do 2 eexists. split; [reflexivity|].
  split; [reflexivity|]. split.
  - intros name. rewrite Hkeys. cbn [map In]. tauto.
  - intros name st Hin. rewrite Forall_forall in Hst.
    destruct (Hst _ Hin) as [Hne Hsum]. cbn [fst snd] in Hne, Hsum.
    destruct (SuiteSummaryFacts.scenario_summary_spec sqrt _ Hne)
      as (st' & Hsum' & Hcount & Hpos & Hbounds & Hstd).
    rewrite Hsum in Hsum'. injection Hsum' as <-.
    split; [exact Hcount|]. split; [exact Hpos|]. split; [exact Hbounds|exact Hstd].
Qed.
